(** * Used-car dealer finder: the discovery pipeline of [app.py]

    A shallow embedding of the pure helpers ([verify_zipcode],
    [extract_zipcode]), of the Google Places search ([get_dealer_info],
    [process_results]) and of the website analysis ([extract_website_info]),
    with the external services as oracles over an abstract world; then of
    the page ([create_dealer_html] and the handler of the button) and of
    the formatters ([format_website_analysis], [format_business_hours],
    [format_rating]). *)

From Stdlib Require Import String Ascii List NArith ZArith Bool Arith Lia.
From Stdlib Require Import Permutation.
Import ListNotations.

Set Implicit Arguments.
Set Warnings "-register-all".
Set Warnings "-abstract-large-number".

(** ** Python strings

    A Python 3 [str] is a sequence of Unicode code points. *)

Definition codepoint := N.
Definition pystr := list codepoint.

Definition pystr_eqb (a b : pystr) : bool :=
  if list_eq_dec N.eq_dec a b then true else false.

(** An ASCII literal of the source as a [pystr]. *)
Definition str (s : string) : pystr :=
  map N_of_ascii (list_ascii_of_string s).

Definition LF : codepoint := 10%N.
Definition COMMA : codepoint := 44%N.
Definition HYPHEN : codepoint := 45%N.
Definition SPACE : codepoint := 32%N.

(** ** Character classes of the [re] module on [str] patterns

    For a [str] pattern [\d] is every code point of category Nd and [\s] is
    every code point for which [str.isspace] holds.  The tables are those of
    Unicode 14.0; each entry is (first code point, length of the run). *)

Definition in_ranges (rs : list (N * N)) (c : codepoint) : bool :=
  existsb (fun r => (fst r <=? c)%N && (c <? fst r + snd r)%N) rs.

Definition nd_ranges : list (N * N) :=
  [ (0x30, 10); (0x660, 10); (0x6f0, 10); (0x7c0, 10); (0x966, 10);
    (0x9e6, 10); (0xa66, 10); (0xae6, 10); (0xb66, 10); (0xbe6, 10);
    (0xc66, 10); (0xce6, 10); (0xd66, 10); (0xde6, 10); (0xe50, 10);
    (0xed0, 10); (0xf20, 10); (0x1040, 10); (0x1090, 10); (0x17e0, 10);
    (0x1810, 10); (0x1946, 10); (0x19d0, 10); (0x1a80, 10); (0x1a90, 10);
    (0x1b50, 10); (0x1bb0, 10); (0x1c40, 10); (0x1c50, 10); (0xa620, 10);
    (0xa8d0, 10); (0xa900, 10); (0xa9d0, 10); (0xa9f0, 10); (0xaa50, 10);
    (0xabf0, 10); (0xff10, 10); (0x104a0, 10); (0x10d30, 10); (0x11066, 10);
    (0x110f0, 10); (0x11136, 10); (0x111d0, 10); (0x112f0, 10); (0x11450, 10);
    (0x114d0, 10); (0x11650, 10); (0x116c0, 10); (0x11730, 10); (0x118e0, 10);
    (0x11950, 10); (0x11c50, 10); (0x11d50, 10); (0x11da0, 10); (0x16a60, 10);
    (0x16ac0, 10); (0x16b50, 10); (0x1d7ce, 50); (0x1e140, 10); (0x1e2f0, 10);
    (0x1e950, 10); (0x1fbf0, 10) ]%N.

Definition space_ranges : list (N * N) :=
  [ (0x09, 5); (0x1c, 4); (0x20, 1); (0x85, 1); (0xa0, 1); (0x1680, 1);
    (0x2000, 11); (0x2028, 2); (0x202f, 1); (0x205f, 1); (0x3000, 1) ]%N.

Definition is_unicode_decimal : codepoint -> bool := in_ranges nd_ranges.
Definition is_unicode_space : codepoint -> bool := in_ranges space_ranges.

Definition is_ascii_digit (c : codepoint) : bool :=
  (48 <=? c)%N && (c <=? 57)%N.

(** ** The fragment of regular expressions the source uses

    Character sets, the anchors [^] and [$], concatenation, counted
    repetition [{n}] and capturing groups.  The fragment has no choice
    point, so matching at a position is a function. *)

Inductive set_item : Type :=
| SLit (c : codepoint)      (* a literal character *)
| SDigit                    (* \d *)
| SSpace.                   (* \s *)

Definition item_matches (i : set_item) (c : codepoint) : bool :=
  match i with
  | SLit l => N.eqb c l
  | SDigit => is_unicode_decimal c
  | SSpace => is_unicode_space c
  end.

Inductive regex : Type :=
| RSet (items : list set_item)
| RBol                           (* ^ *)
| REol                           (* $ *)
| RCat (r1 r2 : regex)
| RRepeat (r : regex) (n : nat)  (* r{n} *)
| RGroup (r : regex).            (* ( r ) *)

(** The position reached in the subject, what is left of it, and the text
    of the groups closed so far. *)
Record mstate : Type := MState {
  m_pos : nat;
  m_rest : pystr;
  m_groups : list pystr
}.

Fixpoint rmatch (r : regex) (st : mstate) : option mstate :=
  match r with
  | RSet items =>
      match m_rest st with
      | c :: tl =>
          if existsb (fun i => item_matches i c) items
          then Some (MState (S (m_pos st)) tl (m_groups st))
          else None
      | [] => None
      end
  | RBol => if Nat.eqb (m_pos st) 0 then Some st else None
  | REol =>
      (* without MULTILINE: at the end, or before a newline that ends the
         subject *)
      match m_rest st with
      | [] => Some st
      | [c] => if N.eqb c LF then Some st else None
      | _ => None
      end
  | RCat r1 r2 =>
      match rmatch r1 st with
      | Some st' => rmatch r2 st'
      | None => None
      end
  | RRepeat r' n =>
      (fix rep (k : nat) (s : mstate) : option mstate :=
         match k with
         | O => Some s
         | S k' =>
             match rmatch r' s with
             | Some s' => rep k' s'
             | None => None
             end
         end) n st
  | RGroup r' =>
      match rmatch r' st with
      | Some st' =>
          Some (MState (m_pos st') (m_rest st')
                  (m_groups st'
                   ++ [firstn (m_pos st' - m_pos st) (m_rest st)]))
      | None => None
      end
  end.

(** [re.match]: the pattern is tried at the start of the subject only. *)
Definition re_match (r : regex) (s : pystr) : option mstate :=
  rmatch r (MState 0 s []).

(** [re.search]: the leftmost position at which the pattern matches. *)
Fixpoint search_from (r : regex) (pos : nat) (s : pystr) : option mstate :=
  match rmatch r (MState pos s []) with
  | Some m => Some m
  | None =>
      match s with
      | [] => None
      | _ :: tl => search_from r (S pos) tl
      end
  end.

Definition re_search (r : regex) (s : pystr) : option mstate :=
  search_from r 0 s.

(** [match.group(k)] for [k >= 1]. *)
Definition group (m : mstate) (k : nat) : option pystr :=
  nth_error (m_groups m) (k - 1).

(** ** [verify_zipcode] and [extract_zipcode] *)

(** [r'^\d{5}$'] *)
Definition zipcode_pattern : regex :=
  RCat RBol (RCat (RRepeat (RSet [SDigit]) 5) REol).

Definition verify_zipcode (zipcode : pystr) : bool :=
  match re_match zipcode_pattern zipcode with
  | Some _ => true
  | None => false
  end.

(** [r'[,\s](\d{5})[,\s-]'] *)
Definition address_zip_pattern : regex :=
  RCat (RSet [SLit COMMA; SSpace])
    (RCat (RGroup (RRepeat (RSet [SDigit]) 5))
          (RSet [SLit COMMA; SSpace; SLit HYPHEN])).

(** The argument is a [str] here, so the [try] never sees an exception. *)
Definition extract_zipcode (address : pystr) : option pystr :=
  match re_search address_zip_pattern address with
  | Some m => group m 1
  | None => None
  end.

(** *** What the two patterns accept *)

Definition lead_delim (c : codepoint) : bool :=
  N.eqb c COMMA || is_unicode_space c.

Definition trail_delim (c : codepoint) : bool :=
  N.eqb c COMMA || is_unicode_space c || N.eqb c HYPHEN.

Definition all_decimal (z : pystr) : bool := forallb is_unicode_decimal z.

(** [z] is a run of five digits of [a] that starts right after [pre] and
    one delimiter, and is followed by a delimiter. *)
Definition delimited_run (a pre z : pystr) : Prop :=
  exists d1 d2 post,
    a = pre ++ d1 :: z ++ d2 :: post /\
    length z = 5 /\
    all_decimal z = true /\
    lead_delim d1 = true /\
    trail_delim d2 = true.

Definition address_step (s : pystr) : option (pystr * pystr) :=
  match s with
  | d1 :: a :: b :: c :: d :: e :: d2 :: tl =>
      if lead_delim d1 && all_decimal [a; b; c; d; e] && trail_delim d2
      then Some ([a; b; c; d; e], tl)
      else None
  | _ => None
  end.

Definition ranges_disjoint (rs1 rs2 : list (N * N)) : bool :=
  forallb (fun r1 =>
    forallb (fun r2 => (fst r1 + snd r1 <=? fst r2)%N
                       || (fst r2 + snd r2 <=? fst r1)%N) rs2) rs1.

(** What [verify_zipcode] accepts: five Unicode decimal digits, with or
    without one final line feed. *)
Definition zipcode_shape (s : pystr) : bool :=
  match s with
  | a :: b :: c :: d :: e :: tl =>
      all_decimal [a; b; c; d; e]
      && match tl with
         | [] => true
         | [n] => N.eqb n LF
         | _ => false
         end
  | _ => false
  end.

(** The specification's predicate for [verify_zipcode]: exactly five ASCII
    decimal digits. *)
Definition five_ascii_digits (s : pystr) : bool :=
  Nat.eqb (length s) 5 && forallb is_ascii_digit s.

(** ** Values exchanged with the services *)

(** A decoded JSON value.  A Python [float] is the dyadic [m * 2^e]. *)
Inductive json : Type :=
| JNull
| JBool (b : bool)
| JInt (z : Z)
| JFloat (m e : Z)
| JStr (s : pystr)
| JArr (items : list json)
| JObj (members : list (pystr * json)).

(** An exception of class [Exception]; [exn_str] is [str(e)]. *)
Record exn : Type := Exn { exn_str : pystr }.

Definition KeyError (key : string) : exn :=
  Exn (str "'" ++ str key ++ str "'").
Definition IndexError : exn := Exn (str "list index out of range").
Definition TypeError_json_loads_None : exn :=
  Exn (str "the JSON object must be str, bytes or bytearray, not NoneType").

(** What a call to a service does: it returns or it raises. *)
Inductive reply (A : Type) : Type :=
| Returns (a : A)
| Raises (e : exn).
Arguments Raises {A} e.

(** One element of [gmaps.geocode(...)]; the fields are absent when the
    key is. *)
Record geometry : Type := Geometry { location : option json }.
Record geocode_entry : Type := GeocodeEntry { ge_geometry : option geometry }.

(** One element of [places_result['results']]. *)
Record place_hit : Type := PlaceHit { hit_place_id : option pystr }.

(** The response of [gmaps.places_nearby]. *)
Record places_page : Type := PlacesPage {
  results : option (list place_hit);
  next_page_token : option pystr
}.

(** [gmaps.place(...)['result']]. *)
Record place_details : Type := PlaceDetails {
  d_name : option pystr;
  d_formatted_address : option pystr;
  d_formatted_phone_number : option pystr;
  d_website : option pystr
}.
Record place_response : Type := PlaceResponse { result : option place_details }.

Inductive nearby_request : Type :=
| NearbySearch (loc : json) (radius : N) (keyword type : pystr)
| NearbyNextPage (loc : json) (page_token : pystr).

(** The dict built by [process_results]. *)
Record dealer : Type := Dealer {
  business_name : option pystr;
  full_address : option pystr;
  phone_number : option pystr;
  website : option pystr;
  place_id : pystr
}.

Record http_response : Type := HttpResponse { text : pystr }.

Record chat_request : Type := ChatRequest {
  model : pystr;
  messages : list (pystr * pystr);      (* (role, content) *)
  temperature : json;
  max_tokens : N
}.

(** [choices[i].message.content], [None] when the content is. *)
Record chat_response : Type := ChatResponse { choices : list (option pystr) }.

(** A parsed document: text nodes, the other strings of the tree (comments,
    doctype and the like, which [stripped_strings] does not yield) and
    tags. *)
Inductive html_node : Type :=
| HText (s : pystr)
| HOther (s : pystr)
| HTag (name : pystr) (children : list html_node).

(** ** What a run does, in order *)

Inductive event : Type :=
| EvGeocode (address : pystr) (r : reply (list geocode_entry))
| EvPlacesNearby (req : nearby_request) (r : reply places_page)
| EvPlace (pid : pystr) (fields : list pystr) (r : reply place_response)
| EvFetchUrl (url : pystr) (r : reply (option pystr))
| EvTrafilaturaExtract (downloaded : pystr) (r : reply (option pystr))
| EvRequestsGet (url : pystr) (timeout : N) (r : reply http_response)
| EvChatCompletion (req : chat_request) (r : reply chat_response)
| EvSleep (milliseconds : N)
| EvSpinner (msg : pystr)
| EvStError (msg : pystr)
| EvStWarning (msg : pystr)
| EvStWrite (args : list pystr)
| EvStWriteTraceback (e : exn).

(** ** The monad of the effectful code

    A computation runs from a state of the outside world, ends in a value,
    an exception or with its fuel spent, and leaves the world changed and
    a trace of what it did. *)

Inductive outcome (A : Type) : Type :=
| Ok (a : A)
| Raise (e : exn)
| OutOfFuel.
Arguments Raise {A} e.
Arguments OutOfFuel {A}.

Section Effects.

Variable W : Type.

Definition M (A : Type) : Type := W -> outcome A * W * list event.

Definition ret {A} (a : A) : M A := fun w => (Ok a, w, []).

Definition bind {A B} (m : M A) (f : A -> M B) : M B :=
  fun w =>
    match m w with
    | (Ok a, w', t) =>
        match f a w' with
        | (r, w'', t') => (r, w'', t ++ t')
        end
    | (Raise e, w', t) => (Raise e, w', t)
    | (OutOfFuel, w', t) => (OutOfFuel, w', t)
    end.

Definition raise {A} (e : exn) : M A := fun w => (Raise e, w, []).

Definition out_of_fuel {A} : M A := fun w => (OutOfFuel, w, []).

(** [try: m except Exception as e: h e] *)
Definition try_except {A} (m : M A) (h : exn -> M A) : M A :=
  fun w =>
    match m w with
    | (Raise e, w', t) =>
        match h e w' with
        | (r, w'', t') => (r, w'', t ++ t')
        end
    | other => other
    end.

Definition emit (ev : event) : M unit := fun w => (Ok tt, w, [ev]).

(** A call to a service, recorded with its reply. *)
Definition call {A} (oracle : W -> reply A * W) (ev : reply A -> event)
  : M A :=
  fun w =>
    match oracle w with
    | (Returns a, w') => (Ok a, w', [ev (Returns a)])
    | (Raises e, w') => (Raise e, w', [ev (Raises e)])
    end.

(** The result of a pure library function that may raise. *)
Definition lift_reply {A} (r : reply A) : M A :=
  match r with
  | Returns a => ret a
  | Raises e => raise e
  end.

(** [d[key]] on a dict in which the key may be missing. *)
Definition getitem {A} (field : option A) (key : string) : M A :=
  match field with
  | Some a => ret a
  | None => raise (KeyError key)
  end.

End Effects.

Arguments ret {W A} a.
Arguments raise {W A} e.
Arguments out_of_fuel {W A}.

Declare Scope py_scope.
Delimit Scope py_scope with py.
Notation "x <- m ;; k" := (bind m (fun x => k))
  (at level 61, m at next level, right associativity) : py_scope.
Notation "m ;; k" := (bind m (fun _ => k))
  (at level 61, right associativity) : py_scope.
Local Open Scope py_scope.

(** ** The Google Maps client *)

Record gmaps_client (W : Type) : Type := GmapsClient {
  geocode : pystr -> W -> reply (list geocode_entry) * W;
  places_nearby : nearby_request -> W -> reply places_page * W;
  place : pystr -> list pystr -> W -> reply place_response * W
}.

(** ** [process_results] *)

Definition detail_fields : list pystr :=
  [str "name"; str "formatted_address"; str "formatted_phone_number";
   str "website"; str "place_id"].

(** [address_zipcode == target_zipcode], the left side a [str] or [None]. *)
Definition zipcode_equal (address_zipcode : option pystr)
  (target_zipcode : pystr) : bool :=
  match address_zipcode with
  | Some z => pystr_eqb z target_zipcode
  | None => false
  end.

Definition make_dealer (details : place_details) (pid : pystr) : dealer :=
  Dealer (d_name details) (d_formatted_address details)
         (d_formatted_phone_number details) (d_website details) pid.

(** The postal code [process_results] reads off the details. *)
Definition details_zipcode (details : place_details) : option pystr :=
  extract_zipcode
    (match d_formatted_address details with Some a => a | None => [] end).

Section Search.

Variable W : Type.
Variable gmaps : gmaps_client W.

(** The body of the [for] loop, with its [try]/[except]. *)
Definition process_place (hit : place_hit) (dealers : list dealer)
  (target_zipcode : pystr) : M W (list dealer) :=
  try_except
    (pid <- getitem (hit_place_id hit) "place_id" ;;
     response <- call (place gmaps pid detail_fields)
                      (EvPlace pid detail_fields) ;;
     details <- getitem (result response) "result" ;;
     let address_zipcode := details_zipcode details in
     let dealers' :=
       if zipcode_equal address_zipcode target_zipcode
       then dealers ++ [make_dealer details pid]
       else dealers in
     emit (EvSleep 100) ;;
     ret dealers')
    (fun e =>
       emit (EvStWarning (str "Error processing dealer: " ++ exn_str e)) ;;
       ret dealers).

Fixpoint process_results (hits : list place_hit) (dealers : list dealer)
  (target_zipcode : pystr) : M W (list dealer) :=
  match hits with
  | [] => ret dealers
  | hit :: rest =>
      dealers' <- process_place hit dealers target_zipcode ;;
      process_results rest dealers' target_zipcode
  end.

(** ** [get_dealer_info] *)

Definition search_queries : list pystr :=
  [str "independent used car dealer";
   str "used car dealer";
   str "pre-owned car dealer";
   str "used auto sales";
   str "used vehicle dealer"].

(** [if places_result.get('results'): process_results(...)] *)
Definition process_page (places_result : places_page)
  (dealers : list dealer) (zipcode : pystr) : M W (list dealer) :=
  match results places_result with
  | Some (hit :: rest) => process_results (hit :: rest) dealers zipcode
  | _ => ret dealers
  end.

(** The [while 'next_page_token' in places_result] loop; [fuel] bounds the
    number of its iterations. *)
Fixpoint next_pages (fuel : nat) (loc : json) (places_result : places_page)
  (dealers : list dealer) (zipcode : pystr) : M W (list dealer) :=
  match next_page_token places_result with
  | None => ret dealers
  | Some token =>
      match fuel with
      | O => out_of_fuel
      | S fuel' =>
          emit (EvSleep 2000) ;;
          places_result' <- call (places_nearby gmaps
                                    (NearbyNextPage loc token))
                                 (EvPlacesNearby (NearbyNextPage loc token)) ;;
          dealers' <- process_page places_result' dealers zipcode ;;
          next_pages fuel' loc places_result' dealers' zipcode
      end
  end.

Definition first_request (loc : json) (query : pystr) : nearby_request :=
  NearbySearch loc 15000 query (str "car_dealer").

(** One turn of [for query in search_queries]. *)
Definition search_query (fuel : nat) (loc : json) (query : pystr)
  (dealers : list dealer) (zipcode : pystr) : M W (list dealer) :=
  places_result <- call (places_nearby gmaps (first_request loc query))
                        (EvPlacesNearby (first_request loc query)) ;;
  match results places_result with
  | Some (hit :: rest) =>
      dealers' <- process_results (hit :: rest) dealers zipcode ;;
      next_pages fuel loc places_result dealers' zipcode
  | _ => ret dealers
  end.

Fixpoint search_all (fuel : nat) (loc : json) (queries : list pystr)
  (dealers : list dealer) (zipcode : pystr) : M W (list dealer) :=
  match queries with
  | [] => ret dealers
  | query :: rest =>
      dealers' <- search_query fuel loc query dealers zipcode ;;
      search_all fuel loc rest dealers' zipcode
  end.

(** [{dealer['place_id']: dealer for dealer in dealers}]: a dict keeps the
    position of the first insertion of a key and the value of the last. *)
Fixpoint dict_set (d : list (pystr * dealer)) (k : pystr) (v : dealer)
  : list (pystr * dealer) :=
  match d with
  | [] => [(k, v)]
  | (k', v') :: tl =>
      if pystr_eqb k' k then (k', v) :: tl else (k', v') :: dict_set tl k v
  end.

Definition dict_of_dealers (dealers : list dealer) : list (pystr * dealer) :=
  fold_left (fun d x => dict_set d (place_id x) x) dealers [].

(** [list({...}.values())] *)
Definition unique_dealers (dealers : list dealer) : list dealer :=
  map snd (dict_of_dealers dealers).

(** [None] is the failure result, [Some] the list of dealers. *)
Definition get_dealer_info (fuel : nat) (zipcode : pystr)
  : M W (option (list dealer)) :=
  try_except
    (geocode_result <- call (geocode gmaps zipcode) (EvGeocode zipcode) ;;
     match geocode_result with
     | [] =>
         emit (EvStError (str "Could not find location for zip code "
                          ++ zipcode)) ;;
         ret None
     | first :: _ =>
         geom <- getitem (ge_geometry first) "geometry" ;;
         loc <- getitem (location geom) "location" ;;
         emit (EvSpinner
                 (str "Searching for independent used car dealers...")) ;;
         dealers <- search_all fuel loc search_queries [] zipcode ;;
         ret (Some (unique_dealers dealers))
     end)
    (fun e =>
       emit (EvStError (str "Error finding dealer information: "
                        ++ exn_str e)) ;;
       ret None).

End Search.

(** ** [extract_website_info] *)

(** The text of a literal of the source in which [$] stands for the double
    quote. *)
Definition literal (s : string) : pystr :=
  map (fun c => if N.eqb c 36 then 34%N else c) (str s).

(** The f-string [analysis_prompt], before and after the embedded
    [text_content[:4000]]. *)
Definition prompt_head : pystr := literal "
        Analyze this car dealer website content and extract the following information in a structured format.
        Be thorough and try to find as much information as possible for each category.
        If you're not completely sure about something, include it anyway with appropriate wording.

        Website Content:
        ".

Definition prompt_tail : pystr := literal "

        Please extract and format the information into these categories:
        1. Inventory Highlights - What types of vehicles do they specialize in? What brands or types of cars do they mention?
        2. Special Offers - Any promotions, deals, or special financing offers mentioned?
        3. Financing Options - What financing services or options do they provide?
        4. Additional Services - What other services do they offer? (maintenance, warranties, etc.)
        5. Company Background - Any information about their history, experience, or reputation?
        6. Unique Selling Points - What makes them different from other dealers?
        7. Customer Policies - Any information about warranties, returns, or customer service policies?
        8. Contact Details - Look for any additional contact information such as:
           - Alternative phone numbers
           - Email addresses
           - Social media links
           - Fax numbers
           - Department-specific contacts
        9. Management/Staff - Look for information about:
           - Owner/dealer principal name
           - Management team
           - Key staff members
           - Years of experience
           - Professional certifications or affiliations

        Format the response as JSON with these exact keys:
        {
            $inventory_highlights$: [$point 1$, $point 2$, ...],
            $special_offers$: [$offer 1$, $offer 2$, ...],
            $financing_options$: [$option 1$, $option 2$, ...],
            $services$: [$service 1$, $service 2$, ...],
            $company_background$: $brief history$,
            $unique_points$: [$point 1$, $point 2$, ...],
            $policies$: [$policy 1$, $policy 2$, ...],
            $contact_details$: {
                $phone_numbers$: [$number 1$, $number 2$, ...],
                $emails$: [$email 1$, $email 2$, ...],
                $social_media$: [$link 1$, $link 2$, ...],
                $other_contact$: [$detail 1$, $detail 2$, ...]
            },
            $management_info$: {
                $owner$: $name if available$,
                $team$: [$person 1 and role$, $person 2 and role$, ...],
                $experience$: $years or description$,
                $certifications$: [$cert 1$, $cert 2$, ...]
            }
        }

        If you can't find information for a category, include it with an empty list or appropriate null values.
        Try to be comprehensive and include any relevant information you find.
        ".

Definition system_content : pystr :=
  str "You are an expert at analyzing car dealer websites and extracting relevant business information. Be thorough and comprehensive in your analysis. Always return valid JSON.".

Definition analysis_prompt (text_content : pystr) : pystr :=
  prompt_head ++ firstn 4000 text_content ++ prompt_tail.

Definition analysis_request (text_content : pystr) : chat_request :=
  ChatRequest (str "gpt-3.5-turbo-16k")
    [(str "system", system_content);
     (str "user", analysis_prompt text_content)]
    (JFloat 1 (-1))            (* 0.5 *)
    2000.

(** [str.strip()] *)
Fixpoint lstrip (s : pystr) : pystr :=
  match s with
  | c :: tl => if is_unicode_space c then lstrip tl else s
  | [] => []
  end.

Definition strip (s : pystr) : pystr := rev (lstrip (rev (lstrip s))).

(** [sep.join(parts)] *)
Fixpoint join (sep : pystr) (parts : list pystr) : pystr :=
  match parts with
  | [] => []
  | [x] => x
  | x :: tl => x ++ sep ++ join sep tl
  end.

(** [for script in soup(names): script.decompose()]: every tag with one of
    the names leaves the tree, with all it contains. *)
Fixpoint decompose (names : list pystr) (n : html_node) : list html_node :=
  match n with
  | HTag name children =>
      if existsb (pystr_eqb name) names then []
      else [HTag name (flat_map (decompose names) children)]
  | other => [other]
  end.

Fixpoint strings (n : html_node) : list pystr :=
  match n with
  | HText s => [s]
  | HOther _ => []
  | HTag _ children => flat_map strings children
  end.

(** [soup.stripped_strings] *)
Definition stripped_strings (soup : list html_node) : list pystr :=
  filter (fun s => match s with [] => false | _ => true end)
         (map strip (flat_map strings soup)).

(** The Python value [None]; [json.loads] gives it for [null]. *)
Definition PyNone : json := JNull.

(** The libraries [extract_website_info] relies on.  [html_parser] is
    [BeautifulSoup(text, 'html.parser')], the parsed tree; [json_loads]
    is [json.loads] on a [str]. *)
Record web_client (W : Type) : Type := WebClient {
  fetch_url : pystr -> W -> reply (option pystr) * W;
  trafilatura_extract : pystr -> W -> reply (option pystr) * W;
  requests_get : pystr -> N -> W -> reply http_response * W;
  chat_completion_create : chat_request -> W -> reply chat_response * W;
  html_parser : pystr -> list html_node;
  json_loads : pystr -> reply json
}.

Section Website.

Variable W : Type.
Variable web : web_client W.

(** Lines 213-224: the extraction that takes over when trafilatura gave
    nothing. *)
Definition fallback_extraction (url : pystr) : M W pystr :=
  emit (EvStWrite [str "Trying alternative content extraction..."]) ;;
  response <- call (requests_get web url 10) (EvRequestsGet url 10) ;;
  let soup := html_parser web (text response) in
  let soup' := flat_map (decompose [str "script"; str "style"]) soup in
  ret (join [SPACE] (stripped_strings soup')).

(** Lines 201-228: the text of the page, or [None] where the source
    returns [None]. *)
Definition extract_content (url : pystr) : M W (option pystr) :=
  emit (EvStWrite [str "Downloading website content..."]) ;;
  downloaded <- call (fetch_url web url) (EvFetchUrl url) ;;
  match downloaded with
  | Some (c :: rest) =>
      emit (EvStWrite [str "Extracting main content..."]) ;;
      extracted <- call (trafilatura_extract web (c :: rest))
                        (EvTrafilaturaExtract (c :: rest)) ;;
      text_content <- match extracted with
                      | Some (c' :: rest') => ret (c' :: rest')
                      | _ => fallback_extraction url
                      end ;;
      match text_content with
      | [] =>
          emit (EvStWarning
                  (str "Could not extract meaningful content from the website")) ;;
          ret None
      | _ => ret (Some text_content)
      end
  | _ =>
      emit (EvStWarning (str "Could not download content from " ++ url)) ;;
      ret None
  end.

(** Lines 230-305: the call to the text-generation service and the decoding
    of its answer. *)
Definition analyze_content (text_content : pystr) : M W json :=
  emit (EvStWrite [str "Analyzing content with OpenAI..."]) ;;
  response <- call (chat_completion_create web
                      (analysis_request text_content))
                   (EvChatCompletion (analysis_request text_content)) ;;
  content <- match choices response with
             | [] => raise IndexError
             | Some content :: _ => ret content
             | None :: _ => raise TypeError_json_loads_None
             end ;;
  analysis <- lift_reply (json_loads web content) ;;
  emit (EvStWrite [str "Analysis completed successfully!"]) ;;
  ret analysis.

Definition extract_website_info (url : pystr) : M W json :=
  try_except
    (text_content <- extract_content url ;;
     match text_content with
     | None => ret PyNone
     | Some text_content => analyze_content text_content
     end)
    (fun e =>
       emit (EvStError (str "Error analyzing website: " ++ exn_str e)) ;;
       emit (EvStWrite [str "Full error:"; exn_str e]) ;;
       emit (EvStWriteTraceback e) ;;
       ret PyNone).

(** What the [except] branch of [extract_website_info] shows. *)
Definition analysis_failed (e : exn) : list event :=
  [EvStError (str "Error analyzing website: " ++ exn_str e);
   EvStWrite [str "Full error:"; exn_str e];
   EvStWriteTraceback e].

(** The text the fallback extraction computes from a response. *)
Definition fallback_text (response : http_response) : pystr :=
  join [SPACE]
    (stripped_strings
       (flat_map (decompose [str "script"; str "style"])
                 (html_parser web (text response)))).

End Website.

(** The top-level shape the prompt asks for: an object with these keys. *)
Definition expected_keys : list pystr :=
  [str "inventory_highlights"; str "special_offers"; str "financing_options";
   str "services"; str "company_background"; str "unique_points";
   str "policies"; str "contact_details"; str "management_info"].

Definition has_expected_shape (j : json) : bool :=
  match j with
  | JObj members =>
      forallb (fun k => existsb (fun m => pystr_eqb (fst m) k) members)
              expected_keys
  | _ => false
  end.

(** ** Reading a trace *)

(** The dealer a place-details event puts on the list, if any. *)
Definition dealers_of_event (target_zipcode : pystr) (ev : event)
  : list dealer :=
  match ev with
  | EvPlace pid _ (Returns (PlaceResponse (Some details))) =>
      if zipcode_equal (details_zipcode details) target_zipcode
      then [make_dealer details pid] else []
  | _ => []
  end.

(** The discovery events of a trace, in order: the dealers that passed
    the postal-code filter. *)
Definition discovered (target_zipcode : pystr) (t : list event)
  : list dealer :=
  flat_map (dealers_of_event target_zipcode) t.

Definition is_nearby_failure (ev : event) : bool :=
  match ev with
  | EvPlacesNearby _ (Raises _) => true
  | _ => false
  end.

(** Some nearby-search or next-page request raised. *)
Definition nearby_raised (t : list event) : bool :=
  existsb is_nearby_failure t.

Definition is_requests_get (ev : event) : bool :=
  match ev with
  | EvRequestsGet _ _ _ => true
  | _ => false
  end.

(** [d] is the last dealer of [l] with its [place_id]. *)
Definition last_with_id (l : list dealer) (d : dealer) : Prop :=
  exists l1 l2, l = l1 ++ d :: l2 /\
                forall d', In d' l2 -> place_id d' <> place_id d.

(** What a part of the search leaves behind, from the list [dealers] it
    started with. *)
Definition search_post (W : Type) (dealers : list dealer) (zipcode : pystr)
  (res : outcome (list dealer) * W * list event) : Prop :=
  match res with
  | (Ok ds, _, t) =>
      ds = dealers ++ discovered zipcode t /\ nearby_raised t = false
  | (Raise _, _, t) => nearby_raised t = true
  | (OutOfFuel, _, t) => nearby_raised t = false
  end.

(** The run ended before its fuel did. *)
Definition finished (W A : Type) (res : outcome A * W * list event) : bool :=
  match res with
  | (OutOfFuel, _, _) => false
  | _ => true
  end.

Definition trace_of (W A : Type) (res : outcome A * W * list event)
  : list event := snd res.

Definition outcome_of (W A : Type) (res : outcome A * W * list event)
  : outcome A := fst (fst res).

(** A geocoding answer from which the search can start. *)
Definition located (loc : json) (more : list geocode_entry)
  : list geocode_entry :=
  GeocodeEntry (Some (Geometry (Some loc))) :: more.

(** ** Scripted services, for concrete runs *)

Definition bristow : json :=
  JObj [(str "lat", JFloat 155 (-2)); (str "lng", JFloat (-311) (-2))].

Definition hit (pid : string) : place_hit := PlaceHit (Some (str pid)).

Definition details_A_first : place_details :=
  PlaceDetails (Some (str "Bristow Auto"))
    (Some (str "9000 Devlin Rd, Bristow, VA 20136, USA"))
    (Some (str "(703) 555-0100")) None.

Definition details_A_later : place_details :=
  PlaceDetails (Some (str "Bristow Auto Sales LLC"))
    (Some (str "9000 Devlin Rd, Bristow, VA 20136, USA"))
    (Some (str "(703) 555-0100")) (Some (str "https://bristowauto.example")).

Definition details_B : place_details :=
  PlaceDetails (Some (str "Blue Ridge Motors"))
    (Some (str "33 Snickersville Tpke, Bluemont, VA 20135, USA"))
    None None.

Definition details_D : place_details :=
  PlaceDetails (Some (str "Braemar Pre-Owned"))
    (Some (str "12000 Braemar Pkwy, Bristow, VA 20136, USA"))
    None (Some (str "https://braemar.example")).

(** The world is the number of place-details requests served so far.
    Place [A] is found by the first two keywords and answers with other
    fields the second time; [B] lies in 20135; the details of [C] cannot
    be fetched; [D] is on the second page of the first keyword.  The
    keyword [down], if any, is the one whose nearby search raises. *)
Definition scripted_gmaps (down : option pystr) : gmaps_client nat :=
  GmapsClient
    (fun zipcode w =>
       if pystr_eqb zipcode (str "99999") then (Returns [], w)
       else (Returns (located bristow []), w))
    (fun req w =>
       match req with
       | NearbySearch _ _ keyword _ =>
           if match down with
              | Some k => pystr_eqb keyword k
              | None => false
              end
           then (Raises (Exn (str "OVER_QUERY_LIMIT")), w)
           else if pystr_eqb keyword (str "independent used car dealer")
           then (Returns (PlacesPage (Some [hit "A"; hit "B"; hit "C"])
                            (Some (str "page-2"))), w)
           else if pystr_eqb keyword (str "used car dealer")
           then (Returns (PlacesPage (Some [hit "A"]) None), w)
           else if pystr_eqb keyword (str "used auto sales")
           then (Returns (PlacesPage (Some []) None), w)
           else (Returns (PlacesPage None None), w)
       | NearbyNextPage _ token =>
           if pystr_eqb token (str "page-2")
           then (Returns (PlacesPage (Some [hit "D"]) None), w)
           else (Raises (Exn (str "INVALID_REQUEST")), w)
       end)
    (fun pid _ w =>
       (if pystr_eqb pid (str "A")
        then Returns (PlaceResponse
                        (Some (if Nat.eqb w 0 then details_A_first
                               else details_A_later)))
        else if pystr_eqb pid (str "B")
        then Returns (PlaceResponse (Some details_B))
        else if pystr_eqb pid (str "D")
        then Returns (PlaceResponse (Some details_D))
        else Raises (Exn (str "NOT_FOUND")),
        S w)).

Definition demo_gmaps : gmaps_client nat := scripted_gmaps None.

Definition dealer_A_first : dealer := make_dealer details_A_first (str "A").
Definition dealer_A_later : dealer := make_dealer details_A_later (str "A").
Definition dealer_B : dealer := make_dealer details_B (str "B").
Definition dealer_D : dealer := make_dealer details_D (str "D").

(** A website whose requests are answered from a script: what
    [fetch_url] and [trafilatura.extract] give, the page the plain GET
    gives with its parsed tree, the answer of the text-generation service
    and what [json.loads] makes of that answer. *)
Definition scripted_web (downloaded extracted : option pystr)
  (page : pystr) (tree : list html_node)
  (answer : pystr) (decoded : reply json) : web_client unit :=
  WebClient
    (fun _ w => (Returns downloaded, w))
    (fun _ w => (Returns extracted, w))
    (fun _ _ w => (Returns (HttpResponse page), w))
    (fun _ w => (Returns (ChatResponse [Some answer]), w))
    (fun t => if pystr_eqb t page then tree else [])
    (fun s => if pystr_eqb s answer then decoded
              else Raises (Exn (str "Expecting value: line 1 column 1 (char 0)"))).

Definition dealer_url : pystr := str "https://bristowauto.example".

Definition dealer_page : pystr :=
  str "<html><head><style>p{}</style></head><body> Quality used cars <script>track()</script><p>Call us</p></body></html>".

Definition dealer_tree : list html_node :=
  [HTag (str "html")
     [HTag (str "head") [HTag (str "style") [HText (str "p{}")]];
      HTag (str "body")
        [HText (str " Quality used cars ");
         HTag (str "script") [HText (str "track()")];
         HTag (str "p") [HText (str "Call us")]]]].

Definition not_json : reply json :=
  Raises (Exn (str "Expecting value: line 1 column 1 (char 0)")).

(** ** More readings of a trace *)

(** The first requests of the keywords, in the order they were made. *)
Definition initial_requests (t : list event) : list nearby_request :=
  flat_map (fun ev =>
              match ev with
              | EvPlacesNearby (NearbySearch loc radius keyword type) _ =>
                  [NearbySearch loc radius keyword type]
              | _ => []
              end) t.

(** The identifiers whose details were requested, in order. *)
Definition place_requests (t : list event) : list pystr :=
  flat_map (fun ev =>
              match ev with
              | EvPlace pid _ _ => [pid]
              | _ => []
              end) t.

(** The identifiers of the hits that have one, in order. *)
Definition hit_ids (hits : list place_hit) : list pystr :=
  flat_map (fun h =>
              match hit_place_id h with
              | Some pid => [pid]
              | None => []
              end) hits.

(** How many times the search slept for [ms] milliseconds. *)
Definition sleeps (ms : N) (t : list event) : nat :=
  length (filter (fun ev =>
                    match ev with
                    | EvSleep d => N.eqb d ms
                    | _ => false
                    end) t).

(** The keys of a list, each at the place where it first occurs. *)
Definition first_occurrences (keys : list pystr) : list pystr :=
  fold_left (fun seen k =>
               if existsb (pystr_eqb k) seen then seen else seen ++ [k])
            keys [].

Definition is_chat_completion (ev : event) : bool :=
  match ev with
  | EvChatCompletion _ _ => true
  | _ => false
  end.

(** The run made no request to the text-generation service. *)
Definition no_chat (W A : Type) (res : outcome A * W * list event) : Prop :=
  existsb is_chat_completion (trace_of res) = false.

(** A string of whitespace only (the empty string is one). *)
Definition blank (s : pystr) : bool := forallb is_unicode_space s.

(** The text nodes the fallback extraction reads: those of the parsed
    page that are not inside a [script] or a [style] element. *)
Definition visible_strings (W : Type) (web : web_client W)
  (response : http_response) : list pystr :=
  flat_map strings
    (flat_map (decompose [str "script"; str "style"])
              (html_parser web (text response))).

(** ** More scripted services *)

(** A provider whose geocoding answers as scripted and whose other
    requests are those of [demo_gmaps]. *)
Definition geocoding_gmaps (answer : reply (list geocode_entry))
  : gmaps_client nat :=
  GmapsClient
    (fun _ w => (answer, w))
    (places_nearby demo_gmaps)
    (place demo_gmaps).

(** A provider with one keyword result page that carries a token and no
    results: the second page, with place [D], is there to be asked for. *)
Definition empty_first_page_gmaps : gmaps_client nat :=
  GmapsClient
    (geocode demo_gmaps)
    (fun req w =>
       match req with
       | NearbySearch _ _ _ _ =>
           (Returns (PlacesPage (Some []) (Some (str "page-2"))), w)
       | NearbyNextPage _ _ =>
           (Returns (PlacesPage (Some [hit "D"]) None), w)
       end)
    (place demo_gmaps).

(** A website whose four services answer as scripted. *)
Definition replying_web (downloaded extracted : reply (option pystr))
  (got : reply http_response) (tree : list html_node)
  (completion : reply chat_response) (decoded : reply json)
  : web_client unit :=
  WebClient
    (fun _ w => (downloaded, w))
    (fun _ w => (extracted, w))
    (fun _ _ w => (got, w))
    (fun _ w => (completion, w))
    (fun _ => tree)
    (fun _ => decoded).

Definition timed_out : exn := Exn (str "Read timed out. (read timeout=10)").
Definition rate_limited : exn := Exn (str "Rate limit reached for requests").

(** ** [create_dealer_html]

    A dealer is the dict [process_results] builds; its values are a [str]
    or [None]. *)

Definition pydict : Type := list (pystr * option pystr).

(** The dict literal of [process_results]. *)
Definition dealer_dict (d : dealer) : pydict :=
  [(str "business_name", business_name d);
   (str "full_address", full_address d);
   (str "phone_number", phone_number d);
   (str "website", website d);
   (str "place_id", Some (place_id d))].

(** [d.get(key, default)]: the default counts only when the key is
    missing, a key bound to [None] gives [None]. *)
Definition dealer_get (d : pydict) (key : string) (default : option pystr)
  : option pystr :=
  match find (fun kv => pystr_eqb (fst kv) (str key)) d with
  | Some kv => snd kv
  | None => default
  end.

(** [f"{v}"] for a [str] or [None]. *)
Definition py_format (v : option pystr) : pystr :=
  match v with
  | Some s => s
  | None => str "None"
  end.

(** The truth value of a [str] or [None]. *)
Definition py_truthy (v : option pystr) : bool :=
  match v with
  | Some (_ :: _) => true
  | _ => false
  end.

(** The f-string of [create_dealer_html], cut at its four fields. *)
Definition card_upto_name : pystr :=
  literal "
    <!DOCTYPE html>
    <html>
    <head>
        <style>
            * {
                box-sizing: border-box;
                margin: 0;
                padding: 0;
            }
            body {
                margin: 0;
                padding: 16px;
            }
            .dealer-card {
                background-color: #ffffff;
                padding: 24px;
                border-radius: 8px;
                box-shadow: 0 1px 2px rgba(60,64,67,.3);
                font-family: -apple-system, BlinkMacSystemFont, 'Segoe UI', Roboto, Arial, sans-serif;
                width: 100%;
            }
            .dealer-name {
                color: #202124;
                font-size: 24px;
                margin-bottom: 24px;
                padding-bottom: 12px;
                border-bottom: 2px solid #1a73e8;
            }
            .info-group {
                padding: 16px;
                margin-bottom: 16px;
                background-color: #f8f9fa;
                border-radius: 4px;
                border: 1px solid #e0e0e0;
            }
            .info-group:last-child {
                margin-bottom: 0;
            }
            .info-label {
                color: #5f6368;
                font-size: 14px;
                font-weight: 500;
                margin-bottom: 12px;
                text-transform: uppercase;
                letter-spacing: 0.5px;
            }
            .info-value {
                color: #202124;
                font-size: 16px;
                line-height: 1.6;
                word-break: break-word;
            }
            .info-value a {
                color: #1a73e8;
                text-decoration: none;
            }
            .info-value a:hover {
                text-decoration: underline;
            }
            .contact-info {
                display: flex;
                align-items: flex-start;
                gap: 12px;
            }
            .contact-icon {
                color: #5f6368;
                font-size: 20px;
                flex-shrink: 0;
                width: 24px;
                text-align: center;
                margin-top: 2px;
            }
            .contact-text {
                flex-grow: 1;
                min-width: 0;
            }
            @media (max-width: 600px) {
                body {
                    padding: 8px;
                }
                .dealer-card {
                    padding: 16px;
                }
                .info-group {
                    padding: 12px;
                }
            }
        </style>
    </head>
    <body>
        <div class=$dealer-card$>
            <h2 class=$dealer-name$>".

Definition card_upto_address : pystr :=
  literal "</h2>
            
            <div class=$info-group$>
                <p class=$info-label$>Address</p>
                <div class=$contact-info$>
                    <span class=$contact-icon$>" ++ [128205%N] ++ literal "</span>
                    <div class=$contact-text$>
                        <p class=$info-value$>".

Definition card_upto_phone : pystr :=
  literal "</p>
                    </div>
                </div>
            </div>
            
            <div class=$info-group$>
                <p class=$info-label$>Phone</p>
                <div class=$contact-info$>
                    <span class=$contact-icon$>" ++ [128222%N] ++ literal "</span>
                    <div class=$contact-text$>
                        <p class=$info-value$>".

Definition card_upto_website : pystr :=
  literal "</p>
                    </div>
                </div>
            </div>
            
            <div class=$info-group$>
                <p class=$info-label$>Website</p>
                <div class=$contact-info$>
                    <span class=$contact-icon$>" ++ [127760%N] ++ literal "</span>
                    <div class=$contact-text$>
                        <p class=$info-value$>".

Definition card_end : pystr :=
  str "</p>
                    </div>
                </div>
            </div>
        </div>
    </body>
    </html>
    ".

Definition website_html (website_link : option pystr) : pystr :=
  if py_truthy website_link
  then literal "<a href=$" ++ py_format website_link
       ++ literal "$ target=$_blank$>" ++ py_format website_link
       ++ str "</a>"
  else str "N/A".

Definition create_dealer_html (dealer : pydict) : pystr :=
  let website_link := dealer_get dealer "website" None in
  card_upto_name
  ++ py_format (dealer_get dealer "business_name"
                           (Some (str "Unknown Dealer")))
  ++ card_upto_address
  ++ py_format (dealer_get dealer "full_address" (Some (str "N/A")))
  ++ card_upto_phone
  ++ py_format (dealer_get dealer "phone_number" (Some (str "N/A")))
  ++ card_upto_website
  ++ website_html website_link
  ++ card_end.

(** ** The page: what a click on [Find Dealers] does (lines 897-918) *)

(** [str(n)] for a length. *)
Fixpoint uint_digits (d : Decimal.uint) : pystr :=
  match d with
  | Decimal.Nil => []
  | Decimal.D0 d => 48%N :: uint_digits d
  | Decimal.D1 d => 49%N :: uint_digits d
  | Decimal.D2 d => 50%N :: uint_digits d
  | Decimal.D3 d => 51%N :: uint_digits d
  | Decimal.D4 d => 52%N :: uint_digits d
  | Decimal.D5 d => 53%N :: uint_digits d
  | Decimal.D6 d => 54%N :: uint_digits d
  | Decimal.D7 d => 55%N :: uint_digits d
  | Decimal.D8 d => 56%N :: uint_digits d
  | Decimal.D9 d => 57%N :: uint_digits d
  end.

Definition str_of_nat (n : nat) : pystr := uint_digits (Nat.to_uint n).

(** What the page does, in order: the events of the search and of the
    messages, and the three display calls the search does not use.  The
    expander and the embedded card are inside a [try] and are calls that
    may raise. *)
Inductive page_event : Type :=
| PgEvent (ev : event)
| PgSuccess (msg : pystr)
| PgExpander (label : pystr) (expanded : bool) (r : reply unit)
| PgComponentsHtml (html : pystr) (height : N) (scrolling : bool)
                   (r : reply unit).

Record display (W : Type) : Type := Display {
  expander : pystr -> bool -> W -> reply unit * W;
  components_html : pystr -> N -> bool -> W -> reply unit * W
}.

Definition CAR : pystr := [128663%N; SPACE].

Definition expander_label (d : dealer) : pystr :=
  CAR ++ py_format (dealer_get (dealer_dict d) "business_name"
                               (Some (str "Unknown Dealer"))).

Definition display_failed (e : exn) : page_event :=
  PgEvent (EvStError (str "Error displaying dealer information: "
                      ++ exn_str e)).

Section Page.

Variable W : Type.
Variable gmaps : gmaps_client W.
Variable ui : display W.

(** The body of [for dealer in dealers], with its [try]/[except]. *)
Definition show_dealer (d : dealer) (w : W) : W * list page_event :=
  let label := expander_label d in
  match expander ui label false w with
  | (Raises e, w1) =>
      (w1, [PgExpander label false (Raises e); display_failed e])
  | (Returns _, w1) =>
      let dealer_html := create_dealer_html (dealer_dict d) in
      match components_html ui dealer_html 500 false w1 with
      | (Returns _, w2) =>
          (w2, [PgExpander label false (Returns tt);
                PgComponentsHtml dealer_html 500 false (Returns tt)])
      | (Raises e, w2) =>
          (w2, [PgExpander label false (Returns tt);
                PgComponentsHtml dealer_html 500 false (Raises e);
                display_failed e])
      end
  end.

Fixpoint show_dealers (dealers : list dealer) (w : W)
  : W * list page_event :=
  match dealers with
  | [] => (w, [])
  | d :: rest =>
      let '(w1, t1) := show_dealer d w in
      let '(w2, t2) := show_dealers rest w1 in
      (w2, t1 ++ t2)
  end.

Definition none_found (zipcode : pystr) : page_event :=
  PgEvent (EvStError (str "No independent dealers found in zipcode "
                      ++ zipcode ++ str ". Try a different zip code.")).

Definition found (dealers : list dealer) (zipcode : pystr) : page_event :=
  PgSuccess (str "Found " ++ str_of_nat (length dealers)
             ++ str " independent dealers in " ++ zipcode).

(** The body of [if st.button("Find Dealers", type="primary")], for the
    text [zipcode] of the input field. *)
Definition find_dealers (fuel : nat) (zipcode : pystr) (w : W)
  : outcome unit * W * list page_event :=
  match zipcode with
  | [] => (Ok tt, w, [PgEvent (EvStWarning (str "Please enter a zip code."))])
  | _ =>
      if negb (verify_zipcode zipcode)
      then (Ok tt, w,
            [PgEvent (EvStError (str "Please enter a valid 5-digit zip code."))])
      else
        let spinner :=
          PgEvent (EvSpinner (str "Finding independent used car dealers in "
                              ++ zipcode ++ str "...")) in
        match get_dealer_info gmaps fuel zipcode w with
        | (Ok (Some (d :: rest)), w1, t) =>
            let '(w2, shown) := show_dealers (d :: rest) w1 in
            (Ok tt, w2,
             spinner :: map PgEvent t
             ++ found (d :: rest) zipcode :: shown)
        | (Ok _, w1, t) =>
            (Ok tt, w1, spinner :: map PgEvent t ++ [none_found zipcode])
        | (Raise e, w1, t) => (Raise e, w1, spinner :: map PgEvent t)
        | (OutOfFuel, w1, t) => (OutOfFuel, w1, spinner :: map PgEvent t)
        end
  end.

End Page.

(** ** Reading what the page showed *)

Definition expander_labels (t : list page_event) : list pystr :=
  flat_map (fun ev =>
              match ev with
              | PgExpander label _ _ => [label]
              | _ => []
              end) t.

(** The cards handed to [components.html]. *)
Definition cards (t : list page_event) : list pystr :=
  flat_map (fun ev =>
              match ev with
              | PgComponentsHtml html _ _ _ => [html]
              | _ => []
              end) t.

Definition search_events (t : list page_event) : list event :=
  flat_map (fun ev =>
              match ev with
              | PgEvent e => [e]
              | _ => []
              end) t.

Definition is_provider_request (ev : event) : bool :=
  match ev with
  | EvGeocode _ _ | EvPlacesNearby _ _ | EvPlace _ _ _ => true
  | _ => false
  end.

(** A display whose calls raise for the labels and cards in [broken]. *)
Definition scripted_display (broken : list pystr) : display nat :=
  Display
    (fun label _ w =>
       (if existsb (pystr_eqb label) broken
        then Raises (Exn (str "expander failed")) else Returns tt, S w))
    (fun html _ _ w =>
       (if existsb (pystr_eqb html) broken
        then Raises (Exn (str "frame failed")) else Returns tt, S w)).

(** ** [format_website_analysis]

    The analysis is what [extract_website_info] returned: [None] or the
    value [json.loads] decoded, of whatever shape. *)

(** [bool(v)] *)
Definition json_truthy (v : json) : bool :=
  match v with
  | JNull => false
  | JBool b => b
  | JInt z => negb (Z.eqb z 0)
  | JFloat m _ => negb (Z.eqb m 0)
  | JStr s => match s with [] => false | _ => true end
  | JArr items => match items with [] => false | _ => true end
  | JObj members => match members with [] => false | _ => true end
  end.

(** [type(v).__name__] *)
Definition type_name (v : json) : string :=
  match v with
  | JNull => "NoneType"
  | JBool _ => "bool"
  | JInt _ => "int"
  | JFloat _ _ => "float"
  | JStr _ => "str"
  | JArr _ => "list"
  | JObj _ => "dict"
  end.

Definition AttributeError (type attribute : string) : exn :=
  Exn (str "'" ++ str type ++ str "' object has no attribute '"
       ++ str attribute ++ str "'").

Definition TypeError_not_iterable (type : string) : exn :=
  Exn (str "'" ++ str type ++ str "' object is not iterable").

(** Sequencing of code that may raise. *)
Definition and_then {A B} (r : reply A) (f : A -> reply B) : reply B :=
  match r with
  | Returns a => f a
  | Raises e => Raises e
  end.

Notation "x <~ r ;; k" := (and_then r (fun x => k))
  (at level 61, r at next level, right associativity) : py_scope.

(** [members.get(key)] on the members of a dict (each key is there
    once): a missing key gives [None]. *)
Definition member (members : list (pystr * json)) (key : pystr) : json :=
  match find (fun kv => pystr_eqb (fst kv) key) members with
  | Some kv => snd kv
  | None => PyNone
  end.

(** [v.get(key)]: a method of dicts only. *)
Definition json_get (v : json) (key : string) : reply json :=
  match v with
  | JObj members => Returns (member members (str key))
  | _ => Raises (AttributeError (type_name v) "get")
  end.

(** [for x in v]: the elements of a list, the characters of a [str], the
    keys of a dict. *)
Definition json_iter (v : json) : reply (list json) :=
  match v with
  | JArr items => Returns items
  | JStr s => Returns (map (fun c => JStr [c]) s)
  | JObj members => Returns (map (fun kv => JStr (fst kv)) members)
  | _ => Raises (TypeError_not_iterable (type_name v))
  end.

Definition str_of_Z (z : Z) : pystr :=
  match Z.to_int z with
  | Decimal.Pos d => uint_digits d
  | Decimal.Neg d => HYPHEN :: uint_digits d
  end.

(** [repr] of a [float] and of a [str] are the interpreter's. *)
Record python_repr : Type := PythonRepr {
  repr_float : Z -> Z -> pystr;
  repr_str : pystr -> pystr
}.

Section Formatting.

Variable py : python_repr.

Fixpoint json_repr (v : json) : pystr :=
  match v with
  | JNull => str "None"
  | JBool true => str "True"
  | JBool false => str "False"
  | JInt z => str_of_Z z
  | JFloat m e => repr_float py m e
  | JStr s => repr_str py s
  | JArr items => str "[" ++ join (str ", ") (map json_repr items) ++ str "]"
  | JObj members =>
      str "{"
      ++ join (str ", ")
              (map (fun kv => let '(k, x) := kv in
                              repr_str py k ++ str ": " ++ json_repr x)
                   members)
      ++ str "}"
  end.

(** [f"{v}"], that is [str(v)]. *)
Definition json_format (v : json) : pystr :=
  match v with
  | JStr s => s
  | other => json_repr other
  end.

(** The literals of [format_website_analysis], in the order of the source. *)
Definition analysis_unavailable : pystr :=
  literal "
        <div class=$info-group$>
            <p class=$info-label$>Website Analysis</p>
            <div class=$info-value$>
                <p>Could not analyze website content. The website might be unavailable or require authentication.</p>
            </div>
        </div>
        ".

Definition analysis_header : pystr :=
  literal "
    <div class=$analysis-section$>
        <h3 class=$section-title$>" ++ [128269%N] ++ str " Detailed Dealer Analysis</h3>
    ".

Definition contact_open : pystr :=
  literal "
        <div class=$info-group contact-details$>
            <p class=$info-label$>" ++ [128222%N] ++ literal " Additional Contact Information</p>
            <div class=$info-value$>
        ".

Definition phones_open : pystr :=
  literal "
            <div class=$contact-section$>
                <p class=$contact-subtitle$>Phone Numbers:</p>
                <ul class=$feature-list$>
            ".

Definition phone_item : pystr :=
  literal "<li><span class=$contact-icon$>" ++ [128241%N] ++ str "</span>".

Definition emails_open : pystr :=
  literal "
            <div class=$contact-section$>
                <p class=$contact-subtitle$>Email Addresses:</p>
                <ul class=$feature-list$>
            ".

Definition email_item : pystr :=
  literal "<li><span class=$contact-icon$>" ++ [9993%N; 65039%N] ++ str "</span>".

Definition social_open : pystr :=
  literal "
            <div class=$contact-section$>
                <p class=$contact-subtitle$>Social Media:</p>
                <ul class=$feature-list$>
            ".

Definition social_item : pystr :=
  literal "<li><span class=$contact-icon$>" ++ [128279%N] ++ str "</span>".

Definition other_contact_open : pystr :=
  literal "
            <div class=$contact-section$>
                <p class=$contact-subtitle$>Additional Contact Details:</p>
                <ul class=$feature-list$>
            ".

Definition other_contact_item : pystr :=
  literal "<li><span class=$contact-icon$>" ++ [8505%N; 65039%N] ++ str "</span>".

Definition management_open : pystr :=
  literal "
        <div class=$info-group management-info$>
            <p class=$info-label$>" ++ [128101%N] ++ literal " Management & Staff</p>
            <div class=$info-value$>
        ".

Definition owner_open : pystr :=
  literal "
            <div class=$management-section$>
                <p class=$management-title$>Owner/Dealer Principal:</p>
                <p class=$owner-name$>".

Definition owner_close : pystr :=
  str "</p>
            </div>
            ".

Definition team_open : pystr :=
  literal "
            <div class=$management-section$>
                <p class=$management-title$>Management Team:</p>
                <ul class=$feature-list$>
            ".

Definition team_item : pystr :=
  literal "<li><span class=$contact-icon$>" ++ [128100%N] ++ str "</span>".

Definition experience_open : pystr :=
  literal "
            <div class=$management-section$>
                <p class=$management-title$>Experience:</p>
                <p class=$experience-info$>".

Definition experience_close : pystr :=
  str "</p>
            </div>
            ".

Definition certifications_open : pystr :=
  literal "
            <div class=$management-section$>
                <p class=$management-title$>Certifications & Affiliations:</p>
                <ul class=$feature-list$>
            ".

Definition certification_item : pystr :=
  literal "<li><span class=$contact-icon$>" ++ [127941%N] ++ str "</span>".

Definition inventory_open : pystr :=
  literal "
        <div class=$info-group$>
            <p class=$info-label$>" ++ [128663%N] ++ literal " Inventory Specialties</p>
            <div class=$info-value$>
                <ul class=$feature-list highlight-list$>
        ".

Definition plain_item : pystr :=
  str "<li>".

Definition offers_open : pystr :=
  literal "
        <div class=$info-group$>
            <p class=$info-label$>" ++ [127991%N; 65039%N] ++ literal " Current Offers & Promotions</p>
            <div class=$info-value$>
                <ul class=$feature-list highlight-list$>
        ".

Definition financing_open : pystr :=
  literal "
        <div class=$info-group$>
            <p class=$info-label$>" ++ [128179%N] ++ literal " Financing Solutions</p>
            <div class=$info-value$>
                <ul class=$feature-list$>
        ".

Definition services_open : pystr :=
  literal "
        <div class=$info-group$>
            <p class=$info-label$>" ++ [128295%N] ++ literal " Services & Support</p>
            <div class=$info-value$>
                <ul class=$feature-list$>
        ".

Definition background_open : pystr :=
  literal "
        <div class=$info-group$>
            <p class=$info-label$>" ++ [128214%N] ++ literal " About the Dealer</p>
            <div class=$info-value$>
                <div class=$company-background$>
                    <p>".

Definition background_close : pystr :=
  str "</p>
                </div>
            </div>
        </div>
        ".

Definition unique_open : pystr :=
  literal "
        <div class=$info-group$>
            <p class=$info-label$>" ++ [10024%N] ++ literal " Why Choose This Dealer</p>
            <div class=$info-value$>
                <ul class=$feature-list highlight-list$>
        ".

Definition policies_open : pystr :=
  literal "
        <div class=$info-group$>
            <p class=$info-label$>" ++ [128203%N] ++ literal " Customer Policies & Guarantees</p>
            <div class=$info-value$>
                <ul class=$feature-list$>
        ".

Definition analysis_note : pystr :=
  literal "
    <div class=$info-group$>
        <p class=$info-note$>This analysis is based on the dealer's website content and may not be complete or up-to-date. Please contact the dealer directly for the most current information.</p>
    </div>
    ".

(** [if v: html += opening; for x in v: html += item + f"{x}" + "</li>";
    html += closing]: the text added to [html]. *)
Definition item_list (opening item closing : pystr) (v : json)
  : reply pystr :=
  if json_truthy v
  then xs <~ json_iter v ;;
       Returns (opening
                ++ concat (map (fun x => item ++ json_format x ++ str "</li>")
                               xs)
                ++ closing)
  else Returns [].

(** [if v: html += f"...{v}..."] *)
Definition single_value (opening closing : pystr) (v : json) : pystr :=
  if json_truthy v then opening ++ json_format v ++ closing else [].

(** Lines 332-380. *)
Definition contact_details (analysis : json) : reply pystr :=
  contact_info <~ json_get analysis "contact_details" ;;
  if json_truthy contact_info
  then
    phones <~ json_get contact_info "phone_numbers" ;;
    phones_html <~ item_list phones_open phone_item (str "</ul></div>")
                             phones ;;
    emails <~ json_get contact_info "emails" ;;
    emails_html <~ item_list emails_open email_item (str "</ul></div>")
                             emails ;;
    social <~ json_get contact_info "social_media" ;;
    social_html <~ item_list social_open social_item (str "</ul></div>")
                             social ;;
    other <~ json_get contact_info "other_contact" ;;
    other_html <~ item_list other_contact_open other_contact_item
                            (str "</ul></div>") other ;;
    Returns (contact_open ++ phones_html ++ emails_html ++ social_html
             ++ other_html ++ str "</div></div>")
  else Returns [].

(** Lines 383-427. *)
Definition management_info (analysis : json) : reply pystr :=
  mgmt_info <~ json_get analysis "management_info" ;;
  if json_truthy mgmt_info
  then
    owner <~ json_get mgmt_info "owner" ;;
    team <~ json_get mgmt_info "team" ;;
    team_html <~ item_list team_open team_item (str "</ul></div>") team ;;
    experience <~ json_get mgmt_info "experience" ;;
    certifications <~ json_get mgmt_info "certifications" ;;
    certifications_html <~ item_list certifications_open certification_item
                                     (str "</ul></div>") certifications ;;
    Returns (management_open
             ++ single_value owner_open owner_close owner
             ++ team_html
             ++ single_value experience_open experience_close experience
             ++ certifications_html
             ++ str "</div></div>")
  else Returns [].

(** One of the six sections that are a plain list. *)
Definition list_section (opening : pystr) (analysis : json) (key : string)
  : reply pystr :=
  v <~ json_get analysis key ;;
  item_list opening plain_item (str "</ul></div></div>") v.

Definition format_website_analysis (analysis : json) : reply pystr :=
  if negb (json_truthy analysis)
  then Returns analysis_unavailable
  else
    contact <~ contact_details analysis ;;
    management <~ management_info analysis ;;
    inventory <~ list_section inventory_open analysis
                              "inventory_highlights" ;;
    offers <~ list_section offers_open analysis "special_offers" ;;
    financing <~ list_section financing_open analysis "financing_options" ;;
    services <~ list_section services_open analysis "services" ;;
    background <~ json_get analysis "company_background" ;;
    unique <~ list_section unique_open analysis "unique_points" ;;
    policies <~ list_section policies_open analysis "policies" ;;
    Returns (analysis_header ++ contact ++ management ++ inventory ++ offers
             ++ financing ++ services
             ++ single_value background_open background_close background
             ++ unique ++ policies ++ analysis_note ++ str "</div>").

End Formatting.

(** ** Which analyses can be formatted *)

(** A value a [for] loop accepts. *)
Definition iterable (v : json) : bool :=
  match v with
  | JArr _ | JStr _ | JObj _ => true
  | _ => false
  end.

(** A value fit for a list section: empty in the sense of [bool], or
    iterable. *)
Definition listable (v : json) : bool := negb (json_truthy v) || iterable v.

(** A value fit for a section with list fields: empty, or a dict whose
    fields [keys] are listable. *)
Definition group_ok (keys : list pystr) (v : json) : bool :=
  negb (json_truthy v)
  || match v with
     | JObj members => forallb (fun k => listable (member members k)) keys
     | _ => false
     end.

Definition contact_lists : list pystr :=
  [str "phone_numbers"; str "emails"; str "social_media";
   str "other_contact"].

Definition management_lists : list pystr :=
  [str "team"; str "certifications"].

Definition list_sections : list pystr :=
  [str "inventory_highlights"; str "special_offers";
   str "financing_options"; str "services"; str "unique_points";
   str "policies"].

Definition renderable (analysis : json) : bool :=
  match analysis with
  | JObj members =>
      group_ok contact_lists (member members (str "contact_details"))
      && (group_ok management_lists
                   (member members (str "management_info"))
          && forallb (fun k => listable (member members k)) list_sections)
  | _ => false
  end.

(** An interpreter for the examples: [repr] of a [str] in single quotes,
    of a [float] as a ratio. *)
Definition demo_repr : python_repr :=
  PythonRepr (fun m e => str_of_Z m ++ str "*2**" ++ str_of_Z e)
             (fun s => str "'" ++ s ++ str "'").

(** ** [format_business_hours]

    The text is a [str]; [current_day] is what
    [datetime.now().strftime('%A')] gave. *)

(** [s.startswith(prefix)] *)
Fixpoint startswith (s prefix : pystr) : bool :=
  match prefix, s with
  | [], _ => true
  | p :: ps, c :: cs => N.eqb c p && startswith cs ps
  | _ :: _, [] => false
  end.

(** [s.split(sep)] for a separator that is not empty: the text is read
    from the left, [piece] holds the current piece in reverse and [skip]
    counts the characters of a separator that are still to pass. *)
Fixpoint split_from (sep : pystr) (skip : nat) (piece s : pystr)
  : list pystr :=
  match s with
  | [] => [rev piece]
  | c :: tl =>
      match skip with
      | S k => split_from sep k piece tl
      | O =>
          if startswith s sep
          then rev piece :: split_from sep (length sep - 1) [] tl
          else split_from sep 0 (c :: piece) tl
      end
  end.

Definition split (s sep : pystr) : list pystr := split_from sep 0 [] s.

Definition days : list pystr :=
  [str "Monday"; str "Tuesday"; str "Wednesday"; str "Thursday";
   str "Friday"; str "Saturday"; str "Sunday"].

Definition current_class (day current_day : pystr) : pystr :=
  if pystr_eqb day current_day then literal " class=$current-day$" else [].

Definition hours_item (class day hours : pystr) : pystr :=
  str "<li" ++ class ++ str "><span>" ++ day ++ str "</span><span>"
  ++ hours ++ str "</span></li>".

(** One turn of [for day in days]: the inner loop stops at the first line
    that starts with the day, its [else] runs when there is none. *)
Definition day_entry (current_day : pystr) (hours_lines : list pystr)
  (day : pystr) : reply pystr :=
  let class := current_class day current_day in
  match find (fun line => startswith line day) hours_lines with
  | Some line =>
      match split line (str ": ") with
      | _ :: hours :: _ => Returns (hours_item class day (strip hours))
      | _ => Raises IndexError
      end
  | None => Returns (hours_item class day (str "Closed"))
  end.

Fixpoint day_entries (current_day : pystr) (hours_lines : list pystr)
  (ds : list pystr) : reply (list pystr) :=
  match ds with
  | [] => Returns []
  | day :: rest =>
      entry <~ day_entry current_day hours_lines day ;;
      entries <~ day_entries current_day hours_lines rest ;;
      Returns (entry :: entries)
  end.

(** The text returned and the warnings shown. *)
Definition format_business_hours (current_day hours_text : pystr)
  : pystr * list event :=
  match hours_text with
  | [] => (str "Hours not available", [])
  | _ =>
      match day_entries current_day (split hours_text [LF]) days with
      | Returns formatted_hours =>
          (str "<ul class='hours-list'>" ++ concat formatted_hours
           ++ str "</ul>", [])
      | Raises e =>
          (hours_text,
           [EvStWarning (str "Error formatting hours: " ++ exn_str e)])
      end
  end.

(** [sep] occurs in [s]. *)
Definition occurs (sep s : pystr) : Prop :=
  exists pre post, s = pre ++ sep ++ post.

Definition weekday_text : pystr :=
  str "Monday: 9:00 AM - 6:00 PM
Tuesday: 9:00 AM - 6:00 PM
Sunday: Closed".

(** ** [format_rating]

    The text is a [str].  A [float] is finite ([m * 2^e]), infinite or
    not a number; [float(s)] is the interpreter's. *)

Inductive pyfloat : Type :=
| Finite (m e : Z)
| Infinity (negative : bool)
| NaN.

Definition ValueError_not_enough (got : nat) : exn :=
  Exn (str "not enough values to unpack (expected 2, got "
       ++ str_of_nat got ++ str ")").

Definition ValueError_too_many : exn :=
  Exn (str "too many values to unpack (expected 2)").

(** [int(x)] for the finite [x = m * 2^e]: the integer toward zero. *)
Definition float_trunc (m e : Z) : Z :=
  if (0 <=? e)%Z then (m * 2 ^ e)%Z else Z.quot m (2 ^ (- e)).

(** What [int(x)] raises when [x] is not finite. *)
Definition OverflowError_int : exn :=
  Exn (str "cannot convert float infinity to integer").
Definition ValueError_int : exn :=
  Exn (str "cannot convert float NaN to integer").

(** [x % 1 >= 0.5] for the finite [x = m * 2^e]: [x % 1] is
    [x - floor(x)], and the one rounding the interpreter makes (for a
    negative [x]) does not cross [0.5]. *)
Definition fraction_at_least_half (m e : Z) : bool :=
  if (0 <=? e)%Z then false
  else (2 ^ (- e) <=? 2 * (m mod 2 ^ (- e)))%Z.

(** [s.rstrip(chars)] *)
Fixpoint lstrip_chars (chars s : pystr) : pystr :=
  match s with
  | c :: tl => if existsb (N.eqb c) chars then lstrip_chars chars tl else s
  | [] => []
  end.

Definition rstrip_chars (chars s : pystr) : pystr :=
  rev (lstrip_chars chars (rev s)).

Definition STAR : codepoint := 9733%N.
Definition HOLLOW_STAR : codepoint := 9734%N.

(** The f-string of [format_rating], cut at its three fields. *)
Definition rating_upto_stars : pystr :=
  literal "
        <div class=$rating-value$>
            <span class=$rating-stars$>".

Definition rating_upto_number : pystr :=
  literal "</span>
            <span class=$rating-number$>".

Definition rating_upto_count : pystr :=
  literal "</span>
            <span class=$rating-count$>(".

Definition rating_end : pystr :=
  str ")</span>
        </div>
        ".

Section Rating.

Variable py : python_repr.
Variable float_of_str : pystr -> reply pyfloat.

(** [full_stars + half_star + empty_stars]; a count below zero repeats
    nothing. *)
Definition rating_stars (n : Z) (m e : Z) : pystr :=
  repeat STAR (Z.to_nat n)
  ++ [if fraction_at_least_half m e then STAR else HOLLOW_STAR]
  ++ repeat HOLLOW_STAR (Z.to_nat (4 - n)).

(** The body of the [try]. *)
Definition rating_block (rating_text : pystr) : reply pystr :=
  match split rating_text (str " (") with
  | [rating; reviews] =>
      x <~ float_of_str rating ;;
      let reviews := rstrip_chars (str " reviews)") reviews in
      match x with
      | Finite m e =>
          let n := float_trunc m e in
          Returns (rating_upto_stars ++ rating_stars n m e
                   ++ rating_upto_number ++ repr_float py m e
                   ++ rating_upto_count ++ reviews ++ rating_end)
      | Infinity _ => Raises OverflowError_int
      | NaN => Raises ValueError_int
      end
  | [] => Raises (ValueError_not_enough 0)
  | [_] => Raises (ValueError_not_enough 1)
  | _ => Raises ValueError_too_many
  end.

Definition format_rating (rating_text : pystr) : pystr * list event :=
  if match rating_text with [] => true | _ => false end
     || pystr_eqb rating_text (str "N/A")
  then (str "No ratings yet", [])
  else
    match rating_block rating_text with
    | Returns html => (html, [])
    | Raises e =>
        (rating_text,
         [EvStWarning (str "Error formatting rating: " ++ exn_str e)])
    end.

End Rating.

(** A reader of the two numbers of the examples. *)
Definition demo_float (s : pystr) : reply pyfloat :=
  if pystr_eqb s (str "5.0") then Returns (Finite 5 0)
  else if pystr_eqb s (str "4.5") then Returns (Finite 9 (-1))
  else Raises (Exn (str "could not convert string to float: "
                    ++ repr_str demo_repr s)).
(** * Properties *)

(** ** The two patterns *)

Lemma in_ranges_disjoint (rs1 rs2 : list (N * N)) (c : codepoint) :
  ranges_disjoint rs1 rs2 = true ->
  in_ranges rs1 c = true -> in_ranges rs2 c = false.
Proof.
  unfold ranges_disjoint, in_ranges. intros Hd H1.
  destruct (existsb _ rs2) eqn:H2; [|reflexivity].
  apply existsb_exists in H1 as (r1 & In1 & C1).
  apply existsb_exists in H2 as (r2 & In2 & C2).
  rewrite forallb_forall in Hd. specialize (Hd r1 In1).
  rewrite forallb_forall in Hd. specialize (Hd r2 In2).
  apply andb_prop in C1 as [L1 U1]. apply andb_prop in C2 as [L2 U2].
  apply N.leb_le in L1, L2. apply N.ltb_lt in U1, U2.
  apply orb_prop in Hd as [Hd|Hd]; apply N.leb_le in Hd; lia.
Qed.

Lemma space_not_decimal (c : codepoint) :
  is_unicode_space c = true -> is_unicode_decimal c = false.
Proof.
  apply in_ranges_disjoint. vm_compute. reflexivity.
Qed.

Opaque is_unicode_decimal is_unicode_space.

Lemma rmatch_digits5 (p : nat) (s : pystr) (g : list pystr) :
  rmatch (RRepeat (RSet [SDigit]) 5) (MState p s g) =
  match s with
  | a :: b :: c :: d :: e :: tl =>
      if all_decimal [a; b; c; d; e]
      then Some (MState (5 + p) tl g) else None
  | _ => None
  end.
Proof.
  unfold all_decimal.
  destruct s as [|a s]; [reflexivity|]. simpl.
  rewrite orb_false_r. destruct (is_unicode_decimal a); simpl;
    [|do 4 (destruct s as [|? s]; [reflexivity|]); reflexivity].
  destruct s as [|b s]; [reflexivity|]. simpl.
  rewrite orb_false_r. destruct (is_unicode_decimal b); simpl;
    [|do 3 (destruct s as [|? s]; [reflexivity|]); reflexivity].
  destruct s as [|c s]; [reflexivity|]. simpl.
  rewrite orb_false_r. destruct (is_unicode_decimal c); simpl;
    [|do 2 (destruct s as [|? s]; [reflexivity|]); reflexivity].
  destruct s as [|d s]; [reflexivity|]. simpl.
  rewrite orb_false_r. destruct (is_unicode_decimal d); simpl;
    [|destruct s as [|? s]; reflexivity].
  destruct s as [|e s]; [reflexivity|]. simpl.
  rewrite orb_false_r. destruct (is_unicode_decimal e); reflexivity.
Qed.

Lemma sub_5 (p : nat) : S (S (S (S (S (S p))))) - S p = 5.
Proof. lia. Qed.

Lemma rmatch_address (p : nat) (s : pystr) :
  rmatch address_zip_pattern (MState p s []) =
  match address_step s with
  | Some (z, tl) => Some (MState (7 + p) tl [z])
  | None => None
  end.
Proof.
  unfold address_zip_pattern.
  change (rmatch (RCat ?r1 ?r2) ?st)
    with (match rmatch r1 st with Some st' => rmatch r2 st' | None => None end).
  destruct s as [|d1 s]; [reflexivity|].
  change (rmatch (RSet [SLit COMMA; SSpace]) (MState p (d1 :: s) []))
    with (if N.eqb d1 COMMA || (is_unicode_space d1 || false)
          then Some (MState (S p) s []) else None).
  unfold address_step, lead_delim. rewrite orb_false_r.
  destruct (N.eqb d1 COMMA || is_unicode_space d1); cbn [andb];
    [|do 6 (destruct s as [|? s]; [reflexivity|]); reflexivity].
  change (rmatch (RCat ?r1 ?r2) ?st)
    with (match rmatch r1 st with Some st' => rmatch r2 st' | None => None end).
  change (rmatch (RGroup ?r) ?st)
    with (match rmatch r st with
          | Some st' =>
              Some (MState (m_pos st') (m_rest st')
                      (m_groups st'
                       ++ [firstn (m_pos st' - m_pos st) (m_rest st)]))
          | None => None
          end).
  rewrite rmatch_digits5.
  destruct s as [|a s]; [reflexivity|].
  destruct s as [|b s]; [reflexivity|].
  destruct s as [|c s]; [reflexivity|].
  destruct s as [|d s]; [reflexivity|].
  destruct s as [|e s]; [reflexivity|].
  destruct (all_decimal [a; b; c; d; e]);
    [|destruct s; reflexivity].
  cbn [m_pos m_rest m_groups app Nat.add]. rewrite sub_5. cbn [firstn].
  destruct s as [|d2 s]; [reflexivity|].
  unfold trail_delim.
  change (rmatch (RSet ?items) (MState ?q (d2 :: s) ?g))
    with (if N.eqb d2 COMMA || (is_unicode_space d2 || (N.eqb d2 HYPHEN || false))
          then Some (MState (S q) s g) else None).
  rewrite orb_false_r, orb_assoc.
  destruct (N.eqb d2 COMMA || is_unicode_space d2 || N.eqb d2 HYPHEN);
    reflexivity.
Qed.

Lemma address_step_some (s z tl : pystr) :
  address_step s = Some (z, tl) ->
  exists d1 d2, s = d1 :: z ++ d2 :: tl /\ length z = 5 /\
    all_decimal z = true /\ lead_delim d1 = true /\ trail_delim d2 = true.
Proof.
  unfold address_step.
  destruct s as [|d1 s]; [discriminate|].
  destruct s as [|a s]; [discriminate|].
  destruct s as [|b s]; [discriminate|].
  destruct s as [|c s]; [discriminate|].
  destruct s as [|d s]; [discriminate|].
  destruct s as [|e s]; [discriminate|].
  destruct s as [|d2 s]; [discriminate|].
  destruct (lead_delim d1 && all_decimal [a; b; c; d; e] && trail_delim d2)
    eqn:E; [|discriminate].
  intros H; injection H as <- <-.
  apply andb_prop in E as [E E3]. apply andb_prop in E as [E1 E2].
  exists d1, d2. repeat split; assumption.
Qed.

Lemma address_step_complete (z : pystr) (d1 d2 : codepoint) (post : pystr) :
  length z = 5 -> all_decimal z = true ->
  lead_delim d1 = true -> trail_delim d2 = true ->
  address_step (d1 :: z ++ d2 :: post) = Some (z, post).
Proof.
  intros L D H1 H2.
  do 5 (destruct z as [|? z]; [discriminate|]).
  destruct z; [|discriminate].
  cbn [app address_step]. rewrite H1, D, H2. reflexivity.
Qed.

(** The search returns the leftmost delimited run. *)
Lemma search_from_address_some (s : pystr) :
  forall p m, search_from address_zip_pattern p s = Some m ->
  exists pre z, group m 1 = Some z /\ delimited_run s pre z /\
    forall pre' z', delimited_run s pre' z' -> length pre <= length pre'.
Proof.
  induction s as [|c s IH]; intros p m H.
  - cbn [search_from] in H. rewrite rmatch_address in H. discriminate.
  - cbn [search_from] in H. rewrite rmatch_address in H.
    destruct (address_step (c :: s)) as [[z tl]|] eqn:E.
    + injection H as <-.
      apply address_step_some in E as (d1 & d2 & Es & L & D & H1 & H2).
      exists [], z. split; [reflexivity|]. split.
      * exists d1, d2, tl. cbn [app]. repeat split; assumption.
      * intros; cbn; lia.
    + apply IH in H as (pre & z & G & (d1 & d2 & post & Es & L & D & H1 & H2)
                        & Least).
      exists (c :: pre), z. split; [exact G|]. split.
      * exists d1, d2, post. cbn [app]. rewrite Es. repeat split; assumption.
      * intros pre' z' (e1 & e2 & post' & Es' & L' & D' & H1' & H2').
        destruct pre' as [|c' pre'].
        -- cbn [app] in Es'. rewrite Es' in E.
           rewrite address_step_complete in E by assumption. discriminate.
        -- cbn [app] in Es'. injection Es' as -> Es'.
           cbn [length]. apply le_n_S. apply (Least pre' z').
           exists e1, e2, post'. repeat split; assumption.
Qed.

Lemma search_from_address_none (s : pystr) :
  forall p, search_from address_zip_pattern p s = None ->
  forall pre z, ~ delimited_run s pre z.
Proof.
  induction s as [|c s IH]; intros p H pre z (d1 & d2 & post & Es & L & D & H1 & H2).
  - destruct pre; discriminate.
  - cbn [search_from] in H. rewrite rmatch_address in H.
    destruct (address_step (c :: s)) as [[z' tl]|] eqn:E; [discriminate|].
    destruct pre as [|c' pre].
    + cbn [app] in Es. rewrite Es in E.
      rewrite address_step_complete in E by assumption. discriminate.
    + cbn [app] in Es. injection Es as -> Es.
      eapply IH; [exact H|]. exists d1, d2, post. repeat split; eassumption.
Qed.

Lemma extract_zipcode_some (a z : pystr) :
  extract_zipcode a = Some z ->
  exists pre, delimited_run a pre z /\
    forall pre' z', delimited_run a pre' z' -> length pre <= length pre'.
Proof.
  unfold extract_zipcode, re_search.
  destruct (search_from address_zip_pattern 0 a) as [m|] eqn:E; [|discriminate].
  intros G. apply search_from_address_some in E as (pre & z' & G' & R & Least).
  rewrite G in G'. injection G' as <-. exists pre. split; assumption.
Qed.

Lemma extract_zipcode_none (a : pystr) :
  extract_zipcode a = None -> forall pre z, ~ delimited_run a pre z.
Proof.
  unfold extract_zipcode, re_search.
  destruct (search_from address_zip_pattern 0 a) as [m|] eqn:E.
  - apply search_from_address_some in E as (pre & z' & G' & _).
    rewrite G'. discriminate.
  - intros _ pre z. eapply search_from_address_none. exact E.
Qed.

(** No delimiter is a digit, so a delimited run is a maximal run of digits. *)
Lemma lead_delim_not_decimal (c : codepoint) :
  lead_delim c = true -> is_unicode_decimal c = false.
Proof.
  unfold lead_delim. intros H. apply orb_prop in H as [H|H].
  - apply N.eqb_eq in H. subst c. reflexivity.
  - apply space_not_decimal, H.
Qed.

Lemma trail_delim_not_decimal (c : codepoint) :
  trail_delim c = true -> is_unicode_decimal c = false.
Proof.
  unfold trail_delim. intros H. apply orb_prop in H as [H|H].
  - apply orb_prop in H as [H|H].
    + apply N.eqb_eq in H. subst c. reflexivity.
    + apply space_not_decimal, H.
  - apply N.eqb_eq in H. subst c. reflexivity.
Qed.

Lemma verify_zipcode_shape (s : pystr) : verify_zipcode s = zipcode_shape s.
Proof.
  unfold verify_zipcode, re_match, zipcode_pattern.
  change (rmatch (RCat RBol ?r) ?st) with (rmatch r st).
  change (rmatch (RCat ?r1 ?r2) ?st)
    with (match rmatch r1 st with Some st' => rmatch r2 st' | None => None end).
  rewrite rmatch_digits5. unfold zipcode_shape.
  destruct s as [|a s]; [reflexivity|].
  destruct s as [|b s]; [reflexivity|].
  destruct s as [|c s]; [reflexivity|].
  destruct s as [|d s]; [reflexivity|].
  destruct s as [|e s]; [reflexivity|].
  destruct (all_decimal [a; b; c; d; e]); [|reflexivity].
  destruct s as [|n s]; [reflexivity|].
  destruct s as [|? s]; [|reflexivity].
  cbn [andb rmatch m_rest]. destruct (N.eqb n LF); reflexivity.
Qed.

Lemma verify_zipcode_spec (s : pystr) :
  verify_zipcode s = true <->
  exists d, length d = 5 /\ all_decimal d = true /\ (s = d \/ s = d ++ [LF]).
Proof.
  rewrite verify_zipcode_shape. unfold zipcode_shape. split.
  - intros H.
    destruct s as [|a s]; [discriminate|].
    destruct s as [|b s]; [discriminate|].
    destruct s as [|c s]; [discriminate|].
    destruct s as [|d s]; [discriminate|].
    destruct s as [|e s]; [discriminate|].
    apply andb_prop in H as [D T].
    exists [a; b; c; d; e]. split; [reflexivity|]. split; [exact D|].
    destruct s as [|n s]; [left; reflexivity|].
    destruct s as [|? s]; [|discriminate].
    apply N.eqb_eq in T. subst n. right. reflexivity.
  - intros (d & L & D & Hs).
    destruct d as [|a d]; [discriminate|].
    destruct d as [|b d]; [discriminate|].
    destruct d as [|c d]; [discriminate|].
    destruct d as [|x d]; [discriminate|].
    destruct d as [|e d]; [discriminate|].
    destruct d; [|discriminate].
    destruct Hs as [-> | ->]; cbn [app]; rewrite D; reflexivity.
Qed.

(** ** Strings and traces *)

Lemma pystr_eqb_eq (a b : pystr) : pystr_eqb a b = true <-> a = b.
Proof.
  unfold pystr_eqb. destruct (list_eq_dec N.eq_dec a b); split; congruence.
Qed.

Lemma pystr_eqb_refl (a : pystr) : pystr_eqb a a = true.
Proof. apply pystr_eqb_eq. reflexivity. Qed.

Lemma pystr_eqb_neq (a b : pystr) : pystr_eqb a b = false <-> a <> b.
Proof.
  unfold pystr_eqb. destruct (list_eq_dec N.eq_dec a b); split; congruence.
Qed.

Lemma zipcode_equal_true (z : option pystr) (target : pystr) :
  zipcode_equal z target = true <-> z = Some target.
Proof.
  destruct z as [z|]; cbn.
  - rewrite pystr_eqb_eq. split; congruence.
  - split; discriminate.
Qed.

Lemma discovered_app (zip : pystr) (t1 t2 : list event) :
  discovered zip (t1 ++ t2) = discovered zip t1 ++ discovered zip t2.
Proof. apply flat_map_app. Qed.

Lemma nearby_raised_app (t1 t2 : list event) :
  nearby_raised (t1 ++ t2) = nearby_raised t1 || nearby_raised t2.
Proof. apply existsb_app. Qed.

Lemma nearby_raised_In (t : list event) :
  nearby_raised t = true <->
  exists req e, In (EvPlacesNearby req (Raises e)) t.
Proof.
  unfold nearby_raised. rewrite existsb_exists. split.
  - intros (ev & Hin & Hev).
    destruct ev as [| req [p|e] | | | | | | | | | | |]; try discriminate.
    exists req, e. exact Hin.
  - intros (req & e & Hin). eexists. split; [exact Hin|reflexivity].
Qed.

(** A dealer is discovered exactly by a place-details event that returned
    details whose postal code is the target. *)
Lemma discovered_In (zip : pystr) (t : list event) (d : dealer) :
  In d (discovered zip t) <->
  exists pid fields details,
    In (EvPlace pid fields (Returns (PlaceResponse (Some details)))) t /\
    details_zipcode details = Some zip /\
    d = make_dealer details pid.
Proof.
  unfold discovered. rewrite in_flat_map. split.
  - intros (ev & Hin & Hd).
    destruct ev as [| | pid fields [[[details|]]|e] | | | | | | | | | |];
      cbn in Hd; try contradiction.
    destruct (zipcode_equal (details_zipcode details) zip) eqn:Z;
      [|contradiction].
    destruct Hd as [<-|[]].
    exists pid, fields, details. repeat split; [exact Hin|].
    apply zipcode_equal_true, Z.
  - intros (pid & fields & details & Hin & Z & ->).
    eexists. split; [exact Hin|]. cbn.
    apply zipcode_equal_true in Z. rewrite Z. left. reflexivity.
Qed.

(** ** Running the monad *)

Section MonadLaws.

Variable W : Type.

Lemma bind_ret (A B : Type) (a : A) (f : A -> M W B) (w : W) :
  bind (ret a) f w = f a w.
Proof.
  unfold bind, ret. destruct (f a w) as [[r w'] t]. reflexivity.
Qed.

Lemma bind_raise (A B : Type) (e : exn) (f : A -> M W B) (w : W) :
  bind (raise e) f w = (Raise e, w, []).
Proof. reflexivity. Qed.

Lemma bind_emit (B : Type) (ev : event) (f : unit -> M W B) (w : W) :
  bind (emit ev) f w =
  match f tt w with (r, w', t) => (r, w', ev :: t) end.
Proof. reflexivity. Qed.

Lemma bind_call (A B : Type) (oracle : W -> reply A * W)
  (ev : reply A -> event) (f : A -> M W B) (w : W) :
  bind (call oracle ev) f w =
  match oracle w with
  | (Returns a, w') =>
      match f a w' with (r, w'', t) => (r, w'', ev (Returns a) :: t) end
  | (Raises e, w') => (Raise e, w', [ev (Raises e)])
  end.
Proof.
  unfold bind, call. destruct (oracle w) as [[a|e] w']; reflexivity.
Qed.

Lemma bind_assoc (A B C : Type) (m : M W A) (f : A -> M W B)
  (g : B -> M W C) (w : W) :
  bind (bind m f) g w = bind m (fun a => bind (f a) g) w.
Proof.
  unfold bind. destruct (m w) as [[[a|e|] w1] t1]; try reflexivity.
  destruct (f a w1) as [[[b|e|] w2] t2]; try reflexivity.
  destruct (g b w2) as [[r w3] t3]. rewrite app_assoc. reflexivity.
Qed.

Lemma finished_try_except (A : Type) (m : M W A) (h : exn -> M W A)
  (w : W) :
  finished (try_except m h w) = true -> finished (m w) = true.
Proof.
  unfold try_except. destruct (m w) as [[[a|e|] w1] t1]; cbn; auto.
Qed.

(** Two continuations that agree wherever the first one finishes. *)
Lemma bind_more_fuel (A B : Type) (m : M W A) (f f' : A -> M W B) (w : W) :
  finished (bind m f w) = true ->
  (forall a w', finished (f a w') = true -> f' a w' = f a w') ->
  bind m f' w = bind m f w.
Proof.
  unfold bind. destruct (m w) as [[[a|e|] w1] t1]; try reflexivity.
  intros H Hf. rewrite Hf; [reflexivity|].
  destruct (f a w1) as [[[b|e|] w2] t2]; cbn in H |- *; congruence.
Qed.

End MonadLaws.


(** ** The dict of dealers *)

Lemma dict_set_keys_present (d : list (pystr * dealer)) (k : pystr)
  (v : dealer) :
  In k (map fst d) -> map fst (dict_set d k v) = map fst d.
Proof.
  induction d as [|[k' v'] tl IH]; intros Hin; [destruct Hin|].
  cbn [dict_set]. destruct (pystr_eqb k' k) eqn:E; [reflexivity|].
  cbn [map fst]. f_equal. apply IH.
  destruct Hin as [Hk|Hin]; [|exact Hin].
  cbn in Hk. subst k'. exfalso.
  assert (pystr_eqb k k = true) by (apply pystr_eqb_eq; reflexivity).
  congruence.
Qed.

Lemma dict_set_keys_absent (d : list (pystr * dealer)) (k : pystr)
  (v : dealer) :
  ~ In k (map fst d) -> map fst (dict_set d k v) = map fst d ++ [k].
Proof.
  induction d as [|[k' v'] tl IH]; intros Hin; [reflexivity|].
  cbn [dict_set]. destruct (pystr_eqb k' k) eqn:E.
  - apply pystr_eqb_eq in E. subst k'. exfalso. apply Hin. left.
    reflexivity.
  - cbn [map fst app]. f_equal. apply IH. intros H. apply Hin. right.
    exact H.
Qed.

Lemma dict_set_NoDup (d : list (pystr * dealer)) (k : pystr) (v : dealer) :
  NoDup (map fst d) -> NoDup (map fst (dict_set d k v)).
Proof.
  intros Hn. destruct (in_dec (list_eq_dec N.eq_dec) k (map fst d)) as [Hin|Hin].
  - rewrite dict_set_keys_present by exact Hin. exact Hn.
  - rewrite dict_set_keys_absent by exact Hin.
    apply NoDup_app; [exact Hn| |].
    + constructor; [intros []|constructor].
    + intros x Hx [<-|[]]. exact (Hin Hx).
Qed.

Lemma dict_set_In (d : list (pystr * dealer)) (k : pystr) (v : dealer)
  (k' : pystr) (v' : dealer) :
  NoDup (map fst d) ->
  (In (k', v') (dict_set d k v) <->
   (k' = k /\ v' = v) \/ (k' <> k /\ In (k', v') d)).
Proof.
  induction d as [|[k0 v0] tl IH]; intros Hn.
  - cbn. split.
    + intros [[= <- <-]|[]]. left. split; reflexivity.
    + intros [[-> ->]|[_ []]]. left. reflexivity.
  - inversion Hn as [|? ? Hnotin Hn']; subst.
    cbn [dict_set]. destruct (pystr_eqb k0 k) eqn:E.
    + apply pystr_eqb_eq in E. subst k0. cbn [In]. split.
      * intros [[= <- <-]|Hin]; [left; split; reflexivity|].
        right. split; [|right; exact Hin].
        intros ->. apply Hnotin. apply (in_map fst) in Hin. exact Hin.
      * intros [[-> ->]|[Hne [[= -> ->]|Hin]]].
        -- left. reflexivity.
        -- contradiction.
        -- right. exact Hin.
    + assert (Hne0 : k0 <> k).
      { intros ->. assert (pystr_eqb k k = true)
          by (apply pystr_eqb_eq; reflexivity). congruence. }
      cbn [In]. rewrite (IH Hn'). split.
      * intros [[= <- <-]|[[-> ->]|[Hne Hin]]].
        -- right. split; [exact Hne0|left; reflexivity].
        -- left. split; reflexivity.
        -- right. split; [exact Hne|right; exact Hin].
      * intros [[-> ->]|[Hne [[= -> ->]|Hin]]].
        -- right. left. split; reflexivity.
        -- left. reflexivity.
        -- right. right. split; assumption.
Qed.

Lemma dict_of_dealers_snoc (l : list dealer) (x : dealer) :
  dict_of_dealers (l ++ [x]) = dict_set (dict_of_dealers l) (place_id x) x.
Proof. unfold dict_of_dealers. rewrite fold_left_app. reflexivity. Qed.

Lemma dict_of_dealers_inv (l : list dealer) :
  NoDup (map fst (dict_of_dealers l)) /\
  (forall k v, In (k, v) (dict_of_dealers l) -> k = place_id v).
Proof.
  induction l as [|x l [IHn IHk]] using rev_ind.
  - split; [constructor|intros ? ? []].
  - rewrite dict_of_dealers_snoc. split.
    + apply dict_set_NoDup, IHn.
    + intros k v Hin. apply (dict_set_In _ _ _ _ _ IHn) in Hin.
      destruct Hin as [[-> ->]|[_ Hin]]; [reflexivity|].
      apply IHk, Hin.
Qed.

Lemma unique_dealers_ids (l : list dealer) :
  map place_id (unique_dealers l) = map fst (dict_of_dealers l).
Proof.
  unfold unique_dealers. destruct (dict_of_dealers_inv l) as [_ Hk].
  induction (dict_of_dealers l) as [|[k v] tl IH]; [reflexivity|].
  cbn [map fst snd]. f_equal.
  - symmetry. apply Hk. left. reflexivity.
  - apply IH. intros k' v' Hin. apply Hk. right. exact Hin.
Qed.

(** At most one entry for a [place_id]. *)
Lemma unique_dealers_NoDup (l : list dealer) :
  NoDup (map place_id (unique_dealers l)).
Proof.
  rewrite unique_dealers_ids. apply dict_of_dealers_inv.
Qed.

Lemma unique_dealers_snoc_In (l : list dealer) (x d : dealer) :
  In d (unique_dealers (l ++ [x])) <->
  d = x \/ (place_id d <> place_id x /\ In d (unique_dealers l)).
Proof.
  unfold unique_dealers. rewrite dict_of_dealers_snoc.
  destruct (dict_of_dealers_inv l) as [Hn Hk].
  rewrite !in_map_iff. split.
  - intros ([k v] & Hs & Hin). cbn in Hs. subst v.
    apply (dict_set_In _ _ _ _ _ Hn) in Hin.
    destruct Hin as [[_ ->]|[Hne Hin]]; [left; reflexivity|].
    right. split.
    + rewrite <- (Hk _ _ Hin). exact Hne.
    + exists (k, d). split; [reflexivity|exact Hin].
  - intros [->|(Hne & [k v] & Hs & Hin)].
    + exists (place_id x, x). split; [reflexivity|].
      apply (dict_set_In _ _ _ _ _ Hn). left. split; reflexivity.
    + cbn in Hs. subst v. exists (k, d). split; [reflexivity|].
      apply (dict_set_In _ _ _ _ _ Hn). right. split; [|exact Hin].
      rewrite (Hk _ _ Hin). exact Hne.
Qed.

Lemma last_with_id_snoc (l : list dealer) (x d : dealer) :
  last_with_id (l ++ [x]) d <->
  d = x \/ (place_id d <> place_id x /\ last_with_id l d).
Proof.
  split.
  - intros (l1 & l2 & E & Hl).
    destruct l2 as [|y l2] using rev_ind.
    + apply app_inj_tail in E as [_ ->]. left. reflexivity.
    + clear IHl2. right.
      change (l1 ++ d :: l2 ++ [y]) with (l1 ++ (d :: l2) ++ [y]) in E.
      rewrite app_assoc in E. apply app_inj_tail in E as [-> ->].
      split.
      * intros Heq. apply (Hl y); [apply in_or_app; right; left; reflexivity|].
        symmetry. exact Heq.
      * exists l1, l2. split; [reflexivity|].
        intros d' Hin. apply Hl. apply in_or_app. left. exact Hin.
  - intros [->|(Hne & l1 & l2 & -> & Hl)].
    + exists l, []. split; [reflexivity|intros ? []].
    + exists l1, (l2 ++ [x]). split.
      * rewrite <- app_assoc. reflexivity.
      * intros d' Hin. apply in_app_or in Hin as [Hin|[<-|[]]].
        -- apply Hl, Hin.
        -- intros Heq. apply Hne. symmetry. exact Heq.
Qed.

(** Last write wins: the entries are the last dealers with their
    [place_id]. *)
Lemma unique_dealers_In (l : list dealer) (d : dealer) :
  In d (unique_dealers l) <-> last_with_id l d.
Proof.
  induction l as [|x l IH] using rev_ind.
  - split; [intros []|].
    intros (l1 & l2 & E & _). destruct l1; discriminate.
  - rewrite unique_dealers_snoc_In, last_with_id_snoc, IH. reflexivity.
Qed.

(** Every [place_id] of the list keeps an entry. *)
Lemma unique_dealers_covers (l : list dealer) (d : dealer) :
  In d l -> exists d', In d' (unique_dealers l) /\ place_id d' = place_id d.
Proof.
  induction l as [|x l IH] using rev_ind; [intros []|].
  intros Hin. apply in_app_or in Hin as [Hin|[<-|[]]].
  - destruct (IH Hin) as (d' & Hd' & Hid).
    destruct (list_eq_dec N.eq_dec (place_id d') (place_id x)) as [E|E].
    + exists x. split; [apply unique_dealers_snoc_In; left; reflexivity|].
      congruence.
    + exists d'. split; [|exact Hid].
      apply unique_dealers_snoc_In. right. split; assumption.
  - exists x. split; [|reflexivity].
    apply unique_dealers_snoc_In. left. reflexivity.
Qed.

(** ** [process_results] *)

Section SearchProofs.

Variable W : Type.
Variable gmaps : gmaps_client W.

(** A hit whose details cannot be fetched changes nothing but the trace. *)
Lemma process_place_fetch_fails (hit : place_hit) (dealers : list dealer)
  (target : pystr) (w w' : W) (pid : pystr) (e : exn) :
  hit_place_id hit = Some pid ->
  place gmaps pid detail_fields w = (Raises e, w') ->
  process_place gmaps hit dealers target w =
  (Ok dealers, w',
   [EvPlace pid detail_fields (Raises e);
    EvStWarning (str "Error processing dealer: " ++ exn_str e)]).
Proof.
  intros Hid Hp.
  unfold process_place, try_except, bind, getitem, call, emit, ret.
  rewrite Hid, Hp. reflexivity.
Qed.

Lemma process_place_spec (hit : place_hit) (dealers : list dealer)
  (target : pystr) (w : W) :
  exists w' t,
    process_place gmaps hit dealers target w =
      (Ok (dealers ++ discovered target t), w', t) /\
    nearby_raised t = false /\
    (forall pid, hit_place_id hit = Some pid ->
                 exists r, In (EvPlace pid detail_fields r) t).
Proof.
  unfold process_place, try_except, bind, getitem, call, emit, ret, raise.
  destruct (hit_place_id hit) as [pid|].
  - destruct (place gmaps pid detail_fields w) as [[[[details|]]|e] w'] eqn:Hp.
    + exists w', [EvPlace pid detail_fields
                    (Returns (PlaceResponse (Some details))); EvSleep 100].
      split; [|split].
      * cbn. destruct (zipcode_equal (details_zipcode details) target);
          cbn; rewrite ?app_nil_r; reflexivity.
      * reflexivity.
      * intros pid' [= <-]. eexists. left. reflexivity.
    + exists w', [EvPlace pid detail_fields (Returns (PlaceResponse None));
                  EvStWarning (str "Error processing dealer: "
                               ++ exn_str (KeyError "result"))].
      split; [|split].
      * cbn. rewrite app_nil_r. reflexivity.
      * reflexivity.
      * intros pid' [= <-]. eexists. left. reflexivity.
    + exists w', [EvPlace pid detail_fields (Raises e);
                  EvStWarning (str "Error processing dealer: " ++ exn_str e)].
      split; [|split].
      * cbn. rewrite app_nil_r. reflexivity.
      * reflexivity.
      * intros pid' [= <-]. eexists. left. reflexivity.
  - exists w, [EvStWarning (str "Error processing dealer: "
                            ++ exn_str (KeyError "place_id"))].
    split; [|split].
    + cbn. rewrite app_nil_r. reflexivity.
    + reflexivity.
    + intros pid' [=].
Qed.

Lemma process_results_spec (hits : list place_hit) :
  forall (dealers : list dealer) (target : pystr) (w : W),
  exists w' t,
    process_results gmaps hits dealers target w =
      (Ok (dealers ++ discovered target t), w', t) /\
    nearby_raised t = false /\
    (forall hit pid, In hit hits -> hit_place_id hit = Some pid ->
                     exists r, In (EvPlace pid detail_fields r) t).
Proof.
  induction hits as [|hit rest IH]; intros dealers target w.
  - exists w, []. cbn. rewrite app_nil_r.
    split; [reflexivity|]. split; [reflexivity|]. intros ? ? [].
  - destruct (process_place_spec hit dealers target w)
      as (w1 & t1 & E1 & N1 & A1).
    destruct (IH (dealers ++ discovered target t1) target w1)
      as (w2 & t2 & E2 & N2 & A2).
    exists w2, (t1 ++ t2). split; [|split].
    + cbn [process_results]. unfold bind. rewrite E1, E2.
      rewrite discovered_app, app_assoc. reflexivity.
    + rewrite nearby_raised_app, N1, N2. reflexivity.
    + intros h pid [<-|Hin] Hid.
      * destruct (A1 pid Hid) as (r & Hr). exists r.
        apply in_or_app. left. exact Hr.
      * destruct (A2 h pid Hin Hid) as (r & Hr). exists r.
        apply in_or_app. right. exact Hr.
Qed.

(** ** The search loops *)

Lemma search_post_prefix (dealers : list dealer) (zip : pystr)
  (r : outcome (list dealer)) (w : W) (t0 t : list event) :
  discovered zip t0 = [] -> nearby_raised t0 = false ->
  search_post dealers zip (r, w, t) ->
  search_post dealers zip (r, w, t0 ++ t).
Proof.
  intros D0 N0 H. unfold search_post in *.
  rewrite nearby_raised_app, N0, discovered_app, D0. exact H.
Qed.

Lemma search_post_bind (m : M W (list dealer))
  (f : list dealer -> M W (list dealer)) (dealers : list dealer)
  (zip : pystr) (w : W) :
  search_post dealers zip (m w) ->
  (forall ds w', search_post ds zip (f ds w')) ->
  search_post dealers zip (bind m f w).
Proof.
  intros Hm Hf. unfold bind.
  destruct (m w) as [[[ds|e|] w1] t1]; cbn in Hm; [|exact Hm|exact Hm].
  destruct Hm as [-> N1].
  specialize (Hf (dealers ++ discovered zip t1) w1).
  destruct (f _ w1) as [[[ds2|e2|] w2] t2]; cbn in Hf |- *;
    rewrite nearby_raised_app, N1; cbn.
  - destruct Hf as [-> N2]. split; [|exact N2].
    rewrite discovered_app, app_assoc. reflexivity.
  - exact Hf.
  - exact Hf.
Qed.

Lemma process_results_post (hits : list place_hit) (dealers : list dealer)
  (zip : pystr) (w : W) :
  search_post dealers zip (process_results gmaps hits dealers zip w).
Proof.
  destruct (process_results_spec hits dealers zip w) as (w' & t & E & N & _).
  rewrite E. split; [reflexivity|exact N].
Qed.

Lemma process_page_post (page : places_page) (dealers : list dealer)
  (zip : pystr) (w : W) :
  search_post dealers zip (process_page gmaps page dealers zip w).
Proof.
  unfold process_page. destruct (results page) as [[|hit rest]|].
  - cbn. rewrite app_nil_r. split; reflexivity.
  - apply process_results_post.
  - cbn. rewrite app_nil_r. split; reflexivity.
Qed.

Lemma next_pages_post (fuel : nat) :
  forall (loc : json) (page : places_page) (dealers : list dealer)
         (zip : pystr) (w : W),
  search_post dealers zip (next_pages gmaps fuel loc page dealers zip w).
Proof.
  induction fuel as [|fuel IH]; intros loc page dealers zip w.
  - cbn [next_pages]. destruct (next_page_token page) as [token|]; cbn.
    + reflexivity.
    + rewrite app_nil_r. split; reflexivity.
  - cbn [next_pages]. destruct (next_page_token page) as [token|].
    + unfold bind at 1 2, emit, call.
      destruct (places_nearby gmaps (NearbyNextPage loc token) w)
        as [[page'|e] w1].
      * match goal with
        | |- context [bind ?m ?f w1] =>
            pose proof (search_post_bind m f dealers zip w1
                          (process_page_post page' dealers zip w1)
                          (fun ds w' => IH loc page' ds zip w')) as H;
            destruct (bind m f w1) as [[r w2] t2]
        end.
        change ([EvSleep 2000] ++ [EvPlacesNearby (NearbyNextPage loc token)
                                     (Returns page')] ++ t2)
          with ([EvSleep 2000; EvPlacesNearby (NearbyNextPage loc token)
                                 (Returns page')] ++ t2).
        apply search_post_prefix; [reflexivity|reflexivity|exact H].
      * reflexivity.
    + cbn. rewrite app_nil_r. split; reflexivity.
Qed.

Lemma search_query_post (fuel : nat) (loc : json) (query : pystr)
  (dealers : list dealer) (zip : pystr) (w : W) :
  search_post dealers zip (search_query gmaps fuel loc query dealers zip w).
Proof.
  unfold search_query. unfold bind at 1. unfold call.
  destruct (places_nearby gmaps (first_request loc query) w)
    as [[page|e] w1]; [|reflexivity].
  destruct (results page) as [[|hit rest]|].
  - cbn. rewrite app_nil_r. split; reflexivity.
  - match goal with
    | |- context [bind ?m ?f w1] =>
        pose proof (search_post_bind m f dealers zip w1
                      (process_results_post (hit :: rest) dealers zip w1)
                      (fun ds w' => next_pages_post fuel loc page ds zip w'))
          as H;
        destruct (bind m f w1) as [[r w2] t2]
    end.
    apply search_post_prefix; [reflexivity|reflexivity|exact H].
  - cbn. rewrite app_nil_r. split; reflexivity.
Qed.

Lemma search_all_post (fuel : nat) (loc : json) (queries : list pystr) :
  forall (dealers : list dealer) (zip : pystr) (w : W),
  search_post dealers zip (search_all gmaps fuel loc queries dealers zip w).
Proof.
  induction queries as [|query rest IH]; intros dealers zip w.
  - cbn. rewrite app_nil_r. split; reflexivity.
  - cbn [search_all]. apply search_post_bind; [apply search_query_post|].
    intros ds w'. apply IH.
Qed.

(** ** [get_dealer_info] *)

(** Geocoding found nothing: the failure result, one message, no search. *)
Lemma get_dealer_info_not_found (fuel : nat) (zip : pystr) (w w1 : W) :
  geocode gmaps zip w = (Returns [], w1) ->
  get_dealer_info gmaps fuel zip w =
  (Ok None, w1,
   [EvGeocode zip (Returns []);
    EvStError (str "Could not find location for zip code " ++ zip)]).
Proof.
  intros Hg. unfold get_dealer_info, try_except, bind, call, emit, ret.
  rewrite Hg. reflexivity.
Qed.

(** Geocoding raised: the failure result. *)
Lemma get_dealer_info_geocode_raises (fuel : nat) (zip : pystr) (w w1 : W)
  (e : exn) :
  geocode gmaps zip w = (Raises e, w1) ->
  get_dealer_info gmaps fuel zip w =
  (Ok None, w1,
   [EvGeocode zip (Raises e);
    EvStError (str "Error finding dealer information: " ++ exn_str e)]).
Proof.
  intros Hg. unfold get_dealer_info, try_except, bind, call, emit, ret.
  rewrite Hg. reflexivity.
Qed.

(** Geocoding found a location: the search runs from there. *)
Lemma get_dealer_info_located (fuel : nat) (zip : pystr) (w w1 : W)
  (loc : json) (more : list geocode_entry) :
  geocode gmaps zip w = (Returns (located loc more), w1) ->
  get_dealer_info gmaps fuel zip w =
  match search_all gmaps fuel loc search_queries [] zip w1 with
  | (Ok ds, w', t) =>
      (Ok (Some (unique_dealers ds)), w',
       EvGeocode zip (Returns (located loc more))
       :: EvSpinner (str "Searching for independent used car dealers...")
       :: t)
  | (Raise e, w', t) =>
      (Ok None, w',
       (EvGeocode zip (Returns (located loc more))
        :: EvSpinner (str "Searching for independent used car dealers...")
        :: t)
       ++ [EvStError (str "Error finding dealer information: "
                      ++ exn_str e)])
  | (OutOfFuel, w', t) =>
      (OutOfFuel, w',
       EvGeocode zip (Returns (located loc more))
       :: EvSpinner (str "Searching for independent used car dealers...")
       :: t)
  end.
Proof.
  intros Hg. unfold get_dealer_info, try_except.
  rewrite bind_call, Hg. unfold located at 1.
  cbn [getitem ge_geometry location]. rewrite bind_ret.
  cbn [getitem ge_geometry location]. rewrite bind_ret, bind_emit.
  unfold bind at 1.
  destruct (search_all gmaps fuel loc search_queries [] zip w1)
    as [[[ds|e|] w2] t]; cbn [ret emit bind app]; rewrite ?app_nil_r;
    reflexivity.
Qed.

(** The answer of geocoding that the search can start from, if any. *)
Lemma geocode_cases (zip : pystr) (w : W) :
  (exists loc more w1,
     geocode gmaps zip w = (Returns (located loc more), w1)) \/
  (exists w1 t, forall fuel,
     get_dealer_info gmaps fuel zip w = (Ok None, w1, t) /\
     nearby_raised t = false).
Proof.
  destruct (geocode gmaps zip w) as [[[|[[[[loc|]]|]] more]|e] w1] eqn:Hg.
  - right. do 2 eexists. intros fuel.
    rewrite (get_dealer_info_not_found fuel _ _ Hg). split; reflexivity.
  - left. exists loc, more, w1. reflexivity.
  - right. do 2 eexists. intros fuel.
    unfold get_dealer_info, try_except, bind, call, emit, ret.
    rewrite Hg. cbn. split; reflexivity.
  - right. do 2 eexists. intros fuel.
    unfold get_dealer_info, try_except, bind, call, emit, ret.
    rewrite Hg. cbn. split; reflexivity.
  - right. do 2 eexists. intros fuel.
    rewrite (get_dealer_info_geocode_raises fuel _ _ Hg). split; reflexivity.
Qed.

(** What every run of [get_dealer_info] satisfies. *)
Lemma get_dealer_info_post (fuel : nat) (zip : pystr) (w : W) :
  match get_dealer_info gmaps fuel zip w with
  | (Ok (Some ds), _, t) =>
      ds = unique_dealers (discovered zip t) /\ nearby_raised t = false
  | (Ok None, _, _) => True
  | (Raise _, _, _) => False
  | (OutOfFuel, _, t) => nearby_raised t = false
  end.
Proof.
  destruct (geocode_cases zip w) as [(loc & more & w1 & Hg)|(w1 & t & H)].
  - rewrite (get_dealer_info_located fuel _ _ Hg).
    pose proof (search_all_post fuel loc search_queries [] zip w1) as P.
    destruct (search_all gmaps fuel loc search_queries [] zip w1)
      as [[[ds|e|] w2] t]; cbn in P.
    + destruct P as [-> N]. split; [reflexivity|exact N].
    + exact I.
    + exact P.
  - destruct (H fuel) as [-> _]. exact I.
Qed.

(** ** Fuel

    A run that ends within its fuel is the same with more. *)

Lemma next_pages_S (fuel : nat) (loc : json) (page : places_page)
  (dealers : list dealer) (zip : pystr) :
  next_pages gmaps (S fuel) loc page dealers zip =
  match next_page_token page with
  | None => ret dealers
  | Some token =>
      bind (emit (EvSleep 2000)) (fun _ =>
      bind (call (places_nearby gmaps (NearbyNextPage loc token))
                 (EvPlacesNearby (NearbyNextPage loc token)))
        (fun page' =>
      bind (process_page gmaps page' dealers zip) (fun dealers' =>
      next_pages gmaps fuel loc page' dealers' zip)))
  end.
Proof. reflexivity. Qed.

Lemma next_pages_more_fuel (fuel : nat) :
  forall (loc : json) (page : places_page) (dealers : list dealer)
         (zip : pystr) (w : W),
  finished (next_pages gmaps fuel loc page dealers zip w) = true ->
  next_pages gmaps (S fuel) loc page dealers zip w =
  next_pages gmaps fuel loc page dealers zip w.
Proof.
  induction fuel as [|fuel IH]; intros loc page dealers zip w H.
  - cbn [next_pages] in H |- *.
    destruct (next_page_token page); [discriminate|reflexivity].
  - rewrite next_pages_S in H. rewrite (next_pages_S (S fuel)).
    rewrite (next_pages_S fuel).
    destruct (next_page_token page) as [token|]; [|reflexivity].
    apply bind_more_fuel; [exact H|]. intros _ w1 F1.
    apply bind_more_fuel; [exact F1|]. intros page' w2 F2.
    apply bind_more_fuel; [exact F2|]. intros ds w3 F3.
    apply IH, F3.
Qed.

Lemma search_query_more_fuel (fuel : nat) (loc : json) (query : pystr)
  (dealers : list dealer) (zip : pystr) (w : W) :
  finished (search_query gmaps fuel loc query dealers zip w) = true ->
  search_query gmaps (S fuel) loc query dealers zip w =
  search_query gmaps fuel loc query dealers zip w.
Proof.
  unfold search_query. intros H.
  apply bind_more_fuel; [exact H|]. intros page w1 F1.
  destruct (results page) as [[|hit rest]|]; try reflexivity.
  apply bind_more_fuel; [exact F1|]. intros ds w2 F2.
  apply next_pages_more_fuel, F2.
Qed.

Lemma search_all_more_fuel (fuel : nat) (loc : json) (queries : list pystr) :
  forall (dealers : list dealer) (zip : pystr) (w : W),
  finished (search_all gmaps fuel loc queries dealers zip w) = true ->
  search_all gmaps (S fuel) loc queries dealers zip w =
  search_all gmaps fuel loc queries dealers zip w.
Proof.
  induction queries as [|query rest IH]; intros dealers zip w H;
    [reflexivity|].
  cbn [search_all] in H |- *. unfold bind in H |- *.
  assert (Hq : finished (search_query gmaps fuel loc query dealers zip w)
               = true).
  { destruct (search_query gmaps fuel loc query dealers zip w)
      as [[[ds|e|] w1] t1]; [reflexivity|reflexivity|discriminate]. }
  rewrite (search_query_more_fuel _ _ _ _ _ _ Hq).
  destruct (search_query gmaps fuel loc query dealers zip w)
    as [[[ds|e|] w1] t1]; try reflexivity.
  rewrite IH; [reflexivity|].
  destruct (search_all gmaps fuel loc rest ds zip w1)
    as [[[ds2|e2|] w2] t2]; [reflexivity|reflexivity|discriminate].
Qed.

Lemma get_dealer_info_more_fuel (fuel : nat) (zip : pystr) (w : W) :
  finished (get_dealer_info gmaps fuel zip w) = true ->
  get_dealer_info gmaps (S fuel) zip w = get_dealer_info gmaps fuel zip w.
Proof.
  intros H.
  destruct (geocode_cases zip w) as [(loc & more & w1 & Hg)|(w1 & t & E)].
  - rewrite (get_dealer_info_located fuel _ _ Hg) in H.
    rewrite !(get_dealer_info_located _ _ _ Hg).
    rewrite search_all_more_fuel; [reflexivity|].
    destruct (search_all gmaps fuel loc search_queries [] zip w1)
      as [[[ds|e|] w2] t]; [reflexivity|reflexivity|discriminate].
  - destruct (E (S fuel)) as [-> _]. destruct (E fuel) as [-> _].
    reflexivity.
Qed.

(** Enough fuel gives the result: what a run returns with some fuel it
    returns with any larger fuel. *)
Lemma get_dealer_info_enough_fuel (fuel fuel' : nat) (zip : pystr) (w : W) :
  fuel <= fuel' ->
  finished (get_dealer_info gmaps fuel zip w) = true ->
  get_dealer_info gmaps fuel' zip w = get_dealer_info gmaps fuel zip w.
Proof.
  intros Hle H. induction Hle as [|m Hle IH]; [reflexivity|].
  rewrite get_dealer_info_more_fuel; [exact IH|]. rewrite IH. exact H.
Qed.

(** A run that returns a list returns the discovered dealers, one per
    [place_id], and saw no nearby search fail. *)
Lemma get_dealer_info_result (fuel : nat) (zip : pystr) (w : W)
  (ds : list dealer) :
  outcome_of (get_dealer_info gmaps fuel zip w) = Ok (Some ds) ->
  ds = unique_dealers
         (discovered zip (trace_of (get_dealer_info gmaps fuel zip w))) /\
  nearby_raised (trace_of (get_dealer_info gmaps fuel zip w)) = false.
Proof.
  pose proof (get_dealer_info_post fuel zip w) as P.
  destruct (get_dealer_info gmaps fuel zip w) as [[[[ds'|]|e|] w'] t];
    unfold trace_of, outcome_of; cbn [fst snd]; intros [=]. subst ds'.
  exact P.
Qed.

(** A run in which a nearby search raised returns the failure result. *)
Lemma get_dealer_info_nearby_raised (fuel : nat) (zip : pystr) (w : W) :
  nearby_raised (trace_of (get_dealer_info gmaps fuel zip w)) = true ->
  outcome_of (get_dealer_info gmaps fuel zip w) = Ok None.
Proof.
  pose proof (get_dealer_info_post fuel zip w) as P.
  destruct (get_dealer_info gmaps fuel zip w) as [[[[ds'|]|e|] w'] t];
    unfold trace_of, outcome_of; cbn [fst snd]; intros H.
  - destruct P as [_ P]. congruence.
  - reflexivity.
  - destruct P.
  - congruence.
Qed.

(** A located run that ends within its fuel and sees no nearby search fail
    returns the discovered dealers. *)
Lemma get_dealer_info_success (fuel : nat) (zip : pystr) (w w1 : W)
  (loc : json) (more : list geocode_entry) :
  geocode gmaps zip w = (Returns (located loc more), w1) ->
  finished (get_dealer_info gmaps fuel zip w) = true ->
  nearby_raised (trace_of (get_dealer_info gmaps fuel zip w)) = false ->
  outcome_of (get_dealer_info gmaps fuel zip w) =
  Ok (Some (unique_dealers
              (discovered zip
                 (trace_of (get_dealer_info gmaps fuel zip w))))).
Proof.
  intros Hg. rewrite (get_dealer_info_located fuel _ _ Hg).
  pose proof (search_all_post fuel loc search_queries [] zip w1) as P.
  destruct (search_all gmaps fuel loc search_queries [] zip w1)
    as [[[ds|e|] w2] t]; unfold trace_of, outcome_of, finished;
    cbn [fst snd search_post] in P |- *; intros F N.
  - destruct P as [-> _]. reflexivity.
  - rewrite nearby_raised_app in N.
    change (nearby_raised (?a :: ?b :: t)) with (nearby_raised t) in N.
    rewrite P in N. discriminate.
  - discriminate.
Qed.

End SearchProofs.

Lemma details_zipcode_address (details : place_details) (zip : pystr) :
  details_zipcode details = Some zip ->
  exists address,
    d_formatted_address details = Some address /\
    extract_zipcode address = Some zip.
Proof.
  unfold details_zipcode. destruct (d_formatted_address details) as [a|].
  - intros H. exists a. split; [reflexivity|exact H].
  - cbn. discriminate.
Qed.

Lemma last_with_id_In (l : list dealer) (d : dealer) :
  last_with_id l d -> In d l.
Proof.
  intros (l1 & l2 & -> & _). apply in_or_app. right. left. reflexivity.
Qed.

(** ** [extract_website_info] *)

Section WebsiteProofs.

Variable W : Type.
Variable web : web_client W.

(** Nothing was downloaded: [None] at once, and no other request. *)
Lemma extract_content_no_download (url : pystr) (w w1 : W)
  (downloaded : option pystr) :
  fetch_url web url w = (Returns downloaded, w1) ->
  downloaded = None \/ downloaded = Some [] ->
  extract_content web url w =
  (Ok None, w1,
   [EvStWrite [str "Downloading website content..."];
    EvFetchUrl url (Returns downloaded);
    EvStWarning (str "Could not download content from " ++ url)]).
Proof.
  intros Hf Hd. unfold extract_content.
  rewrite bind_emit, bind_call, Hf.
  destruct Hd as [-> | ->]; reflexivity.
Qed.

(** The primary extraction gave text: that text is the content. *)
Lemma extract_content_primary (url : pystr) (w w1 w2 : W)
  (c c' : codepoint) (rest rest' : pystr) :
  fetch_url web url w = (Returns (Some (c :: rest)), w1) ->
  trafilatura_extract web (c :: rest) w1 =
    (Returns (Some (c' :: rest')), w2) ->
  extract_content web url w =
  (Ok (Some (c' :: rest')), w2,
   [EvStWrite [str "Downloading website content..."];
    EvFetchUrl url (Returns (Some (c :: rest)));
    EvStWrite [str "Extracting main content..."];
    EvTrafilaturaExtract (c :: rest) (Returns (Some (c' :: rest')))]).
Proof.
  intros Hf He. unfold extract_content.
  rewrite bind_emit, bind_call, Hf, bind_emit, bind_call, He, bind_ret.
  reflexivity.
Qed.

(** The primary extraction gave nothing: the page is fetched again with a
    timeout of 10 seconds and its text nodes, [script] and [style] apart,
    are joined by single spaces. *)
Lemma extract_content_fallback (url : pystr) (w w1 w2 w3 : W)
  (c : codepoint) (rest : pystr) (extracted : option pystr)
  (response : http_response) :
  fetch_url web url w = (Returns (Some (c :: rest)), w1) ->
  trafilatura_extract web (c :: rest) w1 = (Returns extracted, w2) ->
  extracted = None \/ extracted = Some [] ->
  requests_get web url 10 w2 = (Returns response, w3) ->
  extract_content web url w =
  (match fallback_text web response with
   | [] => Ok None
   | _ :: _ => Ok (Some (fallback_text web response))
   end, w3,
   [EvStWrite [str "Downloading website content..."];
    EvFetchUrl url (Returns (Some (c :: rest)));
    EvStWrite [str "Extracting main content..."];
    EvTrafilaturaExtract (c :: rest) (Returns extracted);
    EvStWrite [str "Trying alternative content extraction..."];
    EvRequestsGet url 10 (Returns response)]
   ++ match fallback_text web response with
      | [] => [EvStWarning
                 (str "Could not extract meaningful content from the website")]
      | _ :: _ => []
      end).
Proof.
  intros Hf He Hx Hr. unfold extract_content.
  rewrite bind_emit, bind_call, Hf, bind_emit, bind_call, He.
  assert (Hfb : fallback_extraction web url w2 =
                (Ok (fallback_text web response), w3,
                 [EvStWrite [str "Trying alternative content extraction..."];
                  EvRequestsGet url 10 (Returns response)])).
  { unfold fallback_extraction. rewrite bind_emit, bind_call, Hr.
    reflexivity. }
  destruct Hx as [-> | ->]; unfold bind; rewrite Hfb;
    fold (fallback_text web response);
    destruct (fallback_text web response); reflexivity.
Qed.

(** The events of the [except] branch of [extract_website_info]. *)
Lemma extract_website_info_run (url : pystr) (w : W) :
  extract_website_info web url w =
  match extract_content web url w with
  | (Ok None, w1, t1) => (Ok PyNone, w1, t1)
  | (Ok (Some text_content), w1, t1) =>
      match analyze_content web text_content w1 with
      | (Ok analysis, w2, t2) => (Ok analysis, w2, t1 ++ t2)
      | (Raise e, w2, t2) => (Ok PyNone, w2, (t1 ++ t2) ++ analysis_failed e)
      | (OutOfFuel, w2, t2) => (OutOfFuel, w2, t1 ++ t2)
      end
  | (Raise e, w1, t1) => (Ok PyNone, w1, t1 ++ analysis_failed e)
  | (OutOfFuel, w1, t1) => (OutOfFuel, w1, t1)
  end.
Proof.
  unfold extract_website_info, try_except, bind.
  destruct (extract_content web url w) as [[[[text_content|]|e|] w1] t1].
  - destruct (analyze_content web text_content w1) as [[[j|e|] w2] t2];
      reflexivity.
  - cbn. rewrite app_nil_r. reflexivity.
  - reflexivity.
  - reflexivity.
Qed.

(** The analysis of a text, by what the service and [json.loads] answer. *)
Lemma analyze_content_run (text_content : pystr) (w : W) :
  analyze_content web text_content w =
  match chat_completion_create web (analysis_request text_content) w with
  | (Returns response, w1) =>
      let called := [EvStWrite [str "Analyzing content with OpenAI..."];
                     EvChatCompletion (analysis_request text_content)
                       (Returns response)] in
      match choices response with
      | [] => (Raise IndexError, w1, called)
      | None :: _ => (Raise TypeError_json_loads_None, w1, called)
      | Some content :: _ =>
          match json_loads web content with
          | Returns analysis =>
              (Ok analysis, w1,
               called ++ [EvStWrite [str "Analysis completed successfully!"]])
          | Raises e => (Raise e, w1, called)
          end
      end
  | (Raises e, w1) =>
      (Raise e, w1,
       [EvStWrite [str "Analyzing content with OpenAI..."];
        EvChatCompletion (analysis_request text_content) (Raises e)])
  end.
Proof.
  unfold analyze_content. rewrite bind_emit, bind_call.
  destruct (chat_completion_create web (analysis_request text_content) w)
    as [[response|e] w1]; [|reflexivity].
  destruct (choices response) as [|[content|] rest]; try reflexivity.
  rewrite bind_ret. cbn beta.
  destruct (json_loads web content) as [analysis|e]; reflexivity.
Qed.

Lemma fallback_extraction_finished (url : pystr) (w : W) :
  finished (fallback_extraction web url w) = true.
Proof.
  unfold fallback_extraction. rewrite bind_emit, bind_call.
  destruct (requests_get web url 10 w) as [[response|e] w1]; reflexivity.
Qed.

Lemma extract_content_finished (url : pystr) (w : W) :
  finished (extract_content web url w) = true.
Proof.
  unfold extract_content. rewrite bind_emit, bind_call.
  destruct (fetch_url web url w) as [[[[|c rest]|]|e] w1]; try reflexivity.
  rewrite bind_emit, bind_call.
  destruct (trafilatura_extract web (c :: rest) w1)
    as [[[[|c' rest']|]|e] w2]; try reflexivity.
  - pose proof (fallback_extraction_finished url w2) as F. unfold bind.
    destruct (fallback_extraction web url w2) as [[[[|? ?]|?|] w3] t3];
      try reflexivity; discriminate.
  - pose proof (fallback_extraction_finished url w2) as F. unfold bind.
    destruct (fallback_extraction web url w2) as [[[[|? ?]|?|] w3] t3];
      try reflexivity; discriminate.
Qed.

(** No exception leaves [extract_website_info]: every run returns a
    value. *)
Lemma extract_website_info_returns (url : pystr) (w : W) :
  exists analysis w' t, extract_website_info web url w = (Ok analysis, w', t).
Proof.
  rewrite extract_website_info_run.
  pose proof (extract_content_finished url w) as F.
  destruct (extract_content web url w) as [[[[text_content|]|e|] w1] t1];
    try discriminate; try (do 3 eexists; reflexivity).
  rewrite analyze_content_run.
  destruct (chat_completion_create web (analysis_request text_content) w1)
    as [[response|e] w2]; [|do 3 eexists; reflexivity].
  destruct (choices response) as [|[content|] rest];
    try (do 3 eexists; reflexivity).
  destruct (json_loads web content); do 3 eexists; reflexivity.
Qed.

End WebsiteProofs.

(** * The claims *)

(** ** C1: [extract_zipcode] *)

(** C1, as stated, fails: the address of the claim ends with its postal
    code, no delimiter follows the five digits, and [extract_zipcode]
    returns [None] for it, not ["62701"]. *)
Lemma extract_zipcode_needs_trailing_delimiter :
  extract_zipcode (str "123 Main St, Springfield, IL 62701") = None.
Proof. vm_compute. reflexivity. Qed.

(** C1, amended: whatever [extract_zipcode] returns is a run of five digits
    of the address that stands right after a whitespace or a comma and
    right before a whitespace, a comma or a hyphen; neither neighbour is a
    digit, so the run is not part of a longer one, and it is the leftmost
    such run.  With the country after the postal code, as in
    ["123 Main St, Springfield, IL 62701, USA"], the result is ["62701"];
    so it is for an address that goes on with ["62701-1234 Unit 5"]. *)
Theorem extract_zipcode_delimited_run :
  (forall a z, extract_zipcode a = Some z ->
     exists pre d1 d2 post,
       a = pre ++ d1 :: z ++ d2 :: post /\
       length z = 5 /\ all_decimal z = true /\
       lead_delim d1 = true /\ trail_delim d2 = true /\
       is_unicode_decimal d1 = false /\ is_unicode_decimal d2 = false /\
       (forall pre' z', delimited_run a pre' z' ->
                        length pre <= length pre')) /\
  extract_zipcode (str "123 Main St, Springfield, IL 62701, USA")
    = Some (str "62701") /\
  extract_zipcode (str "Springfield, IL 62701-1234 Unit 5")
    = Some (str "62701").
Proof.
  split; [|split; vm_compute; reflexivity].
  intros a z H.
  apply extract_zipcode_some in H
    as (pre & (d1 & d2 & post & E & L & D & H1 & H2) & Least).
  exists pre, d1, d2, post. repeat split; try assumption.
  - apply lead_delim_not_decimal, H1.
  - apply trail_delim_not_decimal, H2.
Qed.

Lemma extract_zipcode_delimited_run_witness :
  exists pre d1 d2 post,
    str "9000 Devlin Rd, Bristow, VA 20136, USA"
      = pre ++ d1 :: str "20136" ++ d2 :: post /\
    lead_delim d1 = true /\ trail_delim d2 = true.
Proof.
  destruct (proj1 extract_zipcode_delimited_run
              (str "9000 Devlin Rd, Bristow, VA 20136, USA") (str "20136"))
    as (pre & d1 & d2 & post & E & _ & _ & H1 & H2 & _).
  - vm_compute. reflexivity.
  - exists pre, d1, d2, post. repeat split; assumption.
Defined.

(** ** C2: [verify_zipcode] *)

(** C2: the code accepts strings that are not five ASCII digits: five
    Arabic-Indic digits (U+0661 to U+0665), and ["20136"] followed by a
    line feed. *)
Theorem verify_zipcode_accepts_more :
  verify_zipcode [0x661; 0x662; 0x663; 0x664; 0x665]%N = true /\
  five_ascii_digits [0x661; 0x662; 0x663; 0x664; 0x665]%N = false /\
  verify_zipcode (str "20136" ++ [LF]) = true /\
  five_ascii_digits (str "20136" ++ [LF]) = false.
Proof. repeat split; vm_compute; reflexivity. Qed.

(** The direction of C2 that holds, and its four examples. *)
Lemma verify_zipcode_five_ascii_digits (s : pystr) :
  five_ascii_digits s = true -> verify_zipcode s = true.
Proof.
  unfold five_ascii_digits. intros H. apply andb_prop in H as [L D].
  apply Nat.eqb_eq in L. apply verify_zipcode_spec.
  exists s. split; [exact L|]. split; [|left; reflexivity].
  unfold all_decimal. rewrite forallb_forall in D |- *.
  intros c Hc. specialize (D c Hc). unfold is_ascii_digit in D.
  apply andb_prop in D as [D1 D2]. apply N.leb_le in D1, D2.
  Transparent is_unicode_decimal.
  unfold is_unicode_decimal, in_ranges, nd_ranges. cbn [existsb fst snd].
  Opaque is_unicode_decimal.
  assert (E1 : (48 <=? c)%N = true) by (apply N.leb_le; lia).
  assert (E2 : (c <? 48 + 10)%N = true) by (apply N.ltb_lt; lia).
  rewrite E1, E2. reflexivity.
Qed.

Example verify_zipcode_examples :
  verify_zipcode (str "20136") = true /\
  verify_zipcode (str "2013") = false /\
  verify_zipcode (str "201366") = false /\
  verify_zipcode (str "2013a") = false.
Proof. repeat split; vm_compute; reflexivity. Qed.

(** ** C3: only dealers of the target postal code *)

(** C3: [process_results] appends a candidate only when the postal code
    extracted from its formatted address is the target, and every dealer
    that [get_dealer_info] returns comes from a place whose formatted
    address has the target as its extracted postal code. *)
Theorem dealers_have_target_zipcode :
  (forall W (gmaps : gmaps_client W) hits dealers target w,
     exists w' t added,
       process_results gmaps hits dealers target w
         = (Ok (dealers ++ added), w', t) /\
       forall d, In d added ->
         exists address, full_address d = Some address /\
                         extract_zipcode address = Some target) /\
  (forall W (gmaps : gmaps_client W) fuel zip w ds,
     outcome_of (get_dealer_info gmaps fuel zip w) = Ok (Some ds) ->
     forall d, In d ds ->
       exists address, full_address d = Some address /\
                       extract_zipcode address = Some zip).
Proof.
  assert (D : forall zip t d, In d (discovered zip t) ->
                exists address, full_address d = Some address /\
                                extract_zipcode address = Some zip).
  { intros zip t d Hin.
    apply discovered_In in Hin as (pid & fields & details & _ & Z & ->).
    apply details_zipcode_address in Z as (address & Ha & Hz).
    exists address. split; [exact Ha|exact Hz]. }
  split.
  - intros W gmaps hits dealers target w.
    destruct (process_results_spec gmaps hits dealers target w)
      as (w' & t & E & _ & _).
    exists w', t, (discovered target t). split; [exact E|].
    intros d. apply D.
  - intros W gmaps fuel zip w ds H d Hin.
    apply get_dealer_info_result in H as [-> _].
    apply unique_dealers_In, last_with_id_In in Hin.
    exact (D _ _ _ Hin).
Qed.

(** Target ["20136"], candidates [A] (20136) and [B] (20135): only [A]
    is kept. *)
Lemma dealers_have_target_zipcode_witness :
  details_zipcode details_A_first = Some (str "20136") /\
  details_zipcode details_B = Some (str "20135") /\
  outcome_of (process_results demo_gmaps [hit "A"; hit "B"] []
                (str "20136") 0) = Ok [dealer_A_first] /\
  outcome_of (get_dealer_info demo_gmaps 1 (str "20136") 0)
    = Ok (Some [dealer_A_later; dealer_D]) /\
  forall d, In d [dealer_A_later; dealer_D] ->
    exists address, full_address d = Some address /\
                    extract_zipcode address = Some (str "20136").
Proof.
  split; [vm_compute; reflexivity|].
  split; [vm_compute; reflexivity|].
  split; [vm_compute; reflexivity|].
  split; [vm_compute; reflexivity|].
  apply (proj2 dealers_have_target_zipcode nat demo_gmaps 1 (str "20136") 0).
  vm_compute. reflexivity.
Defined.

(** ** C4: one entry for a [place_id] *)

(** C4: the list that [get_dealer_info] returns has at most one entry for
    a [place_id], and its entries are the discovery events that are the
    last of the run with their [place_id]: of two events for one
    identifier the later one is kept. *)
Theorem one_entry_per_place_id :
  forall W (gmaps : gmaps_client W) fuel zip w ds,
    outcome_of (get_dealer_info gmaps fuel zip w) = Ok (Some ds) ->
    NoDup (map place_id ds) /\
    forall d,
      In d ds <->
      last_with_id
        (discovered zip (trace_of (get_dealer_info gmaps fuel zip w))) d.
Proof.
  intros W gmaps fuel zip w ds H.
  apply get_dealer_info_result in H as [-> _]. split.
  - apply unique_dealers_NoDup.
  - intros d. apply unique_dealers_In.
Qed.

(** Place [A] is discovered by two keywords, with other fields the second
    time: the result holds one entry for it, with the later fields. *)
Lemma one_entry_per_place_id_witness :
  discovered (str "20136")
    (trace_of (get_dealer_info demo_gmaps 1 (str "20136") 0))
    = [dealer_A_first; dealer_D; dealer_A_later] /\
  place_id dealer_A_first = place_id dealer_A_later /\
  dealer_A_first <> dealer_A_later /\
  outcome_of (get_dealer_info demo_gmaps 1 (str "20136") 0)
    = Ok (Some [dealer_A_later; dealer_D]) /\
  NoDup (map place_id [dealer_A_later; dealer_D]).
Proof.
  split; [vm_compute; reflexivity|].
  split; [reflexivity|].
  split; [discriminate|].
  split; [vm_compute; reflexivity|].
  apply (@one_entry_per_place_id nat demo_gmaps 1 (str "20136") 0).
  vm_compute. reflexivity.
Defined.

(** ** C5: no location *)

(** C5: when geocoding returns no match, [get_dealer_info] returns the
    failure result [None]; it shows the message that no location was found
    and makes no other request. *)
Theorem location_not_found :
  forall W (gmaps : gmaps_client W) fuel zip w w1,
    geocode gmaps zip w = (Returns [], w1) ->
    get_dealer_info gmaps fuel zip w =
    (Ok None, w1,
     [EvGeocode zip (Returns []);
      EvStError (str "Could not find location for zip code " ++ zip)]).
Proof.
  intros W gmaps fuel zip w w1 H. apply get_dealer_info_not_found, H.
Qed.

Lemma location_not_found_witness :
  outcome_of (get_dealer_info demo_gmaps 0 (str "99999") 0) = Ok None.
Proof.
  rewrite (@location_not_found nat demo_gmaps 0 (str "99999") 0 0
             eq_refl).
  reflexivity.
Defined.

(** ** C6: an empty result *)

(** C6, as stated, fails: geocoding succeeds and no hit has the target as
    its postal code (there is no hit at all), yet the result is the failure
    result [None], not an empty list, because the first nearby search
    raised. *)
Lemma empty_search_may_fail :
  geocode (scripted_gmaps (Some (str "independent used car dealer")))
    (str "20136") 0 = (Returns (located bristow []), 0) /\
  discovered (str "20136")
    (trace_of (get_dealer_info
                 (scripted_gmaps (Some (str "independent used car dealer")))
                 1 (str "20136") 0)) = [] /\
  outcome_of (get_dealer_info
                (scripted_gmaps (Some (str "independent used car dealer")))
                1 (str "20136") 0) = Ok None /\
  Ok (@None (list dealer)) <> Ok (Some []).
Proof.
  split; [reflexivity|].
  split; [vm_compute; reflexivity|].
  split; [vm_compute; reflexivity|discriminate].
Qed.

(** C6, amended: when geocoding returns a location, every nearby-search
    and next-page request returns, the pages come to an end, and no fetched
    place has the target as its extracted postal code, [get_dealer_info]
    returns the empty list, a value other than the failure result. *)
Theorem no_match_is_empty_list :
  forall W (gmaps : gmaps_client W) fuel zip w w1 loc more,
    geocode gmaps zip w = (Returns (located loc more), w1) ->
    finished (get_dealer_info gmaps fuel zip w) = true ->
    (forall req e,
       ~ In (EvPlacesNearby req (Raises e))
            (trace_of (get_dealer_info gmaps fuel zip w))) ->
    (forall pid fields details,
       In (EvPlace pid fields (Returns (PlaceResponse (Some details))))
          (trace_of (get_dealer_info gmaps fuel zip w)) ->
       details_zipcode details <> Some zip) ->
    outcome_of (get_dealer_info gmaps fuel zip w) = Ok (Some []) /\
    Ok (Some (@nil dealer)) <> Ok None.
Proof.
  intros W gmaps fuel zip w w1 loc more Hg F Hn Hz.
  split; [|discriminate].
  rewrite (get_dealer_info_success gmaps fuel zip w Hg F).
  - assert (E : discovered zip
                  (trace_of (get_dealer_info gmaps fuel zip w)) = []).
    { destruct (discovered zip _) as [|d l] eqn:E; [reflexivity|].
      assert (Hin : In d (d :: l)) by (left; reflexivity).
      rewrite <- E in Hin.
      apply discovered_In in Hin as (pid & fields & details & Hev & Z & _).
      exfalso. exact (Hz pid fields details Hev Z). }
    rewrite E. reflexivity.
  - destruct (nearby_raised _) eqn:N; [|reflexivity].
    apply nearby_raised_In in N as (req & e & Hin).
    exfalso. exact (Hn req e Hin).
Qed.

(** No place of the scripted provider lies in 20137. *)
Lemma no_match_is_empty_list_witness :
  outcome_of (get_dealer_info demo_gmaps 1 (str "20137") 0) = Ok (Some []) /\
  Ok (Some (@nil dealer)) <> Ok None.
Proof.
  apply (@no_match_is_empty_list nat demo_gmaps 1 (str "20137") 0 0
           bristow []).
  - reflexivity.
  - vm_compute. reflexivity.
  - intros req e H.
    assert (N : nearby_raised
                  (trace_of (get_dealer_info demo_gmaps 1 (str "20137") 0))
                = true)
      by (apply nearby_raised_In; exists req, e; exact H).
    vm_compute in N. discriminate N.
  - intros pid fields details H Z.
    assert (D : In (make_dealer details pid)
                  (discovered (str "20137")
                     (trace_of (get_dealer_info demo_gmaps 1
                                  (str "20137") 0)))).
    { apply discovered_In. exists pid, fields, details.
      split; [exact H|]. split; [exact Z|reflexivity]. }
    vm_compute in D. exact D.
Defined.

(** ** C7: a place whose details cannot be fetched *)

(** C7: a hit whose detail fetch raises adds a warning and nothing else,
    and the remaining hits are processed as they would be without it;
    [process_results] never raises, it fetches the details of every hit,
    it keeps the dealers it was given, and every place whose details were
    fetched with the target postal code is on the list it returns; the
    list that [get_dealer_info] returns has an entry for every such
    place. *)
Theorem failed_fetch_is_skipped :
  (forall W (gmaps : gmaps_client W) h rest dealers target w w1 pid e,
     hit_place_id h = Some pid ->
     place gmaps pid detail_fields w = (Raises e, w1) ->
     process_results gmaps (h :: rest) dealers target w =
     match process_results gmaps rest dealers target w1 with
     | (r, w', t) =>
         (r, w',
          EvPlace pid detail_fields (Raises e)
          :: EvStWarning (str "Error processing dealer: " ++ exn_str e)
          :: t)
     end) /\
  (forall W (gmaps : gmaps_client W) hits dealers target w,
     exists w' t added,
       process_results gmaps hits dealers target w
         = (Ok (dealers ++ added), w', t) /\
       (forall h pid, In h hits -> hit_place_id h = Some pid ->
                      exists r, In (EvPlace pid detail_fields r) t) /\
       (forall pid fields details,
          In (EvPlace pid fields (Returns (PlaceResponse (Some details)))) t ->
          details_zipcode details = Some target ->
          In (make_dealer details pid) added)) /\
  (forall W (gmaps : gmaps_client W) fuel zip w ds,
     outcome_of (get_dealer_info gmaps fuel zip w) = Ok (Some ds) ->
     forall pid fields details,
       In (EvPlace pid fields (Returns (PlaceResponse (Some details))))
          (trace_of (get_dealer_info gmaps fuel zip w)) ->
       details_zipcode details = Some zip ->
       exists d, In d ds /\ place_id d = pid).
Proof.
  split; [|split].
  - intros W gmaps h rest dealers target w w1 pid e Hid Hp.
    cbn [process_results]. unfold bind at 1.
    rewrite (process_place_fetch_fails gmaps h dealers target w Hid Hp).
    destruct (process_results gmaps rest dealers target w1) as [[r w'] t].
    reflexivity.
  - intros W gmaps hits dealers target w.
    destruct (process_results_spec gmaps hits dealers target w)
      as (w' & t & E & _ & A).
    exists w', t, (discovered target t). split; [exact E|].
    split; [exact A|].
    intros pid fields details Hin Z. apply discovered_In.
    exists pid, fields, details. split; [exact Hin|].
    split; [exact Z|reflexivity].
  - intros W gmaps fuel zip w ds H pid fields details Hin Z.
    apply get_dealer_info_result in H as [-> _].
    apply (unique_dealers_covers _ (make_dealer details pid)).
    apply discovered_In. exists pid, fields, details.
    split; [exact Hin|]. split; [exact Z|reflexivity].
Qed.

(** The details of [C] cannot be fetched: [A] before it and [D] after it
    are both kept. *)
Lemma failed_fetch_is_skipped_witness :
  place demo_gmaps (str "C") detail_fields 1
    = (Raises (Exn (str "NOT_FOUND")), 2) /\
  outcome_of (process_results demo_gmaps [hit "A"; hit "C"; hit "D"] []
                (str "20136") 0) = Ok [dealer_A_first; dealer_D] /\
  process_results demo_gmaps [hit "C"; hit "D"] [dealer_A_first]
    (str "20136") 1 =
  match process_results demo_gmaps [hit "D"] [dealer_A_first]
          (str "20136") 2 with
  | (r, w', t) =>
      (r, w',
       EvPlace (str "C") detail_fields (Raises (Exn (str "NOT_FOUND")))
       :: EvStWarning (str "Error processing dealer: " ++ str "NOT_FOUND")
       :: t)
  end.
Proof.
  split; [reflexivity|].
  split; [vm_compute; reflexivity|].
  apply (proj1 failed_fetch_is_skipped nat demo_gmaps (hit "C") [hit "D"]
           [dealer_A_first] (str "20136") 1 2 (str "C")
           (Exn (str "NOT_FOUND"))); reflexivity.
Defined.

(** ** C10: a nearby search that raises *)

(** C10: when a nearby-search or next-page request raises at any point of
    a run, [get_dealer_info] returns the failure result [None], whatever
    had been discovered before. *)
Theorem nearby_failure_is_fatal :
  forall W (gmaps : gmaps_client W) fuel zip w,
    (exists req e,
       In (EvPlacesNearby req (Raises e))
          (trace_of (get_dealer_info gmaps fuel zip w))) ->
    outcome_of (get_dealer_info gmaps fuel zip w) = Ok None.
Proof.
  intros W gmaps fuel zip w H.
  apply get_dealer_info_nearby_raised, nearby_raised_In, H.
Qed.

(** The third keyword raises after three dealers were discovered by the
    first two. *)
Lemma nearby_failure_is_fatal_witness :
  discovered (str "20136")
    (trace_of (get_dealer_info
                 (scripted_gmaps (Some (str "pre-owned car dealer")))
                 1 (str "20136") 0))
    = [dealer_A_first; dealer_D; dealer_A_later] /\
  outcome_of (get_dealer_info
                (scripted_gmaps (Some (str "pre-owned car dealer")))
                1 (str "20136") 0) = Ok None.
Proof.
  split; [vm_compute; reflexivity|].
  apply nearby_failure_is_fatal.
  apply nearby_raised_In. vm_compute. reflexivity.
Defined.

(** ** C8: the two extraction strategies *)

(** C8, as stated, fails: when [fetch_url] downloads nothing the primary
    strategy has no text, the plain GET would have given a page with text,
    and yet no GET is made: the function returns [None] at once. *)
Lemma no_fallback_without_download :
  extract_content
    (scripted_web None None dealer_page dealer_tree (str "42")
       (Returns (JInt 42))) dealer_url tt =
  (Ok None, tt,
   [EvStWrite [str "Downloading website content..."];
    EvFetchUrl dealer_url (Returns None);
    EvStWarning (str "Could not download content from " ++ dealer_url)]) /\
  existsb is_requests_get
    (trace_of (extract_website_info
                 (scripted_web None None dealer_page dealer_tree (str "42")
                    (Returns (JInt 42))) dealer_url tt)) = false /\
  fallback_text
    (scripted_web None None dealer_page dealer_tree (str "42")
       (Returns (JInt 42))) (HttpResponse dealer_page)
  = str "Quality used cars Call us".
Proof. repeat split; vm_compute; reflexivity. Qed.

(** C8, amended: the download and extraction of trafilatura come first.
    When the download gives a page and the extraction gives no text, the
    page is requested again with a timeout of 10 seconds, the [script] and
    [style] elements are removed, the remaining text nodes are stripped and
    joined by single spaces; that text is the content, and when it is empty
    the content is [None].  When the download gives nothing the content is
    [None] at once and no other request is made.  A content of [None]
    makes [extract_website_info] return [None], and no run of
    [extract_website_info] raises. *)
Theorem fallback_after_empty_extraction :
  (forall W (web : web_client W) url w w1 w2 w3 c rest extracted response,
     fetch_url web url w = (Returns (Some (c :: rest)), w1) ->
     trafilatura_extract web (c :: rest) w1 = (Returns extracted, w2) ->
     extracted = None \/ extracted = Some [] ->
     requests_get web url 10 w2 = (Returns response, w3) ->
     extract_content web url w =
     (match fallback_text web response with
      | [] => Ok None
      | _ :: _ => Ok (Some (fallback_text web response))
      end, w3,
      [EvStWrite [str "Downloading website content..."];
       EvFetchUrl url (Returns (Some (c :: rest)));
       EvStWrite [str "Extracting main content..."];
       EvTrafilaturaExtract (c :: rest) (Returns extracted);
       EvStWrite [str "Trying alternative content extraction..."];
       EvRequestsGet url 10 (Returns response)]
      ++ match fallback_text web response with
         | [] => [EvStWarning
                    (str "Could not extract meaningful content from the website")]
         | _ :: _ => []
         end)) /\
  (forall W (web : web_client W) url w w1 downloaded,
     fetch_url web url w = (Returns downloaded, w1) ->
     downloaded = None \/ downloaded = Some [] ->
     extract_content web url w =
     (Ok None, w1,
      [EvStWrite [str "Downloading website content..."];
       EvFetchUrl url (Returns downloaded);
       EvStWarning (str "Could not download content from " ++ url)])) /\
  (forall W (web : web_client W) url w w' t,
     extract_content web url w = (Ok None, w', t) ->
     extract_website_info web url w = (Ok PyNone, w', t)) /\
  (forall W (web : web_client W) url w,
     exists analysis w' t,
       extract_website_info web url w = (Ok analysis, w', t)).
Proof.
  split; [|split; [|split]].
  - intros W web url w w1 w2 w3 c rest extracted response Hf He Hx Hr.
    exact (extract_content_fallback web url w Hf He Hx Hr).
  - intros W web url w w1 downloaded Hf Hd.
    exact (extract_content_no_download web url w Hf Hd).
  - intros W web url w w' t H. rewrite extract_website_info_run, H.
    reflexivity.
  - intros. apply extract_website_info_returns.
Qed.

(** The extraction gives nothing for the page of the dealer; the GET gives
    the page, and its text, without the script and the style sheet, is the
    content. *)
Lemma fallback_after_empty_extraction_witness :
  extract_content
    (scripted_web (Some dealer_page) None dealer_page dealer_tree (str "42")
       (Returns (JInt 42))) dealer_url tt =
  (Ok (Some (str "Quality used cars Call us")), tt,
   [EvStWrite [str "Downloading website content..."];
    EvFetchUrl dealer_url (Returns (Some dealer_page));
    EvStWrite [str "Extracting main content..."];
    EvTrafilaturaExtract dealer_page (Returns None);
    EvStWrite [str "Trying alternative content extraction..."];
    EvRequestsGet dealer_url 10 (Returns (HttpResponse dealer_page))]).
Proof.
  exact (proj1 fallback_after_empty_extraction unit
           (scripted_web (Some dealer_page) None dealer_page dealer_tree
              (str "42") (Returns (JInt 42)))
           dealer_url tt tt tt tt 60%N (tl dealer_page) None
           (HttpResponse dealer_page)
           eq_refl eq_refl (or_introl eq_refl) eq_refl).
Defined.

(** ** C9: the answer of the text-generation service *)

(** C9, as stated, fails: the service answers ["42"], which is valid JSON
    ([json.loads] gives the integer 42) but not an object of the expected
    shape, and [extract_website_info] returns 42 as the analysis, not the
    failure result. *)
Lemma other_shape_is_returned :
  outcome_of (extract_website_info
                (scripted_web (Some dealer_page) (Some (str "We sell cars"))
                   dealer_page dealer_tree (str "42") (Returns (JInt 42)))
                dealer_url tt) = Ok (JInt 42) /\
  has_expected_shape (JInt 42) = false /\
  JInt 42 <> PyNone.
Proof.
  split; [vm_compute; reflexivity|].
  split; [reflexivity|discriminate].
Qed.

(** C9, amended: no run of [extract_website_info] raises.  When the answer
    of the service is not valid JSON, so that [json.loads] raises, the
    error is shown and the result is [None]; when it is valid JSON the
    decoded value is the result, whatever its shape. *)
Theorem malformed_answer_returns_none :
  (forall W (web : web_client W) url w,
     exists analysis w' t,
       extract_website_info web url w = (Ok analysis, w', t)) /\
  (forall W (web : web_client W) url w text_content w0 t0 response w1
          content rest,
     extract_content web url w = (Ok (Some text_content), w0, t0) ->
     chat_completion_create web (analysis_request text_content) w0
       = (Returns response, w1) ->
     choices response = Some content :: rest ->
     (forall e, json_loads web content = Raises e ->
        outcome_of (extract_website_info web url w) = Ok PyNone /\
        In (EvStError (str "Error analyzing website: " ++ exn_str e))
           (trace_of (extract_website_info web url w))) /\
     (forall analysis, json_loads web content = Returns analysis ->
        outcome_of (extract_website_info web url w) = Ok analysis)).
Proof.
  split; [intros; apply extract_website_info_returns|].
  intros W web url w text_content w0 t0 response w1 content rest Hc Hs Hch.
  rewrite extract_website_info_run, Hc, analyze_content_run, Hs.
  cbn zeta. rewrite Hch. split.
  - intros e He. rewrite He. split; [reflexivity|].
    unfold trace_of. cbn [snd]. apply in_or_app. right. left. reflexivity.
  - intros analysis Ha. rewrite Ha. reflexivity.
Qed.

(** The service answers with a sentence: the result is [None]. *)
Lemma malformed_answer_returns_none_witness :
  outcome_of (extract_website_info
                (scripted_web (Some dealer_page) (Some (str "We sell cars"))
                   dealer_page dealer_tree
                   (str "I am sorry, I cannot help with that.") not_json)
                dealer_url tt) = Ok PyNone.
Proof.
  set (web := scripted_web (Some dealer_page) (Some (str "We sell cars"))
                dealer_page dealer_tree
                (str "I am sorry, I cannot help with that.") not_json).
  assert (Hc : extract_content web dealer_url tt =
               (Ok (Some (str "We sell cars")), tt,
                [EvStWrite [str "Downloading website content..."];
                 EvFetchUrl dealer_url (Returns (Some dealer_page));
                 EvStWrite [str "Extracting main content..."];
                 EvTrafilaturaExtract dealer_page
                   (Returns (Some (str "We sell cars")))]))
    by (vm_compute; reflexivity).
  assert (Hs : chat_completion_create web
                 (analysis_request (str "We sell cars")) tt =
               (Returns (ChatResponse
                           [Some (str "I am sorry, I cannot help with that.")]),
                tt)) by reflexivity.
  assert (Hl : json_loads web (str "I am sorry, I cannot help with that.")
               = Raises (Exn (str "Expecting value: line 1 column 1 (char 0)")))
    by (vm_compute; reflexivity).
  exact (proj1 (proj1 (proj2 malformed_answer_returns_none unit web
                         dealer_url tt (str "We sell cars") tt _ _ tt
                         (str "I am sorry, I cannot help with that.") []
                         Hc Hs eq_refl) _ Hl)).
Defined.

(** * More of the code *)

(** ** Traces of composed runs *)

Section RunLemmas.

Variable W : Type.

Lemma trace_of_bind (A B : Type) (m : M W A) (f : A -> M W B) (w : W) :
  trace_of (bind m f w) =
  match m w with
  | (Ok a, w1, t1) => t1 ++ trace_of (f a w1)
  | (_, _, t1) => t1
  end.
Proof.
  unfold bind. destruct (m w) as [[[a|e|] w1] t1]; try reflexivity.
  destruct (f a w1) as [[r w2] t2]. reflexivity.
Qed.

Lemma outcome_of_bind (A B : Type) (m : M W A) (f : A -> M W B) (w : W) :
  outcome_of (bind m f w) =
  match m w with
  | (Ok a, w1, _) => outcome_of (f a w1)
  | (Raise e, _, _) => Raise e
  | (OutOfFuel, _, _) => OutOfFuel
  end.
Proof.
  unfold bind. destruct (m w) as [[[a|e|] w1] t1]; try reflexivity.
  destruct (f a w1) as [[r w2] t2]. reflexivity.
Qed.

End RunLemmas.

Lemma initial_requests_app (t1 t2 : list event) :
  initial_requests (t1 ++ t2) = initial_requests t1 ++ initial_requests t2.
Proof. apply flat_map_app. Qed.

Lemma place_requests_app (t1 t2 : list event) :
  place_requests (t1 ++ t2) = place_requests t1 ++ place_requests t2.
Proof. apply flat_map_app. Qed.

(** ** Requests of the search *)

Section RequestProofs.

Variable W : Type.
Variable gmaps : gmaps_client W.

Lemma process_place_requests (h : place_hit) (dealers : list dealer)
  (target : pystr) (w : W) :
  initial_requests (trace_of (process_place gmaps h dealers target w)) = [] /\
  place_requests (trace_of (process_place gmaps h dealers target w))
    = hit_ids [h].
Proof.
  unfold process_place, try_except, bind, getitem, call, emit, ret, raise,
    hit_ids.
  cbn [flat_map]. destruct (hit_place_id h) as [pid|]; [|split; reflexivity].
  destruct (place gmaps pid detail_fields w) as [[[[details|]]|e] w'];
    split; reflexivity.
Qed.

Lemma process_results_requests (hits : list place_hit) :
  forall (dealers : list dealer) (target : pystr) (w : W),
  initial_requests (trace_of (process_results gmaps hits dealers target w))
    = [] /\
  place_requests (trace_of (process_results gmaps hits dealers target w))
    = hit_ids hits.
Proof.
  induction hits as [|h rest IH]; intros dealers target w;
    [split; reflexivity|].
  cbn [process_results]. rewrite trace_of_bind.
  destruct (process_place_requests h dealers target w) as [I1 P1].
  destruct (process_place_spec gmaps h dealers target w)
    as (w1 & t1 & E1 & _).
  rewrite E1 in I1, P1 |- *. unfold trace_of in I1, P1. cbn [snd] in I1, P1.
  destruct (IH (dealers ++ discovered target t1) target w1) as [I2 P2].
  rewrite initial_requests_app, place_requests_app, I1, I2, P1, P2.
  split; [reflexivity|].
  unfold hit_ids. cbn [flat_map]. rewrite app_nil_r. reflexivity.
Qed.

Lemma process_page_requests (page : places_page) (dealers : list dealer)
  (target : pystr) (w : W) :
  initial_requests (trace_of (process_page gmaps page dealers target w)) = [].
Proof.
  unfold process_page. destruct (results page) as [[|h rest]|];
    try reflexivity.
  apply process_results_requests.
Qed.

Lemma next_pages_requests (fuel : nat) :
  forall (loc : json) (page : places_page) (dealers : list dealer)
         (zip : pystr) (w : W),
  initial_requests (trace_of (next_pages gmaps fuel loc page dealers zip w))
    = [].
Proof.
  induction fuel as [|fuel IH]; intros loc page dealers zip w.
  - cbn [next_pages]. destruct (next_page_token page); reflexivity.
  - rewrite next_pages_S. destruct (next_page_token page) as [token|];
      [|reflexivity].
    rewrite bind_emit, bind_call.
    destruct (places_nearby gmaps (NearbyNextPage loc token) w)
      as [[page'|e] w1]; [|reflexivity].
    match goal with
    | |- context [bind ?m ?f w1] =>
        pose proof (trace_of_bind m f w1) as T;
        pose proof (process_page_requests page' dealers zip w1) as P;
        destruct (bind m f w1) as [[r w2] t2]
    end.
    unfold trace_of in T |- *. cbn [snd] in T |- *.
    cbn [initial_requests flat_map app].
    change (flat_map _ t2) with (initial_requests t2). rewrite T.
    destruct (process_page gmaps page' dealers zip w1)
      as [[[ds|e|] w3] t3]; unfold trace_of in P; cbn [snd] in P;
      rewrite ?initial_requests_app, P; try reflexivity.
    pose proof (IH loc page' ds zip w3) as N.
    unfold trace_of in N. rewrite N. reflexivity.
Qed.

Lemma search_query_requests (fuel : nat) (loc : json) (query : pystr)
  (dealers : list dealer) (zip : pystr) (w : W) :
  initial_requests
    (trace_of (search_query gmaps fuel loc query dealers zip w))
  = [first_request loc query].
Proof.
  unfold search_query. rewrite bind_call.
  destruct (places_nearby gmaps (first_request loc query) w)
    as [[page|e] w1]; [|reflexivity].
  destruct (results page) as [[|h rest]|]; try reflexivity.
  match goal with
  | |- context [bind ?m ?f w1] =>
      pose proof (trace_of_bind m f w1) as T;
      destruct (bind m f w1) as [[r w2] t2]
  end.
  unfold trace_of in T |- *. cbn [snd] in T |- *.
  unfold first_request at 1. cbn [initial_requests flat_map app].
  change (flat_map _ t2) with (initial_requests t2). rewrite T.
  destruct (process_results_requests (h :: rest) dealers zip w1) as [P _].
  destruct (process_results gmaps (h :: rest) dealers zip w1)
    as [[[ds|e|] w3] t3]; unfold trace_of in P; cbn [snd] in P;
    rewrite ?initial_requests_app, P; try reflexivity.
  pose proof (next_pages_requests fuel loc page ds zip w3) as N.
  unfold trace_of in N. rewrite N. reflexivity.
Qed.

Lemma search_all_requests (fuel : nat) (loc : json) (queries : list pystr) :
  forall (dealers : list dealer) (zip : pystr) (w : W),
  exists n,
    initial_requests
      (trace_of (search_all gmaps fuel loc queries dealers zip w))
    = map (first_request loc) (firstn n queries) /\
    (forall ds,
       outcome_of (search_all gmaps fuel loc queries dealers zip w) = Ok ds ->
       firstn n queries = queries).
Proof.
  induction queries as [|query rest IH]; intros dealers zip w.
  - exists 0. split; reflexivity.
  - cbn [search_all]. rewrite trace_of_bind, outcome_of_bind.
    pose proof (search_query_requests fuel loc query dealers zip w) as Q.
    destruct (search_query gmaps fuel loc query dealers zip w)
      as [[[ds|e|] w1] t1]; unfold trace_of in Q; cbn [snd] in Q.
    + destruct (IH ds zip w1) as (n & En & Hn). exists (S n).
      rewrite initial_requests_app, Q, En. split; [reflexivity|].
      intros ds' H. cbn [firstn]. f_equal. exact (Hn ds' H).
    + exists 1. rewrite Q. split; [reflexivity|discriminate].
    + exists 1. rewrite Q. split; [reflexivity|discriminate].
Qed.

End RequestProofs.

(** ** The order of the result *)

Lemma existsb_pystr_eqb_In (k : pystr) (seen : list pystr) :
  existsb (pystr_eqb k) seen = true <-> In k seen.
Proof.
  rewrite existsb_exists. split.
  - intros (x & Hin & E). apply pystr_eqb_eq in E. subst x. exact Hin.
  - intros Hin. exists k. split; [exact Hin|apply pystr_eqb_refl].
Qed.

Lemma first_occurrences_snoc (keys : list pystr) (k : pystr) :
  first_occurrences (keys ++ [k]) =
  if existsb (pystr_eqb k) (first_occurrences keys)
  then first_occurrences keys
  else first_occurrences keys ++ [k].
Proof. unfold first_occurrences. rewrite fold_left_app. reflexivity. Qed.

Lemma dict_keys_first_occurrences (l : list dealer) :
  map fst (dict_of_dealers l) = first_occurrences (map place_id l).
Proof.
  induction l as [|x l IH] using rev_ind; [reflexivity|].
  rewrite dict_of_dealers_snoc, map_app. cbn [map].
  rewrite first_occurrences_snoc, <- IH.
  destruct (existsb (pystr_eqb (place_id x)) (map fst (dict_of_dealers l)))
    eqn:E.
  - apply dict_set_keys_present, existsb_pystr_eqb_In, E.
  - apply dict_set_keys_absent. intros Hin.
    apply existsb_pystr_eqb_In in Hin. congruence.
Qed.

Lemma dict_set_absent (d : list (pystr * dealer)) (k : pystr) (v : dealer) :
  ~ In k (map fst d) -> dict_set d k v = d ++ [(k, v)].
Proof.
  induction d as [|[k' v'] tl IH]; intros Hin; [reflexivity|].
  cbn [dict_set]. destruct (pystr_eqb k' k) eqn:E.
  - apply pystr_eqb_eq in E. subst k'. exfalso. apply Hin. left. reflexivity.
  - cbn [app]. f_equal. apply IH. intros H. apply Hin. right. exact H.
Qed.

Lemma unique_dealers_distinct (l : list dealer) :
  NoDup (map place_id l) -> unique_dealers l = l.
Proof.
  induction l as [|x l IH] using rev_ind; [reflexivity|].
  intros Hn. rewrite map_app in Hn. cbn [map] in Hn.
  apply NoDup_remove in Hn as [Hn Hx]. rewrite app_nil_r in Hn, Hx.
  unfold unique_dealers in IH |- *. rewrite dict_of_dealers_snoc.
  rewrite dict_set_absent.
  - rewrite map_app, (IH Hn). reflexivity.
  - rewrite dict_keys_first_occurrences.
    intros Hin. apply Hx.
    assert (S : forall keys k, In k (first_occurrences keys) -> In k keys).
    { clear. intros keys. induction keys as [|a keys IHk] using rev_ind;
        intros k Hin; [destruct Hin|].
      rewrite first_occurrences_snoc in Hin.
      destruct (existsb (pystr_eqb a) (first_occurrences keys)).
      - apply in_or_app. left. apply IHk, Hin.
      - apply in_app_or in Hin as [Hin|[<-|[]]].
        + apply in_or_app. left. apply IHk, Hin.
        + apply in_or_app. right. left. reflexivity. }
    apply S, Hin.
Qed.

(** ** Stripping and joining *)

Lemma lstrip_blank (s : pystr) : lstrip s = [] <-> blank s = true.
Proof.
  unfold blank. induction s as [|c s IH]; [split; reflexivity|].
  cbn [lstrip forallb]. destruct (is_unicode_space c); cbn [andb].
  - exact IH.
  - split; discriminate.
Qed.

Lemma lstrip_head (s : pystr) (c : codepoint) (tl : pystr) :
  lstrip s = c :: tl -> is_unicode_space c = false.
Proof.
  induction s as [|a s IH]; [discriminate|].
  cbn [lstrip]. destruct (is_unicode_space a) eqn:E; [exact IH|].
  intros [= <- _]. exact E.
Qed.

Lemma blank_rev (s : pystr) : blank (rev s) = blank s.
Proof.
  unfold blank. induction s as [|c s IH]; [reflexivity|].
  cbn [rev forallb]. rewrite forallb_app, IH. cbn [forallb].
  rewrite andb_true_r. apply andb_comm.
Qed.

Lemma strip_blank (s : pystr) : strip s = [] <-> blank s = true.
Proof.
  unfold strip. split.
  - intros H.
    assert (H1 : lstrip (rev (lstrip s)) = []).
    { destruct (lstrip (rev (lstrip s))) as [|c tl]; [reflexivity|].
      cbn [rev] in H. destruct (rev tl); discriminate. }
    apply lstrip_blank in H1. rewrite blank_rev in H1.
    apply lstrip_blank. destruct (lstrip s) as [|c tl] eqn:E; [reflexivity|].
    apply lstrip_head in E. unfold blank in H1. cbn [forallb] in H1.
    rewrite E in H1. discriminate.
  - intros H. apply lstrip_blank in H. rewrite H. reflexivity.
Qed.

Lemma join_nil (sep : pystr) (parts : list pystr) :
  (forall x, In x parts -> x <> []) -> join sep parts = [] -> parts = [].
Proof.
  destruct parts as [|x [|y tl]]; intros Hne H; [reflexivity| |].
  - cbn in H. exfalso. apply (Hne x); [left; reflexivity|exact H].
  - cbn [join] in H. apply app_eq_nil in H as [H _].
    exfalso. apply (Hne x); [left; reflexivity|exact H].
Qed.

Lemma stripped_strings_nonempty (soup : list html_node) (x : pystr) :
  In x (stripped_strings soup) -> x <> [].
Proof.
  unfold stripped_strings. intros Hin. apply filter_In in Hin as [_ H].
  destruct x; [discriminate|discriminate].
Qed.

Lemma stripped_strings_nil (soup : list html_node) :
  stripped_strings soup = [] <->
  forall s, In s (flat_map strings soup) -> blank s = true.
Proof.
  unfold stripped_strings. generalize (flat_map strings soup) as l.
  induction l as [|s l IH]; [split; [intros _ ? []|reflexivity]|].
  cbn [map filter]. destruct (strip s) as [|c tl] eqn:E.
  - rewrite IH. split.
    + intros H x [<-|Hin]; [apply strip_blank, E|apply H, Hin].
    + intros H x Hin. apply H. right. exact Hin.
  - split; [discriminate|].
    intros H. exfalso.
    assert (B : blank s = true) by (apply H; left; reflexivity).
    apply strip_blank in B. congruence.
Qed.

(** ** The content and the service *)

Section ContentProofs.

Variable W : Type.
Variable web : web_client W.

Lemma no_chat_bind (A B : Type) (m : M W A) (f : A -> M W B) (w : W) :
  no_chat (m w) -> (forall a w', no_chat (f a w')) -> no_chat (bind m f w).
Proof.
  unfold no_chat. intros Hm Hf. rewrite trace_of_bind.
  destruct (m w) as [[[a|e|] w1] t1]; unfold trace_of in Hm; cbn [snd] in Hm;
    try exact Hm.
  rewrite existsb_app, Hm. apply Hf.
Qed.

Lemma no_chat_emit (ev : event) (w : W) :
  is_chat_completion ev = false -> no_chat (emit ev w).
Proof. unfold no_chat. cbn. intros ->. reflexivity. Qed.

Lemma no_chat_call (A : Type) (oracle : W -> reply A * W)
  (ev : reply A -> event) (w : W) :
  (forall r, is_chat_completion (ev r) = false) ->
  no_chat (call oracle ev w).
Proof.
  unfold no_chat, call. intros H.
  destruct (oracle w) as [[a|e] w1]; cbn; rewrite H; reflexivity.
Qed.

Lemma no_chat_ret (A : Type) (a : A) (w : W) : no_chat (ret a w).
Proof. reflexivity. Qed.

Lemma fallback_extraction_no_chat (url : pystr) (w : W) :
  no_chat (fallback_extraction web url w).
Proof.
  unfold fallback_extraction.
  apply no_chat_bind; [apply no_chat_emit; reflexivity|]. intros _ w1.
  apply no_chat_bind; [apply no_chat_call; reflexivity|]. intros r w2.
  apply no_chat_ret.
Qed.

Lemma extract_content_no_chat (url : pystr) (w : W) :
  existsb is_chat_completion (trace_of (extract_content web url w)) = false.
Proof.
  change (no_chat (extract_content web url w)). unfold extract_content.
  apply no_chat_bind; [apply no_chat_emit; reflexivity|]. intros _ w1.
  apply no_chat_bind; [apply no_chat_call; reflexivity|].
  intros [[|c rest]|] w2.
  - apply no_chat_bind; [apply no_chat_emit; reflexivity|]. intros _ w3.
    apply no_chat_ret.
  - apply no_chat_bind; [apply no_chat_emit; reflexivity|]. intros _ w3.
    apply no_chat_bind; [apply no_chat_call; reflexivity|].
    intros extracted w4.
    apply no_chat_bind.
    + destruct extracted as [[|c' rest']|];
        try apply fallback_extraction_no_chat. apply no_chat_ret.
    + intros [|c' rest'] w5.
      * apply no_chat_bind; [apply no_chat_emit; reflexivity|]. intros _ w6.
        apply no_chat_ret.
      * apply no_chat_ret.
  - apply no_chat_bind; [apply no_chat_emit; reflexivity|]. intros _ w3.
    apply no_chat_ret.
Qed.

End ContentProofs.

(** * The page *)

Lemma dealer_get_dealer_dict (d : dealer) (default : option pystr) :
  dealer_get (dealer_dict d) "business_name" default = business_name d /\
  dealer_get (dealer_dict d) "full_address" default = full_address d /\
  dealer_get (dealer_dict d) "phone_number" default = phone_number d /\
  dealer_get (dealer_dict d) "website" default = website d.
Proof. repeat split. Qed.

Lemma expander_labels_app (a b : list page_event) :
  expander_labels (a ++ b) = expander_labels a ++ expander_labels b.
Proof. apply flat_map_app. Qed.

Lemma cards_app (a b : list page_event) :
  cards (a ++ b) = cards a ++ cards b.
Proof. apply flat_map_app. Qed.

Lemma search_events_app (a b : list page_event) :
  search_events (a ++ b) = search_events a ++ search_events b.
Proof. apply flat_map_app. Qed.

Lemma expander_labels_events (t : list event) :
  expander_labels (map PgEvent t) = [].
Proof. induction t as [|ev t IH]; [reflexivity|exact IH]. Qed.

Lemma cards_events (t : list event) : cards (map PgEvent t) = [].
Proof. induction t as [|ev t IH]; [reflexivity|exact IH]. Qed.

Lemma search_events_events (t : list event) :
  search_events (map PgEvent t) = t.
Proof.
  induction t as [|ev t IH]; [reflexivity|].
  cbn. f_equal. exact IH.
Qed.

(** A text of at most five characters passes the validation exactly when
    it is five decimal digits. *)
Lemma verify_zipcode_max_chars (z : pystr) :
  length z <= 5 ->
  verify_zipcode z = Nat.eqb (length z) 5 && all_decimal z.
Proof.
  intros L. rewrite verify_zipcode_shape. unfold zipcode_shape.
  destruct z as [|a z]; [reflexivity|].
  destruct z as [|b z]; [reflexivity|].
  destruct z as [|c z]; [reflexivity|].
  destruct z as [|d z]; [reflexivity|].
  destruct z as [|e z]; [reflexivity|].
  destruct z as [|f z]; [|cbn in L; lia].
  cbn [length Nat.eqb andb]. apply andb_true_r.
Qed.

Section PageProofs.

Variable W : Type.
Variable gmaps : gmaps_client W.
Variable ui : display W.

Lemma show_dealer_labels (d : dealer) (w : W) :
  expander_labels (snd (show_dealer ui d w)) = [expander_label d].
Proof.
  unfold show_dealer.
  destruct (expander ui (expander_label d) false w) as [[[]|e] w1];
    [|reflexivity].
  destruct (components_html ui _ 500 false w1) as [[[]|e] w2]; reflexivity.
Qed.

Lemma show_dealers_labels (ds : list dealer) :
  forall w,
    expander_labels (snd (show_dealers ui ds w)) = map expander_label ds.
Proof.
  induction ds as [|d ds IH]; intros w; [reflexivity|].
  cbn [show_dealers map].
  pose proof (show_dealer_labels d w) as L.
  destruct (show_dealer ui d w) as [w1 t1].
  specialize (IH w1). destruct (show_dealers ui ds w1) as [w2 t2].
  cbn [snd] in *. rewrite expander_labels_app, L, IH. reflexivity.
Qed.

Lemma show_dealers_cards (ds : list dealer) :
  (forall label w, fst (expander ui label false w) = Returns tt) ->
  forall w,
    cards (snd (show_dealers ui ds w)) =
    map (fun d => create_dealer_html (dealer_dict d)) ds.
Proof.
  intros He. induction ds as [|d ds IH]; intros w; [reflexivity|].
  cbn [show_dealers map].
  assert (L : cards (snd (show_dealer ui d w)) =
              [create_dealer_html (dealer_dict d)]).
  { unfold show_dealer. specialize (He (expander_label d) w).
    destruct (expander ui (expander_label d) false w) as [r w1].
    cbn [fst] in He. subst r.
    destruct (components_html ui _ 500 false w1) as [[[]|e] w2];
      reflexivity. }
  destruct (show_dealer ui d w) as [w1 t1].
  specialize (IH w1). destruct (show_dealers ui ds w1) as [w2 t2].
  cbn [snd] in *. rewrite cards_app, L, IH. reflexivity.
Qed.

(** The display makes no request to the provider. *)
Lemma show_dealers_no_request (ds : list dealer) :
  forall w,
    existsb is_provider_request (search_events (snd (show_dealers ui ds w)))
    = false.
Proof.
  induction ds as [|d ds IH]; intros w; [reflexivity|].
  cbn [show_dealers].
  assert (L : existsb is_provider_request
                (search_events (snd (show_dealer ui d w))) = false).
  { unfold show_dealer.
    destruct (expander ui (expander_label d) false w) as [[[]|e] w1];
      [|reflexivity].
    destruct (components_html ui _ 500 false w1) as [[[]|e] w2];
      reflexivity. }
  destruct (show_dealer ui d w) as [w1 t1].
  specialize (IH w1). destruct (show_dealers ui ds w1) as [w2 t2].
  cbn [snd] in *. rewrite search_events_app, existsb_app, L, IH. reflexivity.
Qed.

(** The search begins with the geocoding request. *)
Lemma get_dealer_info_geocodes (fuel : nat) (zip : pystr) (w : W) :
  exists r rest,
    trace_of (get_dealer_info gmaps fuel zip w) = EvGeocode zip r :: rest.
Proof.
  unfold get_dealer_info, try_except, bind, call, trace_of.
  destruct (geocode gmaps zip w) as [[entries|e] w1].
  - exists (Returns entries).
    match goal with
    | |- context [match ?m w1 with _ => _ end] => destruct (m w1) as [[[?|?|] ?] ?]
    end; cbn; eexists; reflexivity.
  - exists (Raises e). cbn. eexists. reflexivity.
Qed.

Lemma find_dealers_valid (fuel : nat) (zip : pystr) (w : W) :
  verify_zipcode zip = true ->
  find_dealers gmaps ui fuel zip w =
  let spinner :=
    PgEvent (EvSpinner (str "Finding independent used car dealers in "
                        ++ zip ++ str "...")) in
  match get_dealer_info gmaps fuel zip w with
  | (Ok (Some (d :: rest)), w1, t) =>
      let '(w2, shown) := show_dealers ui (d :: rest) w1 in
      (Ok tt, w2, spinner :: map PgEvent t ++ found (d :: rest) zip :: shown)
  | (Ok _, w1, t) =>
      (Ok tt, w1, spinner :: map PgEvent t ++ [none_found zip])
  | (Raise e, w1, t) => (Raise e, w1, spinner :: map PgEvent t)
  | (OutOfFuel, w1, t) => (OutOfFuel, w1, spinner :: map PgEvent t)
  end.
Proof.
  intros V. unfold find_dealers. rewrite V.
  destruct zip; [discriminate V|reflexivity].
Qed.

End PageProofs.

(** * Formatting the analysis *)

Lemma item_list_cases (opening item closing : pystr) (py : python_repr)
  (v : json) :
  (listable v = true /\
   exists h, item_list py opening item closing v = Returns h) \/
  (listable v = false /\
   exists e, item_list py opening item closing v = Raises e).
Proof.
  unfold item_list, listable.
  destruct (json_truthy v) eqn:T; cbn [negb orb].
  - destruct v; cbn [iterable json_iter and_then];
      try (left; split; [reflexivity|eexists; reflexivity]);
      right; split; try reflexivity; eexists; reflexivity.
  - left. split; [reflexivity|eexists; reflexivity].
Qed.

Lemma item_list_falsy (opening item closing : pystr) (py : python_repr)
  (v : json) :
  json_truthy v = false ->
  item_list py opening item closing v = Returns [].
Proof. intros T. unfold item_list. rewrite T. reflexivity. Qed.

Lemma single_value_falsy (opening closing : pystr) (py : python_repr)
  (v : json) :
  json_truthy v = false -> single_value py opening closing v = [].
Proof. intros T. unfold single_value. rewrite T. reflexivity. Qed.

Ltac list_step :=
  match goal with
  | |- context [item_list ?py ?o ?i ?c ?v] =>
      let L := fresh "L" in
      let h := fresh "h" in
      destruct (item_list_cases o i c py v) as [[L [h ->]]|[L [h ->]]];
      rewrite L; cbn [and_then andb]
  end.

Ltac raised :=
  split; [intros [? ?]; discriminate|intros ?; discriminate].

Lemma contact_details_cases (py : python_repr) (members : list (pystr * json)) :
  (group_ok contact_lists (member members (str "contact_details")) = true /\
   exists h, contact_details py (JObj members) = Returns h) \/
  (group_ok contact_lists (member members (str "contact_details")) = false /\
   exists e, contact_details py (JObj members) = Raises e).
Proof.
  unfold contact_details, group_ok. cbn [json_get and_then].
  destruct (json_truthy (member members (str "contact_details"))) eqn:T;
    cbn [negb orb];
    [|left; split; [reflexivity|eexists; reflexivity]].
  destruct (member members (str "contact_details"));
    cbn [json_get and_then];
    try (right; split; [reflexivity|eexists; reflexivity]).
  unfold contact_lists. cbn [forallb].
  repeat (list_step;
          [|right; split; [reflexivity|eexists; reflexivity]]).
  left. split; [reflexivity|eexists; reflexivity].
Qed.

Lemma management_info_cases (py : python_repr)
  (members : list (pystr * json)) :
  (group_ok management_lists (member members (str "management_info")) = true /\
   exists h, management_info py (JObj members) = Returns h) \/
  (group_ok management_lists (member members (str "management_info")) = false /\
   exists e, management_info py (JObj members) = Raises e).
Proof.
  unfold management_info, group_ok. cbn [json_get and_then].
  destruct (json_truthy (member members (str "management_info"))) eqn:T;
    cbn [negb orb];
    [|left; split; [reflexivity|eexists; reflexivity]].
  destruct (member members (str "management_info"));
    cbn [json_get and_then];
    try (right; split; [reflexivity|eexists; reflexivity]).
  unfold management_lists. cbn [forallb].
  repeat (list_step;
          [|right; split; [reflexivity|eexists; reflexivity]]).
  left. split; [reflexivity|eexists; reflexivity].
Qed.

Lemma list_section_cases (py : python_repr) (opening : pystr)
  (members : list (pystr * json)) (key : string) :
  (listable (member members (str key)) = true /\
   exists h, list_section py opening (JObj members) key = Returns h) \/
  (listable (member members (str key)) = false /\
   exists e, list_section py opening (JObj members) key = Raises e).
Proof.
  unfold list_section. cbn [json_get and_then]. apply item_list_cases.
Qed.

(** The formatter returns exactly on the renderable objects. *)
Lemma format_object_returns (py : python_repr)
  (members : list (pystr * json)) :
  json_truthy (JObj members) = true ->
  ((exists html, format_website_analysis py (JObj members) = Returns html)
   <-> renderable (JObj members) = true).
Proof.
  intros T. unfold format_website_analysis. rewrite T. cbn [negb].
  unfold renderable.
  destruct (contact_details_cases py members) as [[C [h ->]]|[C [e ->]]];
    rewrite C; cbn [and_then andb]; [|raised].
  destruct (management_info_cases py members) as [[G [h' ->]]|[G [e ->]]];
    rewrite G; cbn [and_then andb]; [|raised].
  unfold list_sections. cbn [forallb].
  destruct (list_section_cases py inventory_open members
              "inventory_highlights") as [[L1 [h1 ->]]|[L1 [e ->]]];
    rewrite L1; cbn [and_then andb]; [|raised].
  destruct (list_section_cases py offers_open members "special_offers")
    as [[L2 [h2 ->]]|[L2 [e ->]]];
    rewrite L2; cbn [and_then andb]; [|raised].
  destruct (list_section_cases py financing_open members "financing_options")
    as [[L3 [h3 ->]]|[L3 [e ->]]];
    rewrite L3; cbn [and_then andb]; [|raised].
  destruct (list_section_cases py services_open members "services")
    as [[L4 [h4 ->]]|[L4 [e ->]]];
    rewrite L4; cbn [and_then andb]; [|raised].
  cbn [json_get and_then].
  destruct (list_section_cases py unique_open members "unique_points")
    as [[L5 [h5 ->]]|[L5 [e ->]]];
    rewrite L5; cbn [and_then andb]; [|raised].
  destruct (list_section_cases py policies_open members "policies")
    as [[L6 [h6 ->]]|[L6 [e ->]]];
    rewrite L6; cbn [and_then andb]; [|raised].
  split; [reflexivity|intros _; eexists; reflexivity].
Qed.

(** Whatever the formatter returns for a non-empty analysis begins with
    the header and ends with the note. *)
Lemma format_truthy_frame (py : python_repr) (analysis : json) (html : pystr) :
  json_truthy analysis = true ->
  format_website_analysis py analysis = Returns html ->
  exists body,
    html = analysis_header ++ body ++ analysis_note ++ str "</div>".
Proof.
  intros T. unfold format_website_analysis. rewrite T. cbn [negb].
  destruct (contact_details py analysis) as [c|]; [|discriminate].
  destruct (management_info py analysis) as [m|]; [|discriminate].
  cbn [and_then].
  destruct (list_section py inventory_open analysis "inventory_highlights")
    as [s1|]; [|discriminate].
  destruct (list_section py offers_open analysis "special_offers")
    as [s2|]; [|discriminate].
  destruct (list_section py financing_open analysis "financing_options")
    as [s3|]; [|discriminate].
  destruct (list_section py services_open analysis "services")
    as [s4|]; [|discriminate].
  cbn [and_then].
  destruct (json_get analysis "company_background") as [b|]; [|discriminate].
  cbn [and_then].
  destruct (list_section py unique_open analysis "unique_points")
    as [s5|]; [|discriminate].
  destruct (list_section py policies_open analysis "policies")
    as [s6|]; [|discriminate].
  cbn [and_then]. intros H. injection H as <-.
  exists (c ++ m ++ s1 ++ s2 ++ s3 ++ s4
          ++ single_value py background_open background_close b
          ++ s5 ++ s6).
  repeat rewrite <- app_assoc. reflexivity.
Qed.

(** The formatter reads its argument through [bool] and [get] only. *)
Lemma format_website_analysis_ext (py : python_repr) (a a' : json) :
  json_truthy a = json_truthy a' ->
  (forall key, json_get a key = json_get a' key) ->
  format_website_analysis py a = format_website_analysis py a'.
Proof.
  intros T G.
  unfold format_website_analysis, contact_details, management_info,
    list_section.
  rewrite T, !G. reflexivity.
Qed.

Lemma find_key_permutation (key : pystr) (ms ms' : list (pystr * json)) :
  Permutation ms ms' ->
  NoDup (map fst ms) ->
  find (fun kv => pystr_eqb (fst kv) key) ms =
  find (fun kv => pystr_eqb (fst kv) key) ms'.
Proof.
  intros P. induction P as [|x l l' P IH|x y l|l l' l'' P1 IH1 P2 IH2];
    intros N.
  - reflexivity.
  - cbn [find]. destruct (pystr_eqb (fst x) key); [reflexivity|].
    apply IH. inversion N. assumption.
  - cbn [find].
    destruct (pystr_eqb (fst y) key) eqn:Ey;
      destruct (pystr_eqb (fst x) key) eqn:Ex; try reflexivity.
    exfalso. apply pystr_eqb_eq in Ey, Ex.
    inversion N as [|? ? Hn _]. apply Hn. left. congruence.
  - rewrite IH1 by exact N. apply IH2.
    eapply Permutation_NoDup; [|exact N].
    apply Permutation_map, P1.
Qed.

(** * Business hours *)

Lemma startswith_app (s prefix : pystr) :
  startswith s prefix = true <-> exists post, s = prefix ++ post.
Proof.
  revert s. induction prefix as [|p ps IH]; intros s.
  - split; [intros _; exists s; reflexivity|intros _; destruct s; reflexivity].
  - destruct s as [|c cs]; cbn [startswith].
    + split; [discriminate|intros [post H]; discriminate H].
    + split.
      * intros H. apply andb_prop in H as [E H]. apply N.eqb_eq in E.
        apply IH in H as [post ->]. exists post. subst c. reflexivity.
      * intros [post H]. injection H as -> ->.
        rewrite N.eqb_refl. apply IH. exists post. reflexivity.
Qed.

(** A text in which the separator does not occur is one piece. *)
Lemma split_from_no_sep (sep : pystr) (s : pystr) :
  forall piece,
    ~ occurs sep s ->
    split_from sep 0 piece s = [rev piece ++ s].
Proof.
  induction s as [|c tl IH]; intros piece H.
  - cbn. rewrite app_nil_r. reflexivity.
  - cbn [split_from].
    destruct (startswith (c :: tl) sep) eqn:E.
    + exfalso. apply H. apply startswith_app in E as [post E].
      exists [], post. exact E.
    + rewrite IH.
      * cbn [rev]. rewrite <- app_assoc. reflexivity.
      * intros (pre & post & E'). apply H.
        exists (c :: pre), post. rewrite E'. reflexivity.
Qed.

Lemma split_no_sep (sep s : pystr) :
  ~ occurs sep s -> split s sep = [s].
Proof. intros H. unfold split. rewrite split_from_no_sep by exact H. reflexivity. Qed.

Lemma day_entries_length (current_day : pystr) (hours_lines ds : list pystr) :
  forall entries,
    day_entries current_day hours_lines ds = Returns entries ->
    exists hs,
      length hs = length ds /\
      entries = map (fun p => hours_item (current_class (fst p) current_day)
                                         (fst p) (snd p))
                    (combine ds hs).
Proof.
  induction ds as [|day rest IH]; intros entries H.
  - injection H as <-. exists []. split; reflexivity.
  - cbn [day_entries] in H.
    destruct (day_entry current_day hours_lines day) as [entry|e] eqn:E;
      [|discriminate H].
    cbn [and_then] in H.
    destruct (day_entries current_day hours_lines rest) as [es|e];
      [|discriminate H].
    cbn [and_then] in H. injection H as <-.
    destruct (IH es eq_refl) as (hs & L & ->).
    unfold day_entry in E.
    destruct (find (fun line => startswith line day) hours_lines) as [line|].
    + destruct (split line (str ": ")) as [|x [|hours more]];
        try discriminate E.
      injection E as <-. exists (strip hours :: hs).
      split; [cbn; rewrite L; reflexivity|reflexivity].
    + injection E as <-. exists (str "Closed" :: hs).
      split; [cbn; rewrite L; reflexivity|reflexivity].
Qed.

(** The only exception of the loop is the [IndexError]. *)
Lemma day_entries_raises (current_day : pystr) (hours_lines ds : list pystr) :
  forall e,
    day_entries current_day hours_lines ds = Raises e -> e = IndexError.
Proof.
  induction ds as [|day rest IH]; intros e H; [discriminate H|].
  cbn [day_entries] in H.
  destruct (day_entry current_day hours_lines day) as [entry|e'] eqn:E.
  - cbn [and_then] in H.
    destruct (day_entries current_day hours_lines rest) as [es|e''];
      [discriminate H|].
    cbn [and_then] in H. injection H as <-. apply IH. reflexivity.
  - cbn [and_then] in H. injection H as <-.
    unfold day_entry in E.
    destruct (find (fun line => startswith line day) hours_lines) as [line|];
      [|discriminate E].
    destruct (split line (str ": ")) as [|x [|hours more]];
      try discriminate E; injection E as <-; reflexivity.
Qed.

Lemma day_entries_bad_line (current_day : pystr) (hours_lines ds : list pystr)
  (day line : pystr) :
  In day ds ->
  find (fun l => startswith l day) hours_lines = Some line ->
  ~ occurs (str ": ") line ->
  day_entries current_day hours_lines ds = Raises IndexError.
Proof.
  intros Hin F N.
  destruct (day_entries current_day hours_lines ds) as [entries|e] eqn:E.
  - exfalso. revert entries E.
    induction ds as [|d rest IH]; intros entries E; [contradiction|].
    cbn [day_entries] in E.
    destruct (day_entry current_day hours_lines d) as [entry|e] eqn:E1;
      [|discriminate E].
    cbn [and_then] in E.
    destruct (day_entries current_day hours_lines rest) as [es|e];
      [|discriminate E].
    destruct Hin as [->|Hin]; [|exact (IH Hin es eq_refl)].
    unfold day_entry in E1. rewrite F, (split_no_sep N) in E1.
    discriminate E1.
  - f_equal. eapply day_entries_raises, E.
Qed.

Lemma day_entries_closed (current_day : pystr) (hours_lines ds : list pystr) :
  (forall day line, In day ds -> In line hours_lines ->
                    startswith line day = false) ->
  day_entries current_day hours_lines ds =
  Returns (map (fun day => hours_item (current_class day current_day) day
                                      (str "Closed")) ds).
Proof.
  induction ds as [|d rest IH]; intros H; [reflexivity|].
  cbn [day_entries map]. unfold day_entry at 1.
  destruct (find (fun line => startswith line d) hours_lines) as [line|] eqn:F.
  - apply find_some in F as [Hin S].
    rewrite (H d line (or_introl eq_refl) Hin) in S. discriminate S.
  - cbn [and_then]. rewrite IH; [reflexivity|].
    intros day line Hd Hl. apply H; [right; exact Hd|exact Hl].
Qed.

(** * Further properties of the code *)

(** ** The search *)

(** X1: no exception leaves [get_dealer_info]: whatever the provider does,
    a run ends with a result (or goes on asking for pages). *)
Theorem search_never_raises :
  forall W (gmaps : gmaps_client W) fuel zip w e,
    outcome_of (get_dealer_info gmaps fuel zip w) <> Raise e.
Proof.
  intros W gmaps fuel zip w e H.
  pose proof (get_dealer_info_post gmaps fuel zip w) as P.
  destruct (get_dealer_info gmaps fuel zip w) as [[[r|e'|] w'] t];
    try discriminate H. exact P.
Qed.

(** X2: an exception of the geocoding request is fatal: the result is
    [None], the error is shown with the text of the exception, and no
    nearby search is made. *)
Theorem geocoding_error_is_fatal :
  forall W (gmaps : gmaps_client W) fuel zip w w1 e,
    geocode gmaps zip w = (Raises e, w1) ->
    get_dealer_info gmaps fuel zip w =
    (Ok None, w1,
     [EvGeocode zip (Raises e);
      EvStError (str "Error finding dealer information: " ++ exn_str e)]).
Proof.
  intros W gmaps fuel zip w w1 e H.
  apply get_dealer_info_geocode_raises, H.
Qed.

Lemma geocoding_error_is_fatal_witness :
  get_dealer_info (geocoding_gmaps (Raises (Exn (str "REQUEST_DENIED"))))
    1 (str "20136") 0 =
  (Ok None, 0,
   [EvGeocode (str "20136") (Raises (Exn (str "REQUEST_DENIED")));
    EvStError (str "Error finding dealer information: REQUEST_DENIED")]).
Proof.
  exact (@geocoding_error_is_fatal nat
           (geocoding_gmaps (Raises (Exn (str "REQUEST_DENIED"))))
           1 (str "20136") 0 0 (Exn (str "REQUEST_DENIED")) eq_refl).
Defined.

(** X3: a geocoding answer whose first entry has no [geometry], or a
    geometry without [location], is fatal as well: the [KeyError] is
    shown and the result is [None], whatever the other entries are. *)
Theorem malformed_geocoding_is_fatal :
  forall W (gmaps : gmaps_client W) fuel zip w w1 entry more,
    geocode gmaps zip w = (Returns (entry :: more), w1) ->
    (forall loc, entry <> GeocodeEntry (Some (Geometry (Some loc)))) ->
    exists key,
      (key = "geometry" \/ key = "location")%string /\
      get_dealer_info gmaps fuel zip w =
      (Ok None, w1,
       [EvGeocode zip (Returns (entry :: more));
        EvStError (str "Error finding dealer information: "
                   ++ exn_str (KeyError key))]).
Proof.
  intros W gmaps fuel zip w w1 entry more Hg Hbad.
  unfold get_dealer_info, try_except. rewrite bind_call, Hg.
  destruct entry as [[[[loc|]]|]].
  - exfalso. exact (Hbad loc eq_refl).
  - exists "location"%string. split; [right; reflexivity|reflexivity].
  - exists "geometry"%string. split; [left; reflexivity|reflexivity].
Qed.

Lemma malformed_geocoding_is_fatal_witness :
  outcome_of
    (get_dealer_info
       (geocoding_gmaps
          (Returns [GeocodeEntry None; GeocodeEntry (Some (Geometry (Some bristow)))]))
       1 (str "20136") 0) = Ok None.
Proof.
  destruct (@malformed_geocoding_is_fatal nat
              (geocoding_gmaps
                 (Returns [GeocodeEntry None;
                           GeocodeEntry (Some (Geometry (Some bristow)))]))
              1 (str "20136") 0 0 (GeocodeEntry None)
              [GeocodeEntry (Some (Geometry (Some bristow)))] eq_refl)
    as (key & _ & E).
  - intros loc. discriminate.
  - rewrite E. reflexivity.
Defined.

(** X4: the keywords are asked in their fixed order, each at most once,
    around the geocoded location with a radius of 15000 metres and the
    type [car_dealer]: the first requests of a run are a prefix of the five
    of [search_queries], and all five when the run returns a list. *)
Theorem keywords_are_asked_in_order :
  forall W (gmaps : gmaps_client W) fuel zip w w1 loc more,
    geocode gmaps zip w = (Returns (located loc more), w1) ->
    exists n,
      initial_requests (trace_of (get_dealer_info gmaps fuel zip w)) =
      map (fun keyword => NearbySearch loc 15000 keyword (str "car_dealer"))
          (firstn n search_queries) /\
      (forall ds,
         outcome_of (get_dealer_info gmaps fuel zip w) = Ok (Some ds) ->
         firstn n search_queries = search_queries).
Proof.
  intros W gmaps fuel zip w w1 loc more Hg.
  rewrite (get_dealer_info_located gmaps fuel zip w Hg).
  destruct (search_all_requests gmaps fuel loc search_queries [] zip w1)
    as (n & En & Hn).
  exists n.
  destruct (search_all gmaps fuel loc search_queries [] zip w1)
    as [[[ds|e|] w2] t]; unfold trace_of, outcome_of in *;
    cbn [fst snd] in *.
  - split; [exact En|]. intros ds' _. exact (Hn ds eq_refl).
  - split; [|discriminate].
    change (initial_requests ((?a :: ?b :: t) ++ ?c))
      with (initial_requests (t ++ c)).
    rewrite initial_requests_app, app_nil_r. exact En.
  - split; [exact En|discriminate].
Qed.

(** The third keyword raises: three requests were made, in order. *)
Lemma keywords_are_asked_in_order_witness :
  exists n,
    initial_requests
      (trace_of (get_dealer_info
                   (scripted_gmaps (Some (str "pre-owned car dealer")))
                   1 (str "20136") 0)) =
    map (fun keyword => NearbySearch bristow 15000 keyword (str "car_dealer"))
        (firstn n search_queries).
Proof.
  destruct (@keywords_are_asked_in_order nat
              (scripted_gmaps (Some (str "pre-owned car dealer")))
              1 (str "20136") 0 0 bristow [] eq_refl) as (n & E & _).
  exists n. exact E.
Defined.

(** X5: a keyword whose first page has no results is done with, even when
    that page carries a token for a next page: the pages behind it are
    never asked for. *)
Theorem empty_first_page_ends_keyword :
  forall W (gmaps : gmaps_client W) fuel loc query dealers zip w w1 page,
    places_nearby gmaps (first_request loc query) w = (Returns page, w1) ->
    results page = None \/ results page = Some [] ->
    search_query gmaps fuel loc query dealers zip w =
    (Ok dealers, w1,
     [EvPlacesNearby (first_request loc query) (Returns page)]).
Proof.
  intros W gmaps fuel loc query dealers zip w w1 page Hp Hr.
  unfold search_query. rewrite bind_call, Hp.
  destruct Hr as [-> | ->]; reflexivity.
Qed.

(** Place [D] of 20136 is on the second page and is not found. *)
Lemma empty_first_page_ends_keyword_witness :
  search_query empty_first_page_gmaps 1 bristow (str "used car dealer") []
    (str "20136") 0 =
  (Ok [], 0,
   [EvPlacesNearby (first_request bristow (str "used car dealer"))
      (Returns (PlacesPage (Some []) (Some (str "page-2"))))]) /\
  outcome_of (get_dealer_info empty_first_page_gmaps 1 (str "20136") 0)
  = Ok (Some []).
Proof.
  split; [|vm_compute; reflexivity].
  exact (@empty_first_page_ends_keyword nat empty_first_page_gmaps 1 bristow
           (str "used car dealer") [] (str "20136") 0 0
           (PlacesPage (Some []) (Some (str "page-2")))
           eq_refl (or_intror eq_refl)).
Defined.

(** X6: the dealers are returned in the order in which their [place_id]
    was first discovered. *)
Theorem result_order_is_first_discovery :
  forall W (gmaps : gmaps_client W) fuel zip w ds,
    outcome_of (get_dealer_info gmaps fuel zip w) = Ok (Some ds) ->
    map place_id ds =
    first_occurrences
      (map place_id
         (discovered zip (trace_of (get_dealer_info gmaps fuel zip w)))).
Proof.
  intros W gmaps fuel zip w ds H.
  apply get_dealer_info_result in H as [-> _].
  rewrite unique_dealers_ids. apply dict_keys_first_occurrences.
Qed.

Lemma result_order_is_first_discovery_witness :
  map place_id [dealer_A_later; dealer_D] =
  first_occurrences (map place_id [dealer_A_first; dealer_D; dealer_A_later]).
Proof.
  assert (H : outcome_of (get_dealer_info demo_gmaps 1 (str "20136") 0)
              = Ok (Some [dealer_A_later; dealer_D]))
    by (vm_compute; reflexivity).
  assert (T : discovered (str "20136")
                (trace_of (get_dealer_info demo_gmaps 1 (str "20136") 0))
              = [dealer_A_first; dealer_D; dealer_A_later])
    by (vm_compute; reflexivity).
  rewrite <- T.
  exact (@result_order_is_first_discovery nat demo_gmaps 1 (str "20136") 0
           _ H).
Defined.

(** X7: when the discovered dealers have distinct [place_id]s the
    deduplication changes nothing: the same dealers, in the same order. *)
Theorem distinct_dealers_are_kept :
  forall l, NoDup (map place_id l) -> unique_dealers l = l.
Proof. exact unique_dealers_distinct. Qed.

Lemma distinct_dealers_are_kept_witness :
  unique_dealers [dealer_A_first; dealer_D; dealer_B]
  = [dealer_A_first; dealer_D; dealer_B].
Proof.
  apply distinct_dealers_are_kept.
  repeat constructor; cbn; intuition discriminate.
Defined.

(** X8: [process_results] requests the details of every hit that has a
    [place_id] exactly once, in the order of the hits, whatever the
    requests answer. *)
Theorem each_hit_is_fetched_once :
  forall W (gmaps : gmaps_client W) hits dealers target w,
    place_requests (trace_of (process_results gmaps hits dealers target w))
    = hit_ids hits.
Proof.
  intros W gmaps hits dealers target w.
  apply process_results_requests.
Qed.

(** ** The two patterns *)

(** X9: [verify_zipcode] accepts exactly the strings of five Unicode
    decimal digits, with or without one final line feed; in particular
    every string of five ASCII digits. *)
Theorem verify_zipcode_accepts_exactly :
  forall s,
    (verify_zipcode s = true <->
     exists d, length d = 5 /\ all_decimal d = true /\
               (s = d \/ s = d ++ [LF])) /\
    (five_ascii_digits s = true -> verify_zipcode s = true).
Proof.
  intros s. split.
  - apply verify_zipcode_spec.
  - apply verify_zipcode_five_ascii_digits.
Qed.

(** X10: [extract_zipcode] misses no delimited run: it returns [None]
    exactly when the address has no run of five digits between a
    whitespace or comma and a whitespace, comma or hyphen. *)
Theorem extract_zipcode_none_iff :
  forall a,
    extract_zipcode a = None <-> forall pre z, ~ delimited_run a pre z.
Proof.
  intros a. split.
  - apply extract_zipcode_none.
  - intros H. destruct (extract_zipcode a) as [z|] eqn:E; [|reflexivity].
    apply extract_zipcode_some in E as (pre & R & _).
    exfalso. exact (H pre z R).
Qed.

(** ** The website analysis *)

(** X11: the service sees at most the first 4000 characters of the text:
    the request is the one of the text cut at 4000, a text of at most 4000
    characters is embedded whole, and the prompt is never longer than its
    fixed parts and 4000 characters. *)
Theorem request_uses_first_4000_characters :
  forall text_content,
    analysis_request text_content
      = analysis_request (firstn 4000 text_content) /\
    (length text_content <= 4000 ->
     analysis_prompt text_content
       = prompt_head ++ text_content ++ prompt_tail) /\
    length (analysis_prompt text_content)
      <= length prompt_head + 4000 + length prompt_tail.
Proof.
  intros t. unfold analysis_request, analysis_prompt. split; [|split].
  - rewrite firstn_firstn, Nat.min_id. reflexivity.
  - intros H. rewrite firstn_all2 by exact H. reflexivity.
  - rewrite !length_app. pose proof (firstn_le_length 4000 t) as L1.
    assert (L2 : length (firstn 4000 t) <= 4000).
    { rewrite length_firstn. apply Nat.le_min_l. }
    lia.
Qed.

(** X12: when the text-generation service raises, answers without a
    choice, or answers with a choice without content, the analysis is
    [None] and the error is shown: nothing is decoded. *)
Theorem service_failure_returns_none :
  forall W (web : web_client W) url w text_content w0 t0 answer w1,
    extract_content web url w = (Ok (Some text_content), w0, t0) ->
    chat_completion_create web (analysis_request text_content) w0
      = (answer, w1) ->
    forall e,
      answer = Raises e \/
      (exists response,
         answer = Returns response /\
         ((choices response = [] /\ e = IndexError) \/
          (exists rest, choices response = None :: rest /\
                        e = TypeError_json_loads_None))) ->
      extract_website_info web url w =
      (Ok PyNone, w1,
       (t0 ++ [EvStWrite [str "Analyzing content with OpenAI..."];
               EvChatCompletion (analysis_request text_content) answer])
       ++ analysis_failed e).
Proof.
  intros W web url w text_content w0 t0 answer w1 Hc Hs e Ha.
  rewrite extract_website_info_run, Hc, analyze_content_run, Hs.
  destruct Ha as [-> | (response & -> & [[Hch ->] | (rest & Hch & ->)])].
  - reflexivity.
  - cbn zeta. rewrite Hch. reflexivity.
  - cbn zeta. rewrite Hch. reflexivity.
Qed.

Lemma service_failure_returns_none_witness :
  outcome_of
    (extract_website_info
       (replying_web (Returns (Some dealer_page))
          (Returns (Some (str "We sell cars")))
          (Returns (HttpResponse dealer_page)) dealer_tree
          (Raises rate_limited) (Returns (JObj [])))
       dealer_url tt) = Ok PyNone.
Proof.
  set (web := replying_web (Returns (Some dealer_page))
                (Returns (Some (str "We sell cars")))
                (Returns (HttpResponse dealer_page)) dealer_tree
                (Raises rate_limited) (Returns (JObj []))).
  assert (Hc : extract_content web dealer_url tt =
               (Ok (Some (str "We sell cars")), tt,
                [EvStWrite [str "Downloading website content..."];
                 EvFetchUrl dealer_url (Returns (Some dealer_page));
                 EvStWrite [str "Extracting main content..."];
                 EvTrafilaturaExtract dealer_page
                   (Returns (Some (str "We sell cars")))]))
    by (vm_compute; reflexivity).
  rewrite (@service_failure_returns_none unit web dealer_url tt _ tt _
             (Raises rate_limited) tt Hc eq_refl rate_limited
             (or_introl eq_refl)).
  reflexivity.
Defined.

(** X13: the text-generation service is asked only for a page that gave
    text: when the content phase ends without text, by [None] or by an
    exception, no completion is requested. *)
Theorem no_completion_without_content :
  forall W (web : web_client W) url w,
    (forall text_content,
       outcome_of (extract_content web url w) <> Ok (Some text_content)) ->
    existsb is_chat_completion
      (trace_of (extract_website_info web url w)) = false.
Proof.
  intros W web url w H. rewrite extract_website_info_run.
  pose proof (extract_content_no_chat web url w) as N.
  destruct (extract_content web url w) as [[[[text_content|]|e|] w1] t1];
    unfold trace_of in N |- *; cbn [snd] in N |- *.
  - exfalso. exact (H text_content eq_refl).
  - exact N.
  - rewrite existsb_app, N. reflexivity.
  - exact N.
Qed.

Lemma no_completion_without_content_witness :
  existsb is_chat_completion
    (trace_of
       (extract_website_info
          (replying_web (Returns (Some dealer_page)) (Returns None)
             (Raises timed_out) dealer_tree
             (Returns (ChatResponse [Some (str "{}")])) (Returns (JObj [])))
          dealer_url tt)) = false.
Proof.
  apply no_completion_without_content.
  intros text_content. vm_compute. discriminate.
Defined.

(** X14: an exception of the download, of the extraction or of the plain
    GET (its timeout, say) ends the analysis with [None] and the error
    shown; after a failed GET the trace shows that the fallback was
    tried. *)
Theorem download_errors_return_none :
  (forall W (web : web_client W) url w w1 e,
     fetch_url web url w = (Raises e, w1) ->
     extract_website_info web url w =
     (Ok PyNone, w1,
      [EvStWrite [str "Downloading website content..."];
       EvFetchUrl url (Raises e)] ++ analysis_failed e)) /\
  (forall W (web : web_client W) url w w1 w2 c rest e,
     fetch_url web url w = (Returns (Some (c :: rest)), w1) ->
     trafilatura_extract web (c :: rest) w1 = (Raises e, w2) ->
     extract_website_info web url w =
     (Ok PyNone, w2,
      [EvStWrite [str "Downloading website content..."];
       EvFetchUrl url (Returns (Some (c :: rest)));
       EvStWrite [str "Extracting main content..."];
       EvTrafilaturaExtract (c :: rest) (Raises e)] ++ analysis_failed e)) /\
  (forall W (web : web_client W) url w w1 w2 w3 c rest extracted e,
     fetch_url web url w = (Returns (Some (c :: rest)), w1) ->
     trafilatura_extract web (c :: rest) w1 = (Returns extracted, w2) ->
     extracted = None \/ extracted = Some [] ->
     requests_get web url 10 w2 = (Raises e, w3) ->
     extract_website_info web url w =
     (Ok PyNone, w3,
      [EvStWrite [str "Downloading website content..."];
       EvFetchUrl url (Returns (Some (c :: rest)));
       EvStWrite [str "Extracting main content..."];
       EvTrafilaturaExtract (c :: rest) (Returns extracted);
       EvStWrite [str "Trying alternative content extraction..."];
       EvRequestsGet url 10 (Raises e)] ++ analysis_failed e)).
Proof.
  split; [|split].
  - intros W web url w w1 e Hf.
    rewrite extract_website_info_run. unfold extract_content.
    rewrite bind_emit, bind_call, Hf. reflexivity.
  - intros W web url w w1 w2 c rest e Hf He.
    rewrite extract_website_info_run. unfold extract_content.
    rewrite bind_emit, bind_call, Hf, bind_emit, bind_call, He. reflexivity.
  - intros W web url w w1 w2 w3 c rest extracted e Hf He Hx Hr.
    rewrite extract_website_info_run. unfold extract_content.
    rewrite bind_emit, bind_call, Hf, bind_emit, bind_call, He.
    assert (Hfb : fallback_extraction web url w2 =
                  (Raise e, w3,
                   [EvStWrite [str "Trying alternative content extraction..."];
                    EvRequestsGet url 10 (Raises e)])).
    { unfold fallback_extraction. rewrite bind_emit, bind_call, Hr.
      reflexivity. }
    destruct Hx as [-> | ->]; unfold bind; rewrite Hfb; reflexivity.
Qed.

Lemma download_errors_return_none_witness :
  outcome_of
    (extract_website_info
       (replying_web (Returns (Some dealer_page)) (Returns None)
          (Raises timed_out) dealer_tree
          (Returns (ChatResponse [Some (str "{}")])) (Returns (JObj [])))
       dealer_url tt) = Ok PyNone.
Proof.
  rewrite (proj2 (proj2 download_errors_return_none) unit
             (replying_web (Returns (Some dealer_page)) (Returns None)
                (Raises timed_out) dealer_tree
                (Returns (ChatResponse [Some (str "{}")]))
                (Returns (JObj [])))
             dealer_url tt tt tt tt 60%N (tl dealer_page) None timed_out
             eq_refl eq_refl (or_introl eq_refl) eq_refl).
  reflexivity.
Defined.

(** X15: the fallback finds no content exactly when every text node of
    the page outside the [script] and [style] elements is whitespace. *)
Theorem fallback_text_empty_iff_blank :
  forall W (web : web_client W) response,
    fallback_text web response = [] <->
    forall s, In s (visible_strings web response) -> blank s = true.
Proof.
  intros W web response. unfold fallback_text, visible_strings.
  rewrite <- stripped_strings_nil. split.
  - apply join_nil. apply stripped_strings_nonempty.
  - intros ->. reflexivity.
Qed.

(** ** The dealer card and the page *)

(** X16: on a dealer built by [process_results] the defaults of
    [create_dealer_html] never apply, since the dict has every key: a
    missing name, address or phone number is shown as the text [None],
    and only the website falls back to [N/A] (when it is [None] or
    empty). *)
Theorem card_defaults_never_apply :
  forall d : dealer,
    create_dealer_html (dealer_dict d) =
    card_upto_name ++ py_format (business_name d)
    ++ card_upto_address ++ py_format (full_address d)
    ++ card_upto_phone ++ py_format (phone_number d)
    ++ card_upto_website
    ++ match website d with
       | Some (c :: link) =>
           literal "<a href=$" ++ (c :: link) ++ literal "$ target=$_blank$>"
           ++ (c :: link) ++ str "</a>"
       | _ => str "N/A"
       end
    ++ card_end.
Proof.
  intros d. unfold create_dealer_html.
  destruct (dealer_get_dealer_dict d (Some (str "Unknown Dealer")))
    as (-> & _).
  destruct (dealer_get_dealer_dict d (Some (str "N/A")))
    as (_ & -> & -> & _).
  destruct (dealer_get_dealer_dict d None) as (_ & _ & _ & ->).
  unfold website_html.
  destruct (website d) as [[|c link]|]; reflexivity.
Qed.

(** X17: the input field holds at most five characters; for such a text
    a click reaches the provider exactly when the text is five decimal
    digits. *)
Theorem search_runs_iff_five_digits :
  forall W (gmaps : gmaps_client W) (ui : display W) fuel z w,
    length z <= 5 ->
    (existsb is_provider_request
       (search_events (snd (find_dealers gmaps ui fuel z w))) = true
     <-> (length z = 5 /\ all_decimal z = true)).
Proof.
  intros W gmaps ui fuel z w L.
  pose proof (verify_zipcode_max_chars z L) as V.
  destruct (verify_zipcode z) eqn:Hv.
  - symmetry in V. apply andb_prop in V as [V1 V2].
    apply Nat.eqb_eq in V1. split; [intros _; split; assumption|intros _].
    rewrite (find_dealers_valid gmaps ui fuel z w Hv).
    destruct (get_dealer_info_geocodes gmaps fuel z w) as (r & rest & T).
    unfold trace_of in T. cbv zeta.
    destruct (get_dealer_info gmaps fuel z w) as [[[[[|d ds]|]|e|] w1] t];
      cbn [snd] in T; subst t;
      try destruct (show_dealers ui (d :: ds) w1) as [w2 shown];
      reflexivity.
  - split.
    + intros H. exfalso. unfold find_dealers in H. rewrite Hv in H.
      destruct z; discriminate H.
    + intros [L5 D]. rewrite L5, D in V. discriminate V.
Qed.

Lemma search_runs_iff_five_digits_witness :
  existsb is_provider_request
    (search_events
       (snd (find_dealers demo_gmaps (scripted_display []) 1
               (str "2013") 0))) = true
  <-> (length (str "2013") = 5 /\ all_decimal (str "2013") = true).
Proof.
  apply (@search_runs_iff_five_digits nat demo_gmaps (scripted_display [])
           1 (str "2013") 0).
  cbn. lia.
Defined.

(** X18: the page shows a search that failed ([None]) and a search that
    found no dealer (the empty list) in the same way: after the events
    of the search comes the one error message, and nothing else. *)
Theorem no_dealers_and_failure_look_alike :
  forall W (gmaps : gmaps_client W) (ui : display W) fuel z w,
    verify_zipcode z = true ->
    outcome_of (get_dealer_info gmaps fuel z w) = Ok None \/
    outcome_of (get_dealer_info gmaps fuel z w) = Ok (Some []) ->
    snd (find_dealers gmaps ui fuel z w) =
    PgEvent (EvSpinner (str "Finding independent used car dealers in "
                        ++ z ++ str "..."))
    :: map PgEvent (trace_of (get_dealer_info gmaps fuel z w))
    ++ [PgEvent
          (EvStError (str "No independent dealers found in zipcode "
                      ++ z ++ str ". Try a different zip code."))].
Proof.
  intros W gmaps ui fuel z w V H.
  rewrite (find_dealers_valid gmaps ui fuel z w V).
  unfold outcome_of, trace_of in *.
  destruct (get_dealer_info gmaps fuel z w) as [[[[[|d ds]|]|e|] w1] t];
    cbn [fst snd] in *; destruct H as [H|H]; try discriminate H;
    reflexivity.
Qed.

Lemma no_dealers_and_failure_look_alike_witness :
  snd (find_dealers demo_gmaps (scripted_display []) 1 (str "20137") 0) =
  PgEvent (EvSpinner (str "Finding independent used car dealers in "
                      ++ str "20137" ++ str "..."))
  :: map PgEvent (trace_of (get_dealer_info demo_gmaps 1 (str "20137") 0))
  ++ [PgEvent
        (EvStError (str "No independent dealers found in zipcode "
                    ++ str "20137" ++ str ". Try a different zip code."))].
Proof.
  apply (@no_dealers_and_failure_look_alike nat demo_gmaps
           (scripted_display []) 1 (str "20137") 0).
  - vm_compute. reflexivity.
  - right. vm_compute. reflexivity.
Defined.

(** X19: when the search returns dealers, the page announces their
    number and opens one expander per dealer, in the order of the list
    and labelled with the dealer's name ([None] when it has none); a
    display call that raises does not end the loop. *)
Theorem every_dealer_gets_an_expander :
  forall W (gmaps : gmaps_client W) (ui : display W) fuel z w d ds,
    verify_zipcode z = true ->
    outcome_of (get_dealer_info gmaps fuel z w) = Ok (Some (d :: ds)) ->
    fst (fst (find_dealers gmaps ui fuel z w)) = Ok tt /\
    In (PgSuccess (str "Found " ++ str_of_nat (length (d :: ds))
                   ++ str " independent dealers in " ++ z))
       (snd (find_dealers gmaps ui fuel z w)) /\
    expander_labels (snd (find_dealers gmaps ui fuel z w)) =
    map (fun x => CAR ++ py_format (business_name x)) (d :: ds).
Proof.
  intros W gmaps ui fuel z w d ds V H.
  rewrite (find_dealers_valid gmaps ui fuel z w V).
  unfold outcome_of in *.
  destruct (get_dealer_info gmaps fuel z w) as [[[[[|d' ds']|]|e|] w1] t];
    cbn [fst] in H; try discriminate H.
  injection H as -> ->. cbv zeta.
  pose proof (show_dealers_labels ui (d :: ds) w1) as L.
  destruct (show_dealers ui (d :: ds) w1) as [w2 shown].
  cbn [fst snd] in *. split; [reflexivity|]. split.
  - right. apply in_or_app. right. left. reflexivity.
  - change (?a :: ?l ++ ?b :: ?m) with ([a] ++ l ++ [b] ++ m).
    rewrite !expander_labels_app, expander_labels_events, L.
    reflexivity.
Qed.

Lemma every_dealer_gets_an_expander_witness :
  fst (fst (find_dealers demo_gmaps
              (scripted_display [expander_label dealer_A_later]) 1
              (str "20136") 0)) = Ok tt /\
  In (PgSuccess (str "Found " ++ str_of_nat (length [dealer_A_later; dealer_D])
                 ++ str " independent dealers in " ++ str "20136"))
     (snd (find_dealers demo_gmaps
             (scripted_display [expander_label dealer_A_later]) 1
             (str "20136") 0)) /\
  expander_labels
    (snd (find_dealers demo_gmaps
            (scripted_display [expander_label dealer_A_later]) 1
            (str "20136") 0)) =
  map (fun x => CAR ++ py_format (business_name x))
      [dealer_A_later; dealer_D].
Proof.
  apply (@every_dealer_gets_an_expander nat demo_gmaps
           (scripted_display [expander_label dealer_A_later]) 1
           (str "20136") 0 dealer_A_later [dealer_D]).
  - vm_compute. reflexivity.
  - vm_compute. reflexivity.
Defined.

(** X20: when the expanders open, the cards handed to [components.html]
    are those of the returned dealers, one each and in the order of the
    list. *)
Theorem cards_follow_the_result :
  forall W (gmaps : gmaps_client W) (ui : display W) fuel z w d ds,
    verify_zipcode z = true ->
    outcome_of (get_dealer_info gmaps fuel z w) = Ok (Some (d :: ds)) ->
    (forall label w', fst (expander ui label false w') = Returns tt) ->
    cards (snd (find_dealers gmaps ui fuel z w)) =
    map (fun x => create_dealer_html (dealer_dict x)) (d :: ds).
Proof.
  intros W gmaps ui fuel z w d ds V H He.
  rewrite (find_dealers_valid gmaps ui fuel z w V).
  unfold outcome_of in *.
  destruct (get_dealer_info gmaps fuel z w) as [[[[[|d' ds']|]|e|] w1] t];
    cbn [fst] in H; try discriminate H.
  injection H as -> ->. cbv zeta.
  pose proof (show_dealers_cards ui (d :: ds) He w1) as L.
  destruct (show_dealers ui (d :: ds) w1) as [w2 shown].
  cbn [fst snd] in *.
  change (?a :: ?l ++ ?b :: ?m) with ([a] ++ l ++ [b] ++ m).
  rewrite !cards_app, cards_events, L. reflexivity.
Qed.

Lemma cards_follow_the_result_witness :
  cards (snd (find_dealers demo_gmaps (scripted_display []) 1
                (str "20136") 0)) =
  map (fun x => create_dealer_html (dealer_dict x))
      [dealer_A_later; dealer_D].
Proof.
  apply (@cards_follow_the_result nat demo_gmaps (scripted_display []) 1
           (str "20136") 0 dealer_A_later [dealer_D]).
  - vm_compute. reflexivity.
  - vm_compute. reflexivity.
  - intros label w'. reflexivity.
Defined.

(** ** The formatting of the analysis *)

(** X21: an analysis that is not empty and not a dict (a list, a number,
    a string, [True]) makes [format_website_analysis] raise the
    [AttributeError] of its first [.get]. *)
Theorem non_object_analysis_raises :
  forall py analysis,
    json_truthy analysis = true ->
    (forall members, analysis <> JObj members) ->
    format_website_analysis py analysis =
    Raises (AttributeError (type_name analysis) "get").
Proof.
  intros py analysis T H. unfold format_website_analysis. rewrite T.
  destruct analysis; try reflexivity.
  exfalso. exact (H members eq_refl).
Qed.

Lemma non_object_analysis_raises_witness :
  format_website_analysis demo_repr (JArr [JStr (str "SUVs")]) =
  Raises (AttributeError (type_name (JArr [JStr (str "SUVs")])) "get").
Proof.
  apply (@non_object_analysis_raises demo_repr (JArr [JStr (str "SUVs")])).
  - reflexivity.
  - intros members H. discriminate H.
Defined.

(** X22: the card [Could not analyze website content] is returned
    exactly for the analyses that are empty in the sense of [bool]:
    [None], the empty dict, list or string, zero and [False]. *)
Theorem unavailable_card_iff_empty :
  forall py analysis,
    format_website_analysis py analysis = Returns analysis_unavailable
    <-> json_truthy analysis = false.
Proof.
  intros py analysis. split.
  - intros H. destruct (json_truthy analysis) eqn:T; [|reflexivity].
    destruct (format_truthy_frame py analysis T H) as [body E].
    apply (f_equal (firstn 6)) in E. vm_compute in E. discriminate E.
  - intros T. unfold format_website_analysis. rewrite T. reflexivity.
Qed.

(** X23: for an analysis that is not empty, the formatter returns a text
    exactly when the analysis is a dict in which each of the six list
    sections and each list field of [contact_details] and
    [management_info] is empty or iterable, and these two are empty or
    dicts; otherwise it raises. *)
Theorem formatting_succeeds_iff_renderable :
  forall py analysis,
    json_truthy analysis = true ->
    ((exists html, format_website_analysis py analysis = Returns html)
     <-> renderable analysis = true).
Proof.
  intros py analysis T.
  destruct analysis as [|b|z|m e|s|items|members];
    try (unfold format_website_analysis; rewrite T; cbn; raised).
  apply format_object_returns, T.
Qed.

Lemma formatting_succeeds_iff_renderable_witness :
  (exists html,
     format_website_analysis demo_repr
       (JObj [(str "services", JArr [JStr (str "Financing")]);
              (str "contact_details", JStr (str "call us"))])
     = Returns html)
  <-> renderable (JObj [(str "services", JArr [JStr (str "Financing")]);
                        (str "contact_details", JStr (str "call us"))])
      = true.
Proof.
  apply (@formatting_succeeds_iff_renderable demo_repr
           (JObj [(str "services", JArr [JStr (str "Financing")]);
                  (str "contact_details", JStr (str "call us"))])).
  reflexivity.
Defined.

(** X24: the text does not depend on the order of the keys in the
    answer: the sections come in the order of the code. *)
Theorem key_order_is_irrelevant :
  forall py members members',
    NoDup (map fst members) ->
    Permutation members members' ->
    format_website_analysis py (JObj members) =
    format_website_analysis py (JObj members').
Proof.
  intros py members members' N P.
  apply format_website_analysis_ext.
  - cbn [json_truthy]. destruct members as [|x l].
    + apply Permutation_nil in P. subst members'. reflexivity.
    + destruct members' as [|y l']; [|reflexivity].
      apply Permutation_sym, Permutation_nil in P. discriminate P.
  - intros key. cbn [json_get]. unfold member.
    rewrite (find_key_permutation (str key) P N). reflexivity.
Qed.

Lemma key_order_is_irrelevant_witness :
  format_website_analysis demo_repr
    (JObj [(str "policies", JArr [JStr (str "7-day returns")]);
           (str "services", JArr [JStr (str "Financing")])]) =
  format_website_analysis demo_repr
    (JObj [(str "services", JArr [JStr (str "Financing")]);
           (str "policies", JArr [JStr (str "7-day returns")])]).
Proof.
  apply (@key_order_is_irrelevant demo_repr
           [(str "policies", JArr [JStr (str "7-day returns")]);
            (str "services", JArr [JStr (str "Financing")])]
           [(str "services", JArr [JStr (str "Financing")]);
            (str "policies", JArr [JStr (str "7-day returns")])]).
  - repeat constructor; cbn; intuition discriminate.
  - apply perm_swap.
Defined.

(** X25: a dict in which none of the nine sections holds anything (it
    may have other keys) is formatted as the header followed by the
    closing note: no section is opened. *)
Theorem empty_sections_give_only_the_frame :
  forall py members,
    members <> [] ->
    (forall key, In key expected_keys ->
                 json_truthy (member members key) = false) ->
    format_website_analysis py (JObj members) =
    Returns (analysis_header ++ analysis_note ++ str "</div>").
Proof.
  intros py members Hne H.
  assert (T : json_truthy (JObj members) = true)
    by (destruct members; [contradiction|reflexivity]).
  unfold format_website_analysis. rewrite T. cbn [negb].
  unfold contact_details, management_info, list_section.
  cbn [json_get and_then].
  rewrite (H (str "contact_details")) by (cbn; tauto).
  rewrite (H (str "management_info")) by (cbn; tauto).
  cbn [and_then].
  rewrite !item_list_falsy by (apply H; cbn; tauto).
  cbn [and_then].
  rewrite single_value_falsy by (apply H; cbn; tauto).
  reflexivity.
Qed.

Lemma empty_sections_give_only_the_frame_witness :
  format_website_analysis demo_repr
    (JObj [(str "error", JStr (str "no dealer information found"));
           (str "services", JArr [])]) =
  Returns (analysis_header ++ analysis_note ++ str "</div>").
Proof.
  apply (@empty_sections_give_only_the_frame demo_repr
           [(str "error", JStr (str "no dealer information found"));
            (str "services", JArr [])]).
  - discriminate.
  - intros key H. cbn in H.
    repeat (destruct H as [<-|H]; [reflexivity|]). contradiction.
Defined.

(** ** Business hours *)

(** X26: for a text that is not empty, [format_business_hours] returns
    either a list of exactly seven entries, Monday to Sunday in this
    order whatever the order of the lines (the entry of the current day
    marked), or the text itself after the warning
    [Error formatting hours: list index out of range]. *)
Theorem hours_are_a_week_or_the_input :
  forall current_day hours_text,
    hours_text <> [] ->
    (exists hs,
       length hs = 7 /\
       format_business_hours current_day hours_text =
       (str "<ul class='hours-list'>"
        ++ concat (map (fun p => hours_item
                                   (current_class (fst p) current_day)
                                   (fst p) (snd p))
                       (combine days hs))
        ++ str "</ul>", []))
    \/ format_business_hours current_day hours_text =
       (hours_text,
        [EvStWarning
           (str "Error formatting hours: list index out of range")]).
Proof.
  intros current_day hours_text H. unfold format_business_hours.
  destruct hours_text as [|c tl]; [contradiction|].
  destruct (day_entries current_day (split (c :: tl) [LF]) days)
    as [entries|e] eqn:E.
  - left. apply day_entries_length in E as (hs & L & ->).
    exists hs. split; [exact L|reflexivity].
  - right. apply day_entries_raises in E. subst e. reflexivity.
Qed.

Lemma hours_are_a_week_or_the_input_witness :
  (exists hs,
     length hs = 7 /\
     format_business_hours (str "Tuesday") weekday_text =
     (str "<ul class='hours-list'>"
      ++ concat (map (fun p => hours_item
                                 (current_class (fst p) (str "Tuesday"))
                                 (fst p) (snd p))
                     (combine days hs))
      ++ str "</ul>", []))
  \/ format_business_hours (str "Tuesday") weekday_text =
     (weekday_text,
      [EvStWarning (str "Error formatting hours: list index out of range")]).
Proof.
  apply (@hours_are_a_week_or_the_input (str "Tuesday") weekday_text).
  discriminate.
Defined.

(** X27: one line without [": "] is enough to lose the whole list: when
    the first line that starts with the name of a day does not contain
    the separator, the function warns and returns the text as it came. *)
Theorem day_line_without_separator_falls_back :
  forall current_day hours_text day line,
    In day days ->
    find (fun l => startswith l day) (split hours_text [LF]) = Some line ->
    ~ occurs (str ": ") line ->
    format_business_hours current_day hours_text =
    (hours_text,
     [EvStWarning (str "Error formatting hours: list index out of range")]).
Proof.
  intros current_day hours_text day line Hin F N.
  unfold format_business_hours.
  destruct hours_text as [|c tl].
  - exfalso. cbn in F.
    destruct day as [|x day']; [|discriminate F].
    cbn in Hin. intuition discriminate.
  - rewrite (@day_entries_bad_line current_day _ _ day line Hin F N). reflexivity.
Qed.

Lemma day_line_without_separator_falls_back_witness :
  format_business_hours (str "Friday")
    (str "Monday: 9:00 AM - 6:00 PM" ++ [LF] ++ str "Sunday") =
  (str "Monday: 9:00 AM - 6:00 PM" ++ [LF] ++ str "Sunday",
   [EvStWarning (str "Error formatting hours: list index out of range")]).
Proof.
  apply (@day_line_without_separator_falls_back (str "Friday")
           (str "Monday: 9:00 AM - 6:00 PM" ++ [LF] ++ str "Sunday")
           (str "Sunday") (str "Sunday")).
  - cbn. tauto.
  - vm_compute. reflexivity.
  - intros (pre & post & E). cbn in E.
    do 6 (destruct pre as [|? pre]; [discriminate E|];
          injection E as _ E).
    destruct pre; discriminate E.
Defined.

(** X28: a text none of whose lines starts with the English name of a
    day ([Open 24 hours], or names in another language) is shown as a
    week of seven [Closed] days. *)
Theorem unmatched_days_are_closed :
  forall current_day hours_text,
    hours_text <> [] ->
    (forall day line,
       In day days -> In line (split hours_text [LF]) ->
       startswith line day = false) ->
    format_business_hours current_day hours_text =
    (str "<ul class='hours-list'>"
     ++ concat (map (fun day => hours_item (current_class day current_day)
                                           day (str "Closed")) days)
     ++ str "</ul>", []).
Proof.
  intros current_day hours_text Hne H. unfold format_business_hours.
  destruct hours_text as [|c tl]; [contradiction|].
  rewrite (@day_entries_closed current_day _ _ H). reflexivity.
Qed.

Lemma unmatched_days_are_closed_witness :
  format_business_hours (str "Friday") (str "Open 24 hours") =
  (str "<ul class='hours-list'>"
   ++ concat (map (fun day => hours_item (current_class day (str "Friday"))
                                         day (str "Closed")) days)
   ++ str "</ul>", []).
Proof.
  apply (@unmatched_days_are_closed (str "Friday") (str "Open 24 hours")).
  - discriminate.
  - intros day line Hd Hl. vm_compute in Hl.
    destruct Hl as [<-|[]]. cbn in Hd.
    repeat (destruct Hd as [<-|Hd]; [reflexivity|]). contradiction.
Defined.

(** ** Ratings *)



(** X30: a rating without a count in parentheses (the text does not
    contain [ (]) is not formatted: the function warns that there are not
    enough values to unpack and returns the text as it came. *)
Theorem rating_without_count_falls_back :
  forall py float_of_str rating_text,
    rating_text <> [] ->
    rating_text <> str "N/A" ->
    ~ occurs (str " (") rating_text ->
    format_rating py float_of_str rating_text =
    (rating_text,
     [EvStWarning
        (str "Error formatting rating: not enough values to unpack (expected 2, got 1)")]).
Proof.
  intros py float_of_str rating_text Hne Hna N.
  unfold format_rating.
  destruct rating_text as [|c tl]; [contradiction|]. cbn [orb].
  destruct (pystr_eqb (c :: tl) (str "N/A")) eqn:E.
  - apply pystr_eqb_eq in E. contradiction.
  - unfold rating_block. rewrite (split_no_sep N). reflexivity.
Qed.

Lemma rating_without_count_falls_back_witness :
  format_rating demo_repr demo_float (str "4.5") =
  (str "4.5",
   [EvStWarning
      (str "Error formatting rating: not enough values to unpack (expected 2, got 1)")]).
Proof.
  apply (@rating_without_count_falls_back demo_repr demo_float (str "4.5")).
  - discriminate.
  - discriminate.
  - intros (pre & post & E). cbn in E.
    do 3 (destruct pre as [|? pre]; [discriminate E|];
          injection E as _ E).
    destruct pre; discriminate E.
Defined.
